(** * Scoring and progression core of the math tutoring game

    A shallow embedding of the TypeScript services that score an answer,
    turn the score into experience, understanding and mood, persist the
    character state and derive recommendations:

    - [backend/src/services/answerEvaluationService.ts]
    - [backend/src/services/mathQuestionService.ts]
    - [backend/src/services/geminiService.ts] (class [GeminiService])
    - [backend/src/services/characterService.ts] (class [CharacterService])
    - [backend/src/services/adaptiveLearningService.ts]
    - [src/hooks/useCharacterState.ts]

    JavaScript strings are sequences of UTF-16 code units, numbers that the
    code only ever uses as integers are [Z], exceptions are an explicit
    result type, [Math.random()] is an explicit argument, and the Prisma
    table of character states is a finite map from user id to row. *)

From Stdlib Require Import ZArith NArith List String Ascii Bool Lia.
From stdpp Require Import gmap strings list.
From Stdlib Require Import QArith.
Import ListNotations.

Local Open Scope Z_scope.

(* ===================================================================== *)
(** ** JavaScript values used by the services *)
(* ===================================================================== *)

Module Js.

(** A JavaScript string: its UTF-16 code units. *)
Definition jsstring := list N.

(** *** Writing string constants

    The source text is UTF-8; [js] decodes a literal into the code units
    the JavaScript engine holds for it (surrogate pairs above U+FFFF). *)

Definition utf8_step (st : N * nat) (b : N) : list N * (N * nat) :=
  let '(acc, need) := st in
  match need with
  | O =>
      if (b <? 128)%N then ([b], (0%N, O))
      else if (b <? 224)%N then ([], (b - 192, 1%nat))%N
      else if (b <? 240)%N then ([], (b - 224, 2%nat))%N
      else ([], (b - 240, 3%nat))%N
  | S k =>
      let acc' := (acc * 64 + (b - 128))%N in
      match k with
      | O => ([acc'], (0%N, O))
      | S _ => ([], (acc', k))
      end
  end.

Fixpoint utf8_decode (bs : list N) (st : N * nat) : list N :=
  match bs with
  | [] => []
  | b :: rest =>
      let '(out, st') := utf8_step st b in
      out ++ utf8_decode rest st'
  end.

Definition utf16_units (cp : N) : list N :=
  if (cp <? 65536)%N then [cp]
  else
    let c := (cp - 65536)%N in
    [(55296 + c / 1024)%N; (56320 + c mod 1024)%N].

Fixpoint bytes_of (s : string) : list N :=
  match s with
  | EmptyString => []
  | String a rest => N_of_ascii a :: bytes_of rest
  end.

Definition js (s : string) : jsstring :=
  flat_map utf16_units (utf8_decode (bytes_of s) (0%N, O)).

(** The single code unit of a one-character literal. *)
Definition unit_of (s : string) : N := hd 0%N (js s).

(** *** String primitives *)

(** [s.length]. *)
Definition js_length (s : jsstring) : Z := Z.of_nat (List.length s).

Definition jsstring_eqb (a b : jsstring) : bool := bool_decide (a = b).

Fixpoint startsWith (s p : jsstring) : bool :=
  match p, s with
  | [], _ => true
  | _ :: _, [] => false
  | c :: p', d :: s' => (c =? d)%N && startsWith s' p'
  end.

(** [s.includes(p)]. *)
Fixpoint includes (s p : jsstring) : bool :=
  startsWith s p ||
  match s with
  | [] => false
  | _ :: s' => includes s' p
  end.

(** [a.some(f)] and [a.includes(x)] on arrays. *)
Definition some {A} (f : A -> bool) (a : list A) : bool := existsb f a.

Definition array_includes (a : list jsstring) (x : jsstring) : bool :=
  existsb (jsstring_eqb x) a.

(** White space as matched by [\s] and removed by [trim]. *)
Definition isWhiteSpace (c : N) : bool :=
  ((9 <=? c) && (c <=? 13) || (c =? 32) || (c =? 160) || (c =? 5760)
   || (8192 <=? c) && (c <=? 8202) || (c =? 8232) || (c =? 8233)
   || (c =? 8239) || (c =? 8287) || (c =? 12288) || (c =? 65279))%N.

Fixpoint trimStart (s : jsstring) : jsstring :=
  match s with
  | [] => []
  | c :: s' => if isWhiteSpace c then trimStart s' else s
  end.

(** [s.trim()]. *)
Definition trim (s : jsstring) : jsstring :=
  rev (trimStart (rev (trimStart s))).

(** [s.split(/\s+/)]: the pieces between maximal runs of white space.
    [cur] is the piece being read (reversed), [in_ws] tells that the
    previous unit was white space. *)
Fixpoint split_ws_from (s : jsstring) (cur : jsstring) (in_ws : bool)
  : list jsstring :=
  match s with
  | [] => [rev cur]
  | c :: s' =>
      if isWhiteSpace c then
        if in_ws then split_ws_from s' cur true
        else rev cur :: split_ws_from s' [] true
      else split_ws_from s' (c :: cur) false
  end.

Definition split_ws (s : jsstring) : list jsstring := split_ws_from s [] false.

(** [s.match(/[...]+/g) || []] for a character class [cls]: the maximal
    runs of units of the class, left to right. *)
Fixpoint match_runs_from (cls : N -> bool) (s : jsstring) (cur : jsstring)
  : list jsstring :=
  match s with
  | [] => match cur with [] => [] | _ => [rev cur] end
  | c :: s' =>
      if cls c then match_runs_from cls s' (c :: cur)
      else
        match cur with
        | [] => match_runs_from cls s' []
        | _ => rev cur :: match_runs_from cls s' []
        end
  end.

Definition match_runs (cls : N -> bool) (s : jsstring) : list jsstring :=
  match_runs_from cls s [].

(** [a.slice(-n)]: the last [n] elements. *)
Definition slice_last {A} (n : nat) (a : list A) : list A :=
  skipn (List.length a - n) a.

(** [a.slice(0, n)]. *)
Definition slice_first {A} (n : nat) (a : list A) : list A := firstn n a.

(** *** Exceptions *)

Inductive js_error :=
| Error (message : jsstring)
| TypeError.

Inductive js_result (A : Type) :=
| Ok (a : A)
| Throw (e : js_error).
Arguments Ok {A} a.
Arguments Throw {A} e.

Definition bind {A B} (r : js_result A) (k : A -> js_result B) : js_result B :=
  match r with
  | Ok a => k a
  | Throw e => Throw e
  end.

(** [try { body } catch (error) { handler }]. *)
Definition try_catch {A} (body : js_result A) (handler : js_error -> js_result A)
  : js_result A :=
  match body with
  | Ok a => Ok a
  | Throw e => handler e
  end.

(** *** Object literals read with a computed key

    [obj[key]] on an object literal finds an own property, or else a
    property inherited from [Object.prototype] (a function or object, so
    truthy and without the array methods), or else [undefined]. *)

Inductive js_prop (A : Type) :=
| Own (a : A)
| Inherited
| Undefined.
Arguments Own {A} a.
Arguments Inherited {A}.
Arguments Undefined {A}.

Definition object_prototype_keys : list jsstring :=
  map js
    [ "constructor"; "__defineGetter__"; "__defineSetter__";
      "hasOwnProperty"; "__lookupGetter__"; "__lookupSetter__";
      "isPrototypeOf"; "propertyIsEnumerable"; "toString"; "valueOf";
      "__proto__"; "toLocaleString" ]%string.

Fixpoint own_prop {A} (obj : list (jsstring * A)) (key : jsstring) : option A :=
  match obj with
  | [] => None
  | (k, v) :: obj' => if jsstring_eqb k key then Some v else own_prop obj' key
  end.

Definition get_prop {A} (obj : list (jsstring * A)) (key : jsstring) : js_prop A :=
  match own_prop obj key with
  | Some v => Own v
  | None =>
      if array_includes object_prototype_keys key then Inherited else Undefined
  end.

(** *** [Math.random()]

    A draw is a real in [0, 1): the fraction [num / (num + gap + 1)].
    [random_index u n] is [Math.floor(u * n)]. *)

Record random_draw := { num : N; gap : N }.

Definition random_index (u : random_draw) (n : nat) : nat :=
  N.to_nat ((num u * N.of_nat n) / (num u + gap u + 1))%N.

(** [a[Math.floor(Math.random() * a.length)]] on an array of strings. An
    index out of range would read [undefined]; [random_index_lt] shows the
    index is in range for every non-empty array, so the default is never
    read there. *)
Definition random_element (u : random_draw) (a : list jsstring) : jsstring :=
  nth (random_index u (List.length a)) a [].

End Js.

Import Js.
Arguments js s%_string.
Arguments unit_of s%_string.

(* ===================================================================== *)
(** ** Shared types ([backend/src/types/index.ts]) *)
(* ===================================================================== *)

Inductive Mood := curious | happy | confused | excited.

Inductive Quality := excellent | good | average | poor.

Record Understanding := {
  algebra : Z;
  geometry : Z;
  functions : Z;
  probability : Z
}.

Record CharacterState := {
  name : jsstring;
  level : Z;
  experience : Z;
  maxExp : Z;
  understanding : Understanding;
  mood : Mood;
  totalProblems : Z;
  personality : jsstring
}.

Record ConversationMessage := {
  role : jsstring;
  content : jsstring;
  timestamp : jsstring
}.

(** The four topic names, in the order every object literal lists them. *)
Definition topics : list jsstring :=
  map js ["algebra"; "geometry"; "functions"; "probability"]%string.

(* ===================================================================== *)
(** ** [GeminiService]: the generative-AI client *)
(* ===================================================================== *)

Module Gemini.

(** What one [this.model.generateContent(prompt)] call, awaited together
    with [response.text()], comes to: a rejection (transport error, quota,
    time-out of the SDK) or the generated text. *)
Inductive generation := Rejected | Generated (text : jsstring).

(** The prompt is a function of the four arguments of the call, so the
    remote model is a function of them. *)
Record GeminiService := {
  generateContent :
    jsstring -> jsstring -> CharacterState -> list ConversationMessage ->
    generation
}.

Record AiEvaluation := {
  ai_response : jsstring;
  ai_quality : Quality;
  ai_mood : Mood
}.

(** [new GeminiService()]: [env_key] is [process.env.GEMINI_API_KEY],
    [sdk] the first of the tried models that initialises, if one does. *)
Definition new (env_key : option jsstring) (sdk : option GeminiService)
  : js_result GeminiService :=
  let apiKey := match env_key with Some k => k | None => [] end in
  if jsstring_eqb apiKey [] then
    Throw (Error (js "GEMINI_API_KEY is required"))
  else if jsstring_eqb apiKey (js "your_gemini_api_key_here") then
    Throw (Error (js "GEMINI_API_KEY is not properly configured"))
  else
    match sdk with
    | Some g => Ok g
    | None => Throw (Error (js "No working Gemini model found"))
    end.

Definition count_present (keywords : list jsstring) (text : jsstring) : Z :=
  Z.of_nat (List.length (List.filter (fun keyword => includes text keyword) keywords)).

Definition analyzeResponseQuality (aiResponse userAnswer : jsstring) : Quality :=
  let positiveKeywords :=
    map js ["すごい"; "とても"; "よく分かった"; "詳しく"; "ありがとう";
            "素晴らしい"; "完璧"]%string in
  let encouragingKeywords :=
    map js ["なるほど"; "いいね"; "もう少し"; "続き"; "もっと"]%string in
  let confusedKeywords :=
    map js ["分からない"; "難しい"; "混乱"; "うーん"; "ちょっと"]%string in
  let positiveCount := count_present positiveKeywords aiResponse in
  let encouragingCount := count_present encouragingKeywords aiResponse in
  let confusedCount := count_present confusedKeywords aiResponse in
  let answerLength := js_length userAnswer in
  let s1 := if 2 <=? positiveCount then 3
            else if 1 <=? positiveCount then 2 else 0 in
  let s2 := if 1 <=? encouragingCount then s1 + 1 else s1 in
  let s3 := if 2 <=? confusedCount then s2 - 2 else s2 in
  let qualityScore := if 100 <? answerLength then s3 + 1 else s3 in
  if 4 <=? qualityScore then excellent
  else if 2 <=? qualityScore then good
  else if 0 <=? qualityScore then average
  else poor.

Definition determineMoodFromResponse (response : jsstring) : Mood :=
  let excitedKeywords := map js ["すごい"; "素晴らしい"; "完璧"; "わあ"]%string in
  let happyKeywords := map js ["ありがとう"; "よく分かった"; "なるほど"]%string in
  let confusedKeywords := map js ["分からない"; "難しい"; "混乱"; "うーん"]%string in
  if some (fun keyword => includes response keyword) excitedKeywords then excited
  else if some (fun keyword => includes response keyword) confusedKeywords then confused
  else if some (fun keyword => includes response keyword) happyKeywords then happy
  else curious.

(** [GeminiService.evaluateAnswer]: any failure of the call is rethrown as
    one fixed error. *)
Definition evaluateAnswer (g : GeminiService)
    (userAnswer topic : jsstring) (characterState : CharacterState)
    (conversationHistory : list ConversationMessage) : js_result AiEvaluation :=
  match generateContent g userAnswer topic characterState conversationHistory with
  | Rejected => Throw (Error (js "Failed to evaluate answer with AI"))
  | Generated text =>
      let evaluation := trim text in
      Ok {| ai_response := evaluation;
            ai_quality := analyzeResponseQuality evaluation userAnswer;
            ai_mood := determineMoodFromResponse evaluation |}
  end.

End Gemini.

(* ===================================================================== *)
(** ** [AnswerEvaluationService] *)
(* ===================================================================== *)

Module AnswerEvaluation.

Record EvaluationParams := {
  userAnswer : jsstring;
  topic : jsstring;
  characterState : CharacterState;
  conversationHistory : list ConversationMessage
}.

Record EvaluationResult := {
  response : jsstring;
  experienceGain : Z;
  newMood : Mood;
  understandingImprovement : Z
}.

Record AnswerEvaluationService := {
  geminiService : option Gemini.GeminiService;
  fallbackEnabled : bool
}.

(** The constructor: the field initialisers, then the attempt to build the
    AI client. *)
Definition new (client : js_result Gemini.GeminiService) : AnswerEvaluationService :=
  match client with
  | Ok g => {| geminiService := Some g; fallbackEnabled := true |}
  | Throw _ => {| geminiService := None; fallbackEnabled := true |}
  end.

Definition topicKeywords : list (jsstring * list jsstring) :=
  [ (js "algebra",
     map js ["方程式"; "解"; "変数"; "文字"; "係数"; "項"; "因数分解"; "展開"]%string);
    (js "geometry",
     map js ["図形"; "面積"; "角度"; "直線"; "円"; "三角形"; "四角形"; "体積"]%string);
    (js "functions",
     map js ["関数"; "グラフ"; "座標"; "傾き"; "切片"; "変化"; "比例"; "反比例"]%string);
    (js "probability",
     map js ["確率"; "場合の数"; "順列"; "組合せ"; "事象"; "標本空間"]%string) ].

(** [keywords[topic] || []] and then [.some(...)]: an inherited property
    is truthy and has no [some] method. *)
Definition hasTopicKeywords (answer topic : jsstring) : js_result bool :=
  match get_prop topicKeywords topic with
  | Own keywords => Ok (some (fun keyword => includes answer keyword) keywords)
  | Inherited => Throw TypeError
  | Undefined => Ok (some (fun keyword => includes answer keyword) [])
  end.

Definition hasExamples (answer : jsstring) : bool :=
  let exampleIndicators :=
    map js ["例えば"; "たとえば"; "具体的に"; "実際に"; "つまり"; "だから"]%string in
  some (fun indicator => includes answer indicator) exampleIndicators.

Definition hasStepByStep (answer : jsstring) : bool :=
  let stepIndicators :=
    map js ["まず"; "次に"; "最後に"; "①"; "②"; "③"; "1."; "2."; "3."; "手順"]%string in
  some (fun indicator => includes answer indicator) stepIndicators.

Definition isPoliteAndClear (answer : jsstring) : bool :=
  let politeIndicators :=
    map js ["です"; "である"; "ます"; "だと思います"; "と考えます"]%string in
  let clarityIndicators :=
    map js ["つまり"; "すなわち"; "というのは"; "ということは"]%string in
  some (fun indicator => includes answer indicator) politeIndicators
  || some (fun indicator => includes answer indicator) clarityIndicators.

(** The [score] variable of [assessAnswerQuality] when the thresholds are
    applied. *)
Definition answerScore (answer topic : jsstring) : js_result Z :=
  let wordCount := Z.of_nat (List.length (split_ws (trim answer))) in
  bind (hasTopicKeywords answer topic) (fun hasKeywords =>
  let hasExamples := hasExamples answer in
  let hasSteps := hasStepByStep answer in
  let score := 0 in
  let score := if 50 <? wordCount then score + 2
               else if 20 <? wordCount then score + 1 else score in
  let score := if hasKeywords then score + 2 else score in
  let score := if hasExamples then score + 1 else score in
  let score := if hasSteps then score + 1 else score in
  let score := if isPoliteAndClear answer then score + 1 else score in
  Ok score).

Definition assessAnswerQuality (answer topic : jsstring) : js_result Quality :=
  bind (answerScore answer topic) (fun score =>
  if 6 <=? score then Ok excellent
  else if 4 <=? score then Ok good
  else if 2 <=? score then Ok average
  else Ok poor).

Definition baseExp (quality : Quality) : Z :=
  match quality with
  | excellent => 25
  | good => 15
  | average => 8
  | poor => 3
  end.

Definition calculateExperienceGain (quality : Quality) (answerLength : Z) : Z :=
  let exp := baseExp quality in
  let exp := if 100 <? answerLength then exp + 5
             else if 50 <? answerLength then exp + 2 else exp in
  Z.min exp 30.

Definition calculateUnderstandingImprovement (quality : Quality) : Z :=
  match quality with
  | excellent => 8
  | good => 5
  | average => 3
  | poor => 1
  end.

Definition determineNewMood (quality : Quality) (currentMood : Mood) : Mood :=
  match quality with
  | excellent => excited
  | good => happy
  | average => curious
  | poor => confused
  end.

Definition positiveResponses : list jsstring :=
  map js
    [ "すごい！とても分かりやすい説明だったよ！😊 ありがとう！";
      "なるほど〜！そういう考え方もあるんだね！✨ 勉強になった！";
      "わあ！詳しく教えてくれてありがとう！🤩 よく理解できたよ！";
      "その説明、とても上手だね！😄 もっと教えて欲しいな！";
      "ありがとう！君の説明のおかげでよく分かったよ！🌟" ]%string.

Definition encouragingResponses : list jsstring :=
  map js
    [ "うんうん、いい感じだね！😊 もう少し詳しく教えてもらえる？";
      "なるほど！でも、ここの部分をもう少し説明してもらえるかな？🤔";
      "いいところに気づいたね！👍 具体例があるともっと分かりやすいかも！";
      "そうそう！その調子だよ！😄 続きも聞かせて！";
      "おお、そこは大事なポイントだね！💡 もう少し深く教えて！" ]%string.

Definition confusedResponses : list jsstring :=
  map js
    [ "うーん、ちょっと難しくて分からないかも...😅 もう少し簡単に説明してもらえる？";
      "ごめん、ここの部分がよく理解できないな...🤔 別の言い方で教えてくれる？";
      "あれ？ちょっと混乱しちゃった...😵‍💫 もう一度ゆっくり説明してもらえる？";
      "うーん、なんだか難しいね...😓 基本的なところから教えてもらえるかな？";
      "ちょっと待って！頭がこんがらがっちゃった...🌀 整理して教えて！" ]%string.

Definition topicComments : list (jsstring * list jsstring) :=
  [ (js "algebra",
     map js [ "代数の考え方がよく分かったよ！";
              "方程式の解き方のコツが掴めた気がする！";
              "文字式の意味がクリアになったね！" ]%string);
    (js "geometry",
     map js [ "図形の性質について理解が深まったよ！";
              "空間的な想像力が鍛えられた感じ！";
              "幾何学って面白いんだね！" ]%string);
    (js "functions",
     map js [ "関数のグラフがイメージできるようになった！";
              "数式と図形の関係が見えてきたよ！";
              "変化の様子がよく分かったね！" ]%string);
    (js "probability",
     map js [ "確率の考え方が整理できた！";
              "場合の数を数える方法が分かったよ！";
              "統計的な思考が身についた感じ！" ]%string) ].

(** The empty string stands for every falsy outcome ([""], and the
    [undefined] read from an inherited property used as an array). *)
Definition getTopicSpecificComment (u : random_draw) (topic : jsstring)
    (quality : Quality) : jsstring :=
  match quality with
  | poor => []
  | _ =>
      match get_prop topicComments topic with
      | Own comments => random_element u comments
      | Inherited => []
      | Undefined => []
      end
  end.

(** [u1] is the draw that picks the reply, [u2] the one that picks the
    topic comment. *)
Definition generateResponse (u1 u2 : random_draw)
    (quality : Quality) (topic answer : jsstring) : jsstring :=
  let responses :=
    match quality with
    | excellent => positiveResponses
    | good => positiveResponses
    | average => encouragingResponses
    | poor => confusedResponses
    end in
  let randomResponse := random_element u1 responses in
  let topicComment := getTopicSpecificComment u2 topic quality in
  match topicComment with
  | [] => randomResponse
  | _ :: _ => randomResponse ++ js " " ++ topicComment
  end.

Definition evaluateWithFallback (u1 u2 : random_draw) (params : EvaluationParams)
  : js_result EvaluationResult :=
  bind (assessAnswerQuality (userAnswer params) (topic params)) (fun quality =>
  let experienceGain :=
    calculateExperienceGain quality (js_length (userAnswer params)) in
  let understandingImprovement := calculateUnderstandingImprovement quality in
  let newMood := determineNewMood quality (mood (characterState params)) in
  let response := generateResponse u1 u2 quality (topic params) (userAnswer params) in
  Ok {| response := response;
        experienceGain := experienceGain;
        newMood := newMood;
        understandingImprovement := understandingImprovement |}).

(** The [try] block of [evaluateAnswer]: [None] when control leaves it
    without returning (no client, or the client threw and the error was
    logged). *)
Definition tryGemini (svc : AnswerEvaluationService) (params : EvaluationParams)
  : option EvaluationResult :=
  match geminiService svc with
  | Some g =>
      match Gemini.evaluateAnswer g (userAnswer params) (topic params)
              (characterState params) (conversationHistory params) with
      | Ok aiEvaluation =>
          Some {| response := Gemini.ai_response aiEvaluation;
                  experienceGain :=
                    calculateExperienceGain (Gemini.ai_quality aiEvaluation)
                      (js_length (userAnswer params));
                  newMood := Gemini.ai_mood aiEvaluation;
                  understandingImprovement :=
                    calculateUnderstandingImprovement (Gemini.ai_quality aiEvaluation) |}
      | Throw _ => None
      end
  | None => None
  end.

Definition evaluateAnswer (svc : AnswerEvaluationService) (u1 u2 : random_draw)
    (params : EvaluationParams) : js_result EvaluationResult :=
  match tryGemini svc params with
  | Some result => Ok result
  | None =>
      if fallbackEnabled svc then evaluateWithFallback u1 u2 params
      else Throw (Error (js "Answer evaluation service unavailable"))
  end.

End AnswerEvaluation.

(* ===================================================================== *)
(** ** [MathQuestionService] *)
(* ===================================================================== *)

Inductive Difficulty := beginner | intermediate | advanced.

(** The understanding object read with a computed key. *)
Definition understanding_object (u : Understanding) : list (jsstring * Z) :=
  [ (js "algebra", algebra u); (js "geometry", geometry u);
    (js "functions", functions u); (js "probability", probability u) ].

Module MathQuestion.

Record QuestionGenerationParams := {
  topic : jsstring;
  characterLevel : Z;
  understanding : Understanding;
  conversationHistory : list ConversationMessage
}.

(** The per-topic object [{ beginner: [...], intermediate: [...],
    advanced: [...] }], read at a difficulty. *)
Record Templates := {
  for_beginner : list jsstring;
  for_intermediate : list jsstring;
  for_advanced : list jsstring
}.

Definition at_difficulty (templates : Templates) (difficulty : Difficulty)
  : list jsstring :=
  match difficulty with
  | beginner => for_beginner templates
  | intermediate => for_intermediate templates
  | advanced => for_advanced templates
  end.

Definition questionTemplates : list (jsstring * Templates) :=
  [ (js "algebra",
     {| for_beginner :=
          map js
            [ "2x + 3 = 7 という方程式があるね。これってどうやって解けばいいのかな？🤔";
              "x + 5 = 12 の解き方を教えて！左辺と右辺って何だろう？";
              "文字式って何？なんで数字じゃなくて文字を使うの？";
              "等式の性質について教えて！両辺に同じ数を足しても大丈夫？" ]%string;
        for_intermediate :=
          map js
            [ "x² - 5x + 6 = 0 を因数分解で解く方法を教えて！";
              "連立方程式 { x + y = 5, 2x - y = 1 } はどう解くの？";
              "二次方程式の解の公式って何？どんな時に使うの？";
              "不等式 2x + 3 > 7 の解き方は普通の方程式と違うの？" ]%string;
        for_advanced :=
          map js
            [ "判別式を使って二次方程式の解の個数を調べる方法は？";
              "複素数を含む二次方程式はどう解けばいいの？";
              "三次方程式の因数分解にはどんなコツがあるの？";
              "恒等式と方程式の違いって何？" ]%string |});
    (js "geometry",
     {| for_beginner :=
          map js
            [ "三角形の面積を求める公式を教えて！底辺×高さ÷2だっけ？";
              "円の面積と円周の求め方は？πって何の数字なの？";
              "四角形にはどんな種類があるの？正方形と長方形の違いは？";
              "角度って何？直角は何度？" ]%string;
        for_intermediate :=
          map js
            [ "ピタゴラスの定理について教えて！どんな三角形で使えるの？";
              "相似な図形の性質は？面積比と辺の比の関係は？";
              "円周角と中心角の関係を教えて！";
              "三角形の合同条件ってどんなものがあるの？" ]%string;
        for_advanced :=
          map js
            [ "三角比（sin, cos, tan）って何？どう使うの？";
              "球の体積と表面積の求め方は？";
              "ベクトルって何？図形の問題でどう使うの？";
              "座標平面上での直線の方程式はどう求めるの？" ]%string |});
    (js "functions",
     {| for_beginner :=
          map js
            [ "関数って何？y = 2x + 1 のグラフはどんな形？";
              "一次関数の傾きって何を表してるの？";
              "座標って何？(3, 5)の意味を教えて！";
              "グラフの読み取り方を教えて！" ]%string;
        for_intermediate :=
          map js
            [ "二次関数 y = x² のグラフはなんで放物線になるの？";
              "関数の最大値・最小値ってどう求めるの？";
              "一次関数と二次関数の違いは？";
              "変化の割合って何？どう計算するの？" ]%string;
        for_advanced :=
          map js
            [ "二次関数の頂点の座標はどう求めるの？";
              "関数の合成って何？f(g(x))はどう計算するの？";
              "逆関数って何？どんな時に存在するの？";
              "指数関数と対数関数の関係を教えて！" ]%string |});
    (js "probability",
     {| for_beginner :=
          map js
            [ "サイコロを1回振る時、偶数が出る確率は？";
              "確率って何？どうやって計算するの？";
              "全事象って何？標本空間とは違うの？";
              "コインを投げる実験で確率を考えてみよう！" ]%string;
        for_intermediate :=
          map js
            [ "サイコロを2回振る時、和が7になる確率は？";
              "順列と組合せの違いを教えて！";
              "重複を許す場合の数え方は？";
              "条件付き確率って何？どう計算するの？" ]%string;
        for_advanced :=
          map js
            [ "ベイズの定理について教えて！";
              "期待値って何？どうやって計算するの？";
              "正規分布って何？標準偏差との関係は？";
              "独立な事象と排反な事象の違いは？" ]%string |}) ].

(** The character class of [/[ぁ-んァ-ヶー一-龠]+/g]. *)
Definition isKeywordUnit (c : N) : bool :=
  ((unit_of "ぁ" <=? c) && (c <=? unit_of "ん")
   || (unit_of "ァ" <=? c) && (c <=? unit_of "ヶ")
   || (c =? unit_of "ー")
   || (unit_of "一" <=? c) && (c <=? unit_of "龠"))%N.

Definition isSimilarQuestion (q1 q2 : jsstring) : bool :=
  let keywords1 := match_runs isKeywordUnit q1 in
  let keywords2 := match_runs isKeywordUnit q2 in
  let commonWords :=
    List.filter
      (fun word => array_includes keywords2 word && (1 <? js_length word))
      keywords1 in
  2 <? Z.of_nat (List.length commonWords).

Definition addVariation (u : random_draw) (question : jsstring) : jsstring :=
  let variations :=
    map js [ "別の角度から考えてみよう！";
             "こんどはこの問題はどうかな？";
             "少し違った問題も見てみよう！";
             "今度はこれについて教えて！" ]%string in
  let variation := random_element u variations in
  variation ++ js " " ++ question.

Definition adjustQuestionBasedOnHistory (u : random_draw)
    (question : jsstring) (history : list ConversationMessage) : jsstring :=
  let recentQuestions :=
    map content
      (slice_last 3
         (List.filter (fun msg => jsstring_eqb (role msg) (js "マナ")) history)) in
  if some (fun q => isSimilarQuestion question q) recentQuestions
  then addVariation u question
  else question.

Definition fallbackQuestion : jsstring :=
  js "ねえ、今日は何を勉強したい気分？😊 どの分野に興味があるか教えて！".

(** The body of the [try] block. [understanding[topic] || 0] is the stored
    number for an own key, [0] for a missing key, and a function (which
    compares false with every number) for an inherited one. Reading
    [templates[difficulty].length] on an inherited property fails with a
    [TypeError]. *)
Definition generateQuestion_body (u1 u2 : random_draw)
    (params : QuestionGenerationParams) : js_result jsstring :=
  let difficulty :=
    match get_prop (understanding_object (understanding params)) (topic params) with
    | Own currentUnderstanding =>
        if currentUnderstanding <? 30 then beginner
        else if currentUnderstanding <? 70 then intermediate
        else advanced
    | Inherited => advanced
    | Undefined => beginner
    end in
  match get_prop questionTemplates (topic params) with
  | Undefined => Throw (Error (js "Unknown topic: " ++ topic params))
  | Inherited => Throw TypeError
  | Own templates =>
      let questions := at_difficulty templates difficulty in
      let selectedQuestion := random_element u1 questions in
      Ok (adjustQuestionBasedOnHistory u2 selectedQuestion
            (conversationHistory params))
  end.

Definition generateQuestion (u1 u2 : random_draw)
    (params : QuestionGenerationParams) : js_result jsstring :=
  try_catch (generateQuestion_body u1 u2 params)
    (fun error => Ok fallbackQuestion).

End MathQuestion.

(* ===================================================================== *)
(** ** [CharacterService]: the persisted character state *)
(* ===================================================================== *)

Module Character.

(** A row of the [characterState] table. *)
Record CharacterRow := {
  userId : string;
  level : Z;
  experience : Z;
  understandingAlgebra : Z;
  understandingGeometry : Z;
  understandingFunctions : Z;
  understandingProbability : Z;
  mood : jsstring;
  totalProblems : Z;
  updatedAt : Z
}.

Record CharacterUpdateData := {
  set_level : option Z;
  set_experience : option Z;
  set_understandingAlgebra : option Z;
  set_understandingGeometry : option Z;
  set_understandingFunctions : option Z;
  set_understandingProbability : option Z;
  set_mood : option jsstring;
  set_totalProblems : option Z
}.

(** The table, keyed by the unique [userId]. *)
Abbreviation Table := (gmap string CharacterRow).

Definition or_keep {A} (new : option A) (old : A) : A :=
  match new with
  | Some v => v
  | None => old
  end.

(** [{ ...updateData, updatedAt: new Date() }] applied to a row. *)
Definition apply_update (now : Z) (updateData : CharacterUpdateData)
    (row : CharacterRow) : CharacterRow :=
  {| userId := userId row;
     level := or_keep (set_level updateData) (level row);
     experience := or_keep (set_experience updateData) (experience row);
     understandingAlgebra :=
       or_keep (set_understandingAlgebra updateData) (understandingAlgebra row);
     understandingGeometry :=
       or_keep (set_understandingGeometry updateData) (understandingGeometry row);
     understandingFunctions :=
       or_keep (set_understandingFunctions updateData) (understandingFunctions row);
     understandingProbability :=
       or_keep (set_understandingProbability updateData) (understandingProbability row);
     mood := or_keep (set_mood updateData) (mood row);
     totalProblems := or_keep (set_totalProblems updateData) (totalProblems row);
     updatedAt := now |}.

Definition initialRow (now : Z) (userId : string) : CharacterRow :=
  {| userId := userId;
     level := 1;
     experience := 0;
     understandingAlgebra := 0;
     understandingGeometry := 0;
     understandingFunctions := 0;
     understandingProbability := 0;
     mood := js "curious";
     totalProblems := 0;
     updatedAt := now |}.

(** [prisma.characterState.create] rejects a second row for a user. *)
Definition createCharacterState (now : Z) (userId : string) (db : Table)
  : js_result (CharacterRow * Table) :=
  match db !! userId with
  | Some _ => Throw (Error (js "Failed to create character state"))
  | None =>
      let row := initialRow now userId in
      Ok (row, <[userId := row]> db)
  end.

Definition getCharacterState (now : Z) (userId : string) (db : Table)
  : js_result (CharacterRow * Table) :=
  try_catch
    (match db !! userId with
     | Some characterState => Ok (characterState, db)
     | None => createCharacterState now userId db
     end)
    (fun error => Throw (Error (js "Failed to get character state"))).

(** [prisma.characterState.update] rejects when no row matches. *)
Definition updateCharacterState (now : Z) (userId : string)
    (updateData : CharacterUpdateData) (db : Table)
  : js_result (CharacterRow * Table) :=
  match db !! userId with
  | Some row =>
      let row' := apply_update now updateData row in
      Ok (row', <[userId := row']> db)
  | None => Throw (Error (js "Failed to update character state"))
  end.

(** [updateData.understandingAlgebra = v] and its three siblings. *)
Definition assign_understandingAlgebra (v : Z) (d : CharacterUpdateData)
  : CharacterUpdateData :=
  {| set_level := set_level d;
     set_experience := set_experience d;
     set_understandingAlgebra := Some v;
     set_understandingGeometry := set_understandingGeometry d;
     set_understandingFunctions := set_understandingFunctions d;
     set_understandingProbability := set_understandingProbability d;
     set_mood := set_mood d;
     set_totalProblems := set_totalProblems d |}.

Definition assign_understandingGeometry (v : Z) (d : CharacterUpdateData)
  : CharacterUpdateData :=
  {| set_level := set_level d;
     set_experience := set_experience d;
     set_understandingAlgebra := set_understandingAlgebra d;
     set_understandingGeometry := Some v;
     set_understandingFunctions := set_understandingFunctions d;
     set_understandingProbability := set_understandingProbability d;
     set_mood := set_mood d;
     set_totalProblems := set_totalProblems d |}.

Definition assign_understandingFunctions (v : Z) (d : CharacterUpdateData)
  : CharacterUpdateData :=
  {| set_level := set_level d;
     set_experience := set_experience d;
     set_understandingAlgebra := set_understandingAlgebra d;
     set_understandingGeometry := set_understandingGeometry d;
     set_understandingFunctions := Some v;
     set_understandingProbability := set_understandingProbability d;
     set_mood := set_mood d;
     set_totalProblems := set_totalProblems d |}.

Definition assign_understandingProbability (v : Z) (d : CharacterUpdateData)
  : CharacterUpdateData :=
  {| set_level := set_level d;
     set_experience := set_experience d;
     set_understandingAlgebra := set_understandingAlgebra d;
     set_understandingGeometry := set_understandingGeometry d;
     set_understandingFunctions := set_understandingFunctions d;
     set_understandingProbability := Some v;
     set_mood := set_mood d;
     set_totalProblems := set_totalProblems d |}.

(** The [updateData] object [addExperience] builds from the row it read:
    the three fields of the literal, then the [switch] on a truthy
    [topic]. *)
Definition experienceUpdate (currentState : CharacterRow) (expGain : Z)
    (topic : option jsstring) : CharacterUpdateData :=
  let newExperience := experience currentState + expGain in
  let newLevel := newExperience / 100 + 1 in
  let updateData :=
    {| set_level := Some (Z.min newLevel (level currentState + 1));
       set_experience := Some newExperience;
       set_understandingAlgebra := None;
       set_understandingGeometry := None;
       set_understandingFunctions := None;
       set_understandingProbability := None;
       set_mood := None;
       set_totalProblems := Some (totalProblems currentState + 1) |} in
  match topic with
  | None => updateData
  | Some [] => updateData
  | Some topic =>
      let understandingGain := Z.min 5 expGain in
      if jsstring_eqb topic (js "algebra") then
        assign_understandingAlgebra
          (Z.min 100 (understandingAlgebra currentState + understandingGain))
          updateData
      else if jsstring_eqb topic (js "geometry") then
        assign_understandingGeometry
          (Z.min 100 (understandingGeometry currentState + understandingGain))
          updateData
      else if jsstring_eqb topic (js "functions") then
        assign_understandingFunctions
          (Z.min 100 (understandingFunctions currentState + understandingGain))
          updateData
      else if jsstring_eqb topic (js "probability") then
        assign_understandingProbability
          (Z.min 100 (understandingProbability currentState + understandingGain))
          updateData
      else updateData
  end.

Definition addExperience (now : Z) (userId : string) (expGain : Z)
    (topic : option jsstring) (db : Table) : js_result (CharacterRow * Table) :=
  try_catch
    (bind (getCharacterState now userId db) (fun '(currentState, db) =>
     updateCharacterState now userId
       (experienceUpdate currentState expGain topic) db))
    (fun error => Throw (Error (js "Failed to add experience"))).

End Character.

(* ===================================================================== *)
(** ** [useCharacterState]: the client-side copy of the state *)
(* ===================================================================== *)

Module Hook.

(** [LocalCharacterState] has the fields of [CharacterState]. *)
Definition initialCharacter : CharacterState :=
  {| name := js "マナ";
     level := 1;
     experience := 0;
     maxExp := 100;
     understanding :=
       {| algebra := 0; geometry := 0; functions := 0; probability := 0 |};
     mood := curious;
     totalProblems := 0;
     personality := js "curious_student" |}.

(** [newUnderstanding[currentTopic] = v] for a topic that is an own key. *)
Definition set_understanding (u : Understanding) (topic : jsstring) (v : Z)
  : Understanding :=
  if jsstring_eqb topic (js "algebra") then
    {| algebra := v; geometry := geometry u;
       functions := functions u; probability := probability u |}
  else if jsstring_eqb topic (js "geometry") then
    {| algebra := algebra u; geometry := v;
       functions := functions u; probability := probability u |}
  else if jsstring_eqb topic (js "functions") then
    {| algebra := algebra u; geometry := geometry u;
       functions := v; probability := probability u |}
  else if jsstring_eqb topic (js "probability") then
    {| algebra := algebra u; geometry := geometry u;
       functions := functions u; probability := v |}
  else u.

(** The state updater passed to [setCharacter] in [updateCharacterState].
    For a key inherited from [Object.prototype] the [in] test succeeds and
    the assignment creates a stray property; the four topic fields stay as
    they were. [%] is the remainder that takes the sign of the dividend. *)
Definition updateCharacterState (expGain : Z) (newMood : Mood)
    (currentTopic : jsstring) (prev : CharacterState) : CharacterState :=
  let newExp := experience prev + expGain in
  let newLevel := newExp / 100 + 1 in
  let newUnderstanding :=
    match get_prop (understanding_object (understanding prev)) currentTopic with
    | Own current =>
        set_understanding (understanding prev) currentTopic
          (Z.min (current + expGain) 100)
    | Inherited => understanding prev
    | Undefined => understanding prev
    end in
  {| name := name prev;
     level := newLevel;
     experience := Z.rem newExp 100;
     maxExp := maxExp prev;
     understanding := newUnderstanding;
     mood := newMood;
     totalProblems := totalProblems prev + 1;
     personality := personality prev |}.

End Hook.

(* ===================================================================== *)
(** ** [AdaptiveLearningService] *)
(* ===================================================================== *)

Module Adaptive.

Inductive QuestionType := concept | application | problem_solving.

(** The fields of [LearningMetrics] that are computed from the character
    row alone and that the recommendation code reads. *)
Record LearningMetrics := {
  userId : string;
  totalProblems : Z;
  topicProficiency : Understanding;
  currentLevel : Z;
  strugglingTopics : list jsstring;
  masteredTopics : list jsstring
}.

Record AdaptiveRecommendation := {
  recommendedTopic : jsstring;
  difficultyLevel : Difficulty;
  questionType : QuestionType;
  focusAreas : list jsstring;
  reasoning : jsstring
}.

Abbreviation Table := (gmap string Character.CharacterRow).

Definition calculateLearningMetrics (userId : string) (db : Table)
  : js_result LearningMetrics :=
  match db !! userId with
  | None => Throw (Error (js "Character state not found"))
  | Some characterState =>
      let topicProficiency :=
        {| algebra := Character.understandingAlgebra characterState;
           geometry := Character.understandingGeometry characterState;
           functions := Character.understandingFunctions characterState;
           probability := Character.understandingProbability characterState |} in
      let topics := understanding_object topicProficiency in
      let strugglingTopics :=
        map fst (List.filter (fun '(_, score) => score <? 30) topics) in
      let masteredTopics :=
        map fst (List.filter (fun '(_, score) => 80 <=? score) topics) in
      Ok {| userId := userId;
            totalProblems := Character.totalProblems characterState;
            topicProficiency := topicProficiency;
            currentLevel := Character.level characterState;
            strugglingTopics := strugglingTopics;
            masteredTopics := masteredTopics |}
  end.

Definition getDifficultyForTopic (proficiency : Z) : Difficulty :=
  if proficiency <? 30 then beginner
  else if proficiency <? 70 then intermediate
  else advanced.

(** [metrics.topicProficiency[t]] for one of the four literal topic names. *)
Definition proficiency (metrics : LearningMetrics) (t : jsstring) : Z :=
  match own_prop (understanding_object (topicProficiency metrics)) t with
  | Some v => v
  | None => 0
  end.

(** [topics.reduce((a, b) => p[a] < p[b] ? a : b)]. *)
Definition weakestTopic (metrics : LearningMetrics) : jsstring :=
  match topics with
  | [] => []
  | first :: rest =>
      fold_left
        (fun a b => if proficiency metrics a <? proficiency metrics b then a else b)
        rest first
  end.

(** The list built by [generateRecommendations] from the metrics. *)
Definition recommend (metrics : LearningMetrics) : list AdaptiveRecommendation :=
  let for_struggling :=
    map (fun topic =>
           {| recommendedTopic := topic;
              difficultyLevel := beginner;
              questionType := concept;
              focusAreas := [topic];
              reasoning :=
                topic ++ js "の理解度が低いため、基礎概念の復習をお勧めします" |})
        (strugglingTopics metrics) in
  let balanced :=
    match strugglingTopics metrics with
    | [] =>
        let weakestTopic := weakestTopic metrics in
        let difficulty := getDifficultyForTopic (proficiency metrics weakestTopic) in
        [ {| recommendedTopic := weakestTopic;
             difficultyLevel := difficulty;
             questionType := application;
             focusAreas := [weakestTopic];
             reasoning :=
               js "全体的にバランス良く学習されています。" ++ weakestTopic
               ++ js "をさらに伸ばしましょう" |} ]
    | _ :: _ => []
    end in
  let for_mastered :=
    map (fun topic =>
           {| recommendedTopic := topic;
              difficultyLevel := advanced;
              questionType := problem_solving;
              focusAreas := [topic];
              reasoning :=
                topic ++ js "の基礎は十分理解されています。応用問題に挑戦しましょう" |})
        (masteredTopics metrics) in
  slice_first 3 (for_struggling ++ balanced ++ for_mastered).

Definition generateRecommendations (userId : string) (db : Table)
  : js_result (list AdaptiveRecommendation) :=
  bind (calculateLearningMetrics userId db) (fun metrics => Ok (recommend metrics)).

End Adaptive.

(* ===================================================================== *)
(** ** Vocabulary of the statements *)
(* ===================================================================== *)

Module ExpGainSpec.

(** The table and the length bonus as the specification words them. *)
Definition base (q : Quality) : Z :=
  match q with
  | excellent => 25
  | good => 15
  | average => 8
  | poor => 3
  end.

Definition bonus (n : Z) : Z :=
  if 100 <? n then 5 else if 50 <? n then 2 else 0.

End ExpGainSpec.

(** The understanding column of a row that belongs to a topic name. *)
Definition understandingColumn (row : Character.CharacterRow) (t : jsstring) : Z :=
  match
    own_prop
      [ (js "algebra", Character.understandingAlgebra row);
        (js "geometry", Character.understandingGeometry row);
        (js "functions", Character.understandingFunctions row);
        (js "probability", Character.understandingProbability row) ] t
  with
  | Some v => v
  | None => 0
  end.

(** The understanding value of a client-side state for a topic name. *)
Definition understandingOf (st : CharacterState) (t : jsstring) : Z :=
  match own_prop (understanding_object (understanding st)) t with
  | Some v => v
  | None => 0
  end.

(** Rows a user's record can hold after a run of [addExperience] calls that
    starts with the row [createCharacterState] inserts, every gain taken
    from [allowed]. *)
Inductive server_reachable (allowed : Z -> Prop) (userId : string)
  : Character.CharacterRow -> Prop :=
| reach_created now :
    server_reachable allowed userId (Character.initialRow now userId)
| reach_addExperience now expGain topic db row row' db' :
    server_reachable allowed userId row ->
    db !! userId = Some row ->
    allowed expGain ->
    Character.addExperience now userId expGain topic db = Ok (row', db') ->
    server_reachable allowed userId row'.

(** States the hook holds after a run of [updateCharacterState] calls that
    starts with the initial character. *)
Inductive hook_reachable : CharacterState -> Prop :=
| hook_initial : hook_reachable Hook.initialCharacter
| hook_update expGain newMood currentTopic prev :
    hook_reachable prev ->
    0 <= expGain ->
    hook_reachable (Hook.updateCharacterState expGain newMood currentTopic prev).

(** No AI evaluation is to be had for a request: the service holds no
    client, or the client's call is rejected. *)
Definition ai_unavailable (svc : AnswerEvaluation.AnswerEvaluationService)
    (params : AnswerEvaluation.EvaluationParams) : Prop :=
  match AnswerEvaluation.geminiService svc with
  | None => True
  | Some g =>
      Gemini.generateContent g
        (AnswerEvaluation.userAnswer params) (AnswerEvaluation.topic params)
        (AnswerEvaluation.characterState params)
        (AnswerEvaluation.conversationHistory params) = Gemini.Rejected
  end.

(** The row [addExperience] writes over the row [st] it read. *)
Definition written (now expGain : Z) (st : Character.CharacterRow)
    (topic : option jsstring) : Character.CharacterRow :=
  Character.apply_update now (Character.experienceUpdate st expGain topic) st.

(** Every pool of question templates has a question, and no question is the
    empty string. *)
Definition pools_well_formed : bool :=
  forallb
    (fun entry =>
       forallb
         (fun difficulty =>
            let pool := MathQuestion.at_difficulty (snd entry) difficulty in
            negb (bool_decide (pool = []))
            && forallb (fun q => negb (bool_decide (q = []))) pool)
         [beginner; intermediate; advanced])
    MathQuestion.questionTemplates.

(** The topics a list of recommendations names, in order. *)
Definition recommendedTopics (recs : list Adaptive.AdaptiveRecommendation)
  : list jsstring :=
  map Adaptive.recommendedTopic recs.

(* ===================================================================== *)
(** ** The rest of the services, and their callers *)
(* ===================================================================== *)

(** *** [CharacterService.updateMood] *)

Module CharacterService.

Definition validMoods : list jsstring :=
  map js ["curious"; "happy"; "confused"; "excited"]%string.

(** The update object [{ mood }]. *)
Definition moodData (mood : jsstring) : Character.CharacterUpdateData :=
  {| Character.set_level := None;
     Character.set_experience := None;
     Character.set_understandingAlgebra := None;
     Character.set_understandingGeometry := None;
     Character.set_understandingFunctions := None;
     Character.set_understandingProbability := None;
     Character.set_mood := Some mood;
     Character.set_totalProblems := None |}.

Definition updateMood (now : Z) (userId : string) (mood : jsstring)
    (db : gmap string Character.CharacterRow)
  : js_result (Character.CharacterRow * gmap string Character.CharacterRow) :=
  try_catch
    (if array_includes validMoods mood
     then Character.updateCharacterState now userId (moodData mood) db
     else Throw (Error (js "Invalid mood")))
    (fun error => Throw (Error (js "Failed to update mood"))).

End CharacterService.

(** *** [DataController]: the routes in front of [CharacterService] *)

Module DataController.

(** [res.json({ success: true, data })] or
    [res.status(status).json({ error })]. *)
Inductive Reply :=
| success (data : Character.CharacterRow)
| failure (status : Z) (error : jsstring).

(** The body of an experience request: [experience] is [None] when it is
    not a number, [topic] is [None] when it is absent. *)
Record ExperienceBody := {
  experience : option Z;
  topic : option jsstring
}.

Definition addExperience (now : Z) (userId : string) (body : ExperienceBody)
    (db : gmap string Character.CharacterRow)
  : Reply * gmap string Character.CharacterRow :=
  match experience body with
  | None => (failure 400 (js "Invalid experience value"), db)
  | Some experience =>
      if experience <? 0 then (failure 400 (js "Invalid experience value"), db)
      else
        match Character.addExperience now userId experience (topic body) db with
        | Ok (updatedState, db') => (success updatedState, db')
        | Throw _ => (failure 500 (js "Failed to add experience"), db)
        end
  end.

(** [mood] is [None] when the body has none; the empty string is falsy as
    well. *)
Definition updateMood (now : Z) (userId : string) (mood : option jsstring)
    (db : gmap string Character.CharacterRow)
  : Reply * gmap string Character.CharacterRow :=
  match mood with
  | None => (failure 400 (js "Mood is required"), db)
  | Some [] => (failure 400 (js "Mood is required"), db)
  | Some mood =>
      match CharacterService.updateMood now userId mood db with
      | Ok (updatedState, db') => (success updatedState, db')
      | Throw _ => (failure 500 (js "Failed to update mood"), db)
      end
  end.

Definition getCharacterState (now : Z) (userId : string)
    (db : gmap string Character.CharacterRow)
  : Reply * gmap string Character.CharacterRow :=
  match Character.getCharacterState now userId db with
  | Ok (characterState, db') => (success characterState, db')
  | Throw _ => (failure 500 (js "Failed to get character state"), db)
  end.

End DataController.

(** *** The synchronisation effect of [useCharacterState] *)

Module Client.

(** The cast [characterState.mood as "curious" | ...]: the record type here
    holds only the four moods, so a row with another mood string has no
    image. *)
Definition moodOfString (s : jsstring) : option Mood :=
  if jsstring_eqb s (js "curious") then Some curious
  else if jsstring_eqb s (js "happy") then Some happy
  else if jsstring_eqb s (js "confused") then Some confused
  else if jsstring_eqb s (js "excited") then Some excited
  else None.

(** The state the effect installs when the server's row arrives. *)
Definition syncCharacter (characterState : Character.CharacterRow)
  : option CharacterState :=
  match moodOfString (Character.mood characterState) with
  | None => None
  | Some m =>
      Some
        {| name := js "マナ";
           level := Character.level characterState;
           experience := Character.experience characterState;
           maxExp := Character.level characterState * 100;
           understanding :=
             {| algebra := Character.understandingAlgebra characterState;
                geometry := Character.understandingGeometry characterState;
                functions := Character.understandingFunctions characterState;
                probability := Character.understandingProbability characterState |};
           mood := m;
           totalProblems := Character.totalProblems characterState;
           personality := js "curious_student" |}
  end.

End Client.

(** *** [middleware/validation.ts] *)

Module Validation.

Inductive RequestType := question | answer.

Record ChatRequestBody := {
  message : option jsstring;
  conversationHistory : list ConversationMessage;
  characterState : CharacterState;
  currentTopic : jsstring;
  requestType : RequestType
}.

(** [!data.message || data.message.trim().length === 0]. *)
Definition messageBlank (message : option jsstring) : bool :=
  match message with
  | None => true
  | Some [] => true
  | Some m => js_length (trim m) =? 0
  end.

(** The schema has made [maxExp] an integer of at least 1 before this
    function runs; [Math.floor] of the quotient is then [Z.div]. *)
Definition validateBusinessRules (data : ChatRequestBody) : option jsstring :=
  if match requestType data with answer => messageBlank (message data) | question => false end
  then Some (js "Message is required for answer evaluation")
  else if match message data with
          | Some (c :: m) => 2000 <? js_length (c :: m)
          | _ => false
          end
  then Some (js "Message is too long (max 2000 characters)")
  else if 100 <? Z.of_nat (List.length (conversationHistory data))
  then Some (js "Conversation history is too long (max 100 messages)")
  else
    let expectedLevel :=
      experience (characterState data) / maxExp (characterState data) + 1 in
    if 1 <? Z.abs (level (characterState data) - expectedLevel)
    then Some (js "Character level and experience are inconsistent")
    else None.

(** What [chatRequestSchema.validate] returns: the error details, or the
    value with unknown keys stripped. *)
Inductive SchemaOutcome :=
| schema_error (details : list jsstring)
| schema_value (value : ChatRequestBody).

(** [validateChatRequest]: a reply of its own, or [next()] with the body
    replaced by the validated value. *)
Inductive Verdict :=
| reject (status : Z) (error : jsstring)
| next (body : ChatRequestBody).

Definition validateChatRequest (outcome : SchemaOutcome) : Verdict :=
  match outcome with
  | schema_error details => reject 400 (js "Invalid request data")
  | schema_value value =>
      match validateBusinessRules value with
      | Some businessValidationError => reject 400 (js "Business rule violation")
      | None => next value
      end
  end.

End Validation.

(** *** [ChatController] *)

Module ChatController.

Inductive ChatReply :=
| question_reply (response timestamp topic : jsstring) (difficulty : Difficulty)
| evaluation_reply (response : jsstring) (expGain : Z) (mood : Mood)
    (timestamp topic : jsstring) (understanding : Z)
| error_reply (status : Z) (error : jsstring)
    (response : option jsstring) (expGain : option Z) (mood : option Mood).

(** The average of the four understanding values is their sum over the
    number of keys. *)
Definition calculateDifficulty (characterState : CharacterState) : Difficulty :=
  let u := understanding characterState in
  let avgUnderstanding : Q :=
    (inject_Z (0 + algebra u + geometry u + functions u + probability u) / 4)%Q in
  if Qle_bool 30 avgUnderstanding then
    if Qle_bool 70 avgUnderstanding then advanced else intermediate
  else beginner.

Definition generateQuestion (u1 u2 : random_draw) (now : jsstring)
    (body : Validation.ChatRequestBody) : ChatReply :=
  match
    MathQuestion.generateQuestion u1 u2
      {| MathQuestion.topic := Validation.currentTopic body;
         MathQuestion.characterLevel := level (Validation.characterState body);
         MathQuestion.understanding := understanding (Validation.characterState body);
         MathQuestion.conversationHistory := Validation.conversationHistory body |}
  with
  | Ok question =>
      question_reply question now (Validation.currentTopic body)
        (calculateDifficulty (Validation.characterState body))
  | Throw _ =>
      error_reply 500 (js "Failed to generate question")
        (Some (js "ごめんね、今は質問を考えるのが難しいみたい...😅 少し待ってからもう一度試してもらえる？"))
        None None
  end.

Definition evaluateAnswer (svc : AnswerEvaluation.AnswerEvaluationService)
    (u1 u2 : random_draw) (now : jsstring) (body : Validation.ChatRequestBody)
  : ChatReply :=
  if Validation.messageBlank (Validation.message body) then
    error_reply 400 (js "Message is required") None None None
  else
    let message := match Validation.message body with Some m => m | None => [] end in
    match
      AnswerEvaluation.evaluateAnswer svc u1 u2
        {| AnswerEvaluation.userAnswer := message;
           AnswerEvaluation.topic := Validation.currentTopic body;
           AnswerEvaluation.characterState := Validation.characterState body;
           AnswerEvaluation.conversationHistory := Validation.conversationHistory body |}
    with
    | Ok evaluation =>
        evaluation_reply (AnswerEvaluation.response evaluation)
          (AnswerEvaluation.experienceGain evaluation)
          (AnswerEvaluation.newMood evaluation)
          now (Validation.currentTopic body)
          (AnswerEvaluation.understandingImprovement evaluation)
    | Throw _ =>
        error_reply 500 (js "Failed to evaluate answer")
          (Some (js "すみません、今は調子が悪いみたいです... 後でもう一度試してもらえますか？😅"))
          (Some 0) (Some confused)
    end.

Definition handleChat (svc : AnswerEvaluation.AnswerEvaluationService)
    (u1 u2 : random_draw) (now : jsstring) (body : Validation.ChatRequestBody)
  : ChatReply :=
  match Validation.requestType body with
  | Validation.question => generateQuestion u1 u2 now body
  | Validation.answer => evaluateAnswer svc u1 u2 now body
  end.

(** [chatRouter.post("/", validateChatRequest, chatController.handleChat)]. *)
Definition chatRoute (svc : AnswerEvaluation.AnswerEvaluationService)
    (u1 u2 : random_draw) (now : jsstring) (outcome : Validation.SchemaOutcome)
  : ChatReply :=
  match Validation.validateChatRequest outcome with
  | Validation.reject status error => error_reply status error None None None
  | Validation.next body => handleChat svc u1 u2 now body
  end.

End ChatController.

(** *** The request schema *)

Module Schema.

(** What the schema makes of one key of the body: the details it reports,
    or the validated value. *)
Inductive KeyOutcome (A : Type) :=
| key_error (details : list jsstring)
| key_value (value : A).

Arguments key_error {A} details.
Arguments key_value {A} value.

Definition details_of {A} (k : KeyOutcome A) : list jsstring :=
  match k with
  | key_error details => details
  | key_value _ => []
  end.

(** [req.body] as [chatRequestSchema] sees it. [currentTopic] is the string
    held under that key, [None] when the key is absent or holds something
    that is not a string; the other four keys come with what their rules
    make of them. *)
Record RequestBody := {
  message : KeyOutcome (option jsstring);
  conversationHistory : KeyOutcome (list ConversationMessage);
  characterState : KeyOutcome CharacterState;
  currentTopic : option jsstring;
  requestType : KeyOutcome Validation.RequestType
}.

Section Validate.

(** The text of a detail is worded by the validation library: [wording] is
    what it reports for a rejected [currentTopic]. *)
Variable wording : option jsstring -> list jsstring.

(** [Joi.string().valid("algebra", "geometry", "functions", "probability")
    .required()]: the key must be present and hold one of the four strings,
    compared as they are. *)
Definition currentTopicRule (raw : option jsstring) : KeyOutcome jsstring :=
  match raw with
  | Some s =>
      if array_includes
           (map js ["algebra"; "geometry"; "functions"; "probability"]%string) s
      then key_value s
      else key_error (wording raw)
  | None => key_error (wording raw)
  end.

(** [chatRequestSchema.validate(req.body, { abortEarly: false,
    stripUnknown: true })]: every key is checked, the details are collected
    in the order of the keys, and there is a value only when no key
    reported one. *)
Definition validate (body : RequestBody) : Validation.SchemaOutcome :=
  let topic := currentTopicRule (currentTopic body) in
  match message body, conversationHistory body, characterState body, topic,
        requestType body with
  | key_value m, key_value h, key_value s, key_value t, key_value r =>
      Validation.schema_value
        {| Validation.message := m;
           Validation.conversationHistory := h;
           Validation.characterState := s;
           Validation.currentTopic := t;
           Validation.requestType := r |}
  | m, h, s, t, r =>
      Validation.schema_error
        (details_of m ++ details_of h ++ details_of s ++ details_of t
         ++ details_of r)
  end.

End Validate.

End Schema.

(** *** The chat router *)

Module ChatRouter.

(** The three [post] routes: ["/"], ["/question"] and ["/evaluate"]. *)
Inductive Endpoint := root_path | question_path | evaluate_path.

Definition handler (endpoint : Endpoint)
    (svc : AnswerEvaluation.AnswerEvaluationService)
    (u1 u2 : random_draw) (now : jsstring) (body : Validation.ChatRequestBody)
  : ChatController.ChatReply :=
  match endpoint with
  | root_path => ChatController.handleChat svc u1 u2 now body
  | question_path => ChatController.generateQuestion u1 u2 now body
  | evaluate_path => ChatController.evaluateAnswer svc u1 u2 now body
  end.

(** [chatRouter.post(path, validateChatRequest, handler)]: the handler runs
    only when the middleware calls [next()]. *)
Definition post (endpoint : Endpoint)
    (wording : option jsstring -> list jsstring)
    (svc : AnswerEvaluation.AnswerEvaluationService)
    (u1 u2 : random_draw) (now : jsstring) (body : Schema.RequestBody)
  : ChatController.ChatReply :=
  match Validation.validateChatRequest (Schema.validate wording body) with
  | Validation.reject status error =>
      ChatController.error_reply status error None None None
  | Validation.next value => handler endpoint svc u1 u2 now value
  end.

End ChatRouter.

(** *** [AdaptiveLearningService]: learning path and suggested level *)

Module LearningPath.

Record Step := {
  step : Z;
  topic : jsstring;
  title : option jsstring;
  description : option jsstring;
  difficulty : Difficulty;
  estimatedTime : Z;
  prerequisites : list jsstring
}.

Record Path := {
  currentStep : Z;
  totalSteps : Z;
  path : list Step
}.

Definition displayNames : list (jsstring * jsstring) :=
  [ (js "algebra", js "代数"); (js "geometry", js "幾何");
    (js "functions", js "関数"); (js "probability", js "確率") ].

(** [displayNames[topic] || topic]. For a key inherited from
    [Object.prototype] the result is a built-in function, whose text the
    model does not spell out: [None]. *)
Definition getTopicDisplayName (topic : jsstring) : option jsstring :=
  match get_prop displayNames topic with
  | Own displayName => Some displayName
  | Inherited => None
  | Undefined => Some topic
  end.

(** One [for] loop of [generateLearningPath]: each topic pushes a step
    numbered [path.length + 1]. *)
Definition push_steps (make : Z -> jsstring -> Step) (topics : list jsstring)
    (path : list Step) : list Step :=
  fold_left
    (fun path topic => path ++ [make (Z.of_nat (List.length path) + 1) topic])
    topics path.

Definition learningPath (metrics : Adaptive.LearningMetrics) : Path :=
  let path := [] in
  let path :=
    push_steps
      (fun n topic =>
         {| step := n;
            topic := topic;
            title := option_map (fun d => d ++ js "の基礎") (getTopicDisplayName topic);
            description :=
              option_map (fun d => d ++ js "の基本概念を理解しましょう")
                (getTopicDisplayName topic);
            difficulty := beginner;
            estimatedTime := 15;
            prerequisites := [] |})
      (Adaptive.strugglingTopics metrics) path in
  let path :=
    push_steps
      (fun n topic =>
         {| step := n;
            topic := topic;
            title := option_map (fun d => d ++ js "の応用") (getTopicDisplayName topic);
            description :=
              option_map (fun d => d ++ js "の応用問題に取り組みましょう")
                (getTopicDisplayName topic);
            difficulty := intermediate;
            estimatedTime := 20;
            prerequisites := Adaptive.strugglingTopics metrics |})
      (List.filter
         (fun topic =>
            negb (array_includes (Adaptive.strugglingTopics metrics) topic)
            && negb (array_includes (Adaptive.masteredTopics metrics) topic))
         topics)
      path in
  let path :=
    push_steps
      (fun n topic =>
         {| step := n;
            topic := topic;
            title := option_map (fun d => d ++ js "の発展") (getTopicDisplayName topic);
            description :=
              option_map (fun d => d ++ js "の高度な問題に挑戦しましょう")
                (getTopicDisplayName topic);
            difficulty := advanced;
            estimatedTime := 30;
            prerequisites :=
              List.filter (fun t => negb (jsstring_eqb t topic)) topics |})
      (Adaptive.masteredTopics metrics) path in
  {| currentStep := 1;
     totalSteps := Z.of_nat (List.length path);
     path := path |}.

Definition generateLearningPath (userId : string)
    (db : gmap string Character.CharacterRow) : js_result Path :=
  bind (Adaptive.calculateLearningMetrics userId db)
    (fun metrics => Ok (learningPath metrics)).

Definition calculateSuggestedDifficulty (avgProficiency : Q) (currentLevel : Z) : Z :=
  if Qle_bool 80 avgProficiency then currentLevel + 1
  else if Qle_bool 60 avgProficiency then currentLevel
  else Z.max 1 (currentLevel - 1).

(** [difficultyProgression.suggestedLevel] as [calculateLearningMetrics]
    computes it from the row. *)
Definition suggestedLevel (characterState : Character.CharacterRow) : Z :=
  let averageProficiency : Q :=
    (inject_Z
       (0 + Character.understandingAlgebra characterState
        + Character.understandingGeometry characterState
        + Character.understandingFunctions characterState
        + Character.understandingProbability characterState) / 4)%Q in
  calculateSuggestedDifficulty averageProficiency (Character.level characterState).

End LearningPath.

(** *** Further vocabulary *)

(** The order poor < average < good < excellent. *)
Definition quality_rank (q : Quality) : Z :=
  match q with
  | poor => 0
  | average => 1
  | good => 2
  | excellent => 3
  end.

(** [answer.trim().split(/\s+/).length]. *)
Definition wordCount (answer : jsstring) : Z :=
  Z.of_nat (List.length (split_ws (trim answer))).

(** The keywords of a question that the similarity test can count: the
    runs of kana and kanji longer than one code unit. *)
Definition countedKeywords (q : jsstring) : list jsstring :=
  List.filter (fun word => 1 <? js_length word)
    (match_runs MathQuestion.isKeywordUnit q).

(** Every question of the template table. *)
Definition allTemplates : list jsstring :=
  flat_map
    (fun entry =>
       flat_map (MathQuestion.at_difficulty (snd entry))
         [beginner; intermediate; advanced])
    MathQuestion.questionTemplates.

(** [msg.role === "マナ"]. *)
Definition fromMana (msg : ConversationMessage) : bool :=
  jsstring_eqb (role msg) (js "マナ").

(** One [addExperience] request: when it arrives, the gain, the topic. *)
Record ExperienceCall := {
  call_time : Z;
  call_gain : Z;
  call_topic : option jsstring
}.

(** A run of [addExperience] calls for one user, each on the table the
    previous one left. *)
Fixpoint addExperience_all (userId : string) (calls : list ExperienceCall)
    (db : gmap string Character.CharacterRow)
  : js_result (gmap string Character.CharacterRow) :=
  match calls with
  | [] => Ok db
  | call :: rest =>
      bind
        (Character.addExperience (call_time call) userId (call_gain call)
           (call_topic call) db)
        (fun '(_, db') => addExperience_all userId rest db')
  end.

(** The sum of the gains of a run. *)
Definition total_gain (calls : list ExperienceCall) : Z :=
  fold_right (fun call acc => call_gain call + acc) 0 calls.

(** States the hook holds after a run of [updateCharacterState] calls that
    starts with the initial character, every gain between 0 and [cap]. *)
Inductive hook_reachable_upto (cap : Z) : CharacterState -> Prop :=
| hook_upto_initial : hook_reachable_upto cap Hook.initialCharacter
| hook_upto_update expGain newMood currentTopic prev :
    hook_reachable_upto cap prev ->
    0 <= expGain <= cap ->
    hook_reachable_upto cap
      (Hook.updateCharacterState expGain newMood currentTopic prev).

(** The order beginner < intermediate < advanced. *)
Definition difficulty_rank (d : Difficulty) : Z :=
  match d with
  | beginner => 0
  | intermediate => 1
  | advanced => 2
  end.

(** The difficulties of a path never go down from one step to the next. *)
Fixpoint difficulty_ascending (steps : list LearningPath.Step) : bool :=
  match steps with
  | [] => true
  | s :: rest =>
      match rest with
      | [] => true
      | s' :: _ =>
          (difficulty_rank (LearningPath.difficulty s)
           <=? difficulty_rank (LearningPath.difficulty s'))
          && difficulty_ascending rest
      end
  end.

(** A decidable summary of a well-formed learning path: four steps numbered
    1 to 4, every topic once, no step among its own prerequisites, every
    title spelled out, difficulties ascending. *)
Definition path_check (p : LearningPath.Path) : bool :=
  (LearningPath.totalSteps p =? 4)
  && (LearningPath.currentStep p =? 1)
  && bool_decide (map LearningPath.step (LearningPath.path p) = [1; 2; 3; 4])
  && bool_decide (NoDup (map LearningPath.topic (LearningPath.path p)))
  && forallb (array_includes (map LearningPath.topic (LearningPath.path p))) topics
  && forallb
       (fun s =>
          negb (array_includes (LearningPath.prerequisites s) (LearningPath.topic s))
          && match LearningPath.title s with Some _ => true | None => false end)
       (LearningPath.path p)
  && difficulty_ascending (LearningPath.path p).

(** What a recommendation says about the metrics it was made from: a
    concept entry is for a topic below 30, a problem-solving entry for a
    topic at 80 or more, and an application entry is the balanced one, for
    the weakest topic when no topic is below 30. *)
Definition recommendation_sound (m : Adaptive.LearningMetrics)
    (r : Adaptive.AdaptiveRecommendation) : Prop :=
  let t := Adaptive.recommendedTopic r in
  In t topics
  /\ Adaptive.focusAreas r = [t]
  /\ match Adaptive.questionType r with
     | Adaptive.concept =>
         Adaptive.difficultyLevel r = beginner /\ Adaptive.proficiency m t < 30
     | Adaptive.application =>
         Adaptive.strugglingTopics m = []
         /\ t = Adaptive.weakestTopic m
         /\ 30 <= Adaptive.proficiency m t
         /\ Adaptive.difficultyLevel r
            = Adaptive.getDifficultyForTopic (Adaptive.proficiency m t)
     | Adaptive.problem_solving =>
         Adaptive.difficultyLevel r = advanced /\ 80 <= Adaptive.proficiency m t
     end.

(** The mood table of the specification: excellent to excited, good to
    happy, average to curious, poor to confused. *)
Definition moodTable (q : Quality) : Mood :=
  match q with
  | excellent => excited
  | good => happy
  | average => curious
  | poor => confused
  end.

(** The four phrases [addVariation] draws from. *)
Definition variationPhrases : list jsstring :=
  map js [ "別の角度から考えてみよう！";
           "こんどはこの問題はどうかな？";
           "少し違った問題も見てみよう！";
           "今度はこれについて教えて！" ]%string.

(** The body names no topic of the fixed set: the key is absent, holds no
    string, or holds a string that is none of the four names. *)
Definition topic_outside (body : Schema.RequestBody) : Prop :=
  forall t, Schema.currentTopic body = Some t -> ~ In t topics.

(* ===================================================================== *)
(** ** Properties *)
(* ===================================================================== *)

(** *** General facts about the JavaScript layer *)

Lemma random_index_lt (u : random_draw) (n : nat) :
  (0 < n)%nat -> (random_index u n < n)%nat.
Proof.
  intros Hn. unfold random_index.
  destruct u as [a g]; cbn [num gap].
  assert (H : (a * N.of_nat n / (a + g + 1) < N.of_nat n)%N).
  { apply N.Div0.div_lt_upper_bound. nia. }
  lia.
Qed.

Lemma random_element_In (u : random_draw) (a : list jsstring) :
  a <> [] -> In (random_element u a) a.
Proof.
  intros Ha. unfold random_element. apply nth_In.
  apply random_index_lt. destruct a; [congruence | cbn; lia].
Qed.

Lemma own_prop_In {A} (obj : list (jsstring * A)) key v :
  own_prop obj key = Some v -> In (key, v) obj.
Proof.
  induction obj as [| [k w] obj IH]; cbn; [discriminate |].
  unfold jsstring_eqb. case_bool_decide as Hk.
  - intros [= ->]. subst. now left.
  - intros H. right. now apply IH.
Qed.

Lemma own_prop_None {A} (obj : list (jsstring * A)) key :
  ~ In key (map fst obj) -> own_prop obj key = None.
Proof.
  induction obj as [| [k w] obj IH]; cbn; [reflexivity |].
  intros Hn. unfold jsstring_eqb. case_bool_decide as Hk.
  - exfalso. apply Hn. now left.
  - apply IH. intros Hin. apply Hn. now right.
Qed.

Lemma topics_cases (t : jsstring) :
  In t topics ->
  t = js "algebra" \/ t = js "geometry" \/ t = js "functions" \/ t = js "probability".
Proof.
  unfold topics. cbn [map In]. intuition.
Qed.

Ltac each_topic H :=
  apply topics_cases in H;
  destruct H as [-> | [-> | [-> | ->]]].

Lemma array_includes_In (a : list jsstring) (x : jsstring) :
  array_includes a x = true <-> In x a.
Proof.
  unfold array_includes. rewrite existsb_exists. split.
  - intros (y & Hin & Heq). unfold jsstring_eqb in Heq.
    apply bool_decide_eq_true in Heq. now subst.
  - intros Hin. exists x. split; [exact Hin |].
    unfold jsstring_eqb. now apply bool_decide_eq_true_2.
Qed.

(** *** Experience gain *)

(** C2. For every quality and every answer length, the experience gain the
    service computes is [min(30, base(q) + bonus(n))], with the base table
    25/15/8/3 and a bonus of 5 above 100 units, else 2 above 50, else 0. *)
Theorem calculateExperienceGain_is_min_30 (q : Quality) (n : Z) :
  AnswerEvaluation.calculateExperienceGain q n
  = Z.min 30 (ExpGainSpec.base q + ExpGainSpec.bonus n).
Proof.
  unfold AnswerEvaluation.calculateExperienceGain, ExpGainSpec.bonus.
  rewrite Z.min_comm.
  replace (AnswerEvaluation.baseExp q) with (ExpGainSpec.base q)
    by (destruct q; reflexivity).
  destruct (100 <? n); [reflexivity |].
  destruct (50 <? n); [reflexivity |].
  now rewrite Z.add_0_r.
Qed.

(** *** The empty answer *)

Lemma empty_answer_score (t : jsstring) :
  In t topics -> AnswerEvaluation.answerScore [] t = Ok 0.
Proof.
  intros H. each_topic H; vm_compute; reflexivity.
Qed.

(** C9. For each of the four topics the rule-based path scores the empty
    answer 0, classifies it as poor, and returns experience gain 3,
    understanding improvement 1 and mood confused. *)
Theorem empty_answer_is_poor (t : jsstring) (u1 u2 : random_draw)
    (st : CharacterState) (history : list ConversationMessage) :
  In t topics ->
  AnswerEvaluation.answerScore [] t = Ok 0
  /\ AnswerEvaluation.assessAnswerQuality [] t = Ok poor
  /\ exists r,
       AnswerEvaluation.evaluateWithFallback u1 u2
         {| AnswerEvaluation.userAnswer := [];
            AnswerEvaluation.topic := t;
            AnswerEvaluation.characterState := st;
            AnswerEvaluation.conversationHistory := history |} = Ok r
       /\ AnswerEvaluation.experienceGain r = 3
       /\ AnswerEvaluation.understandingImprovement r = 1
       /\ AnswerEvaluation.newMood r = confused.
Proof.
  intros H.
  assert (Hq : AnswerEvaluation.assessAnswerQuality [] t = Ok poor).
  { unfold AnswerEvaluation.assessAnswerQuality.
    rewrite (empty_answer_score t H). reflexivity. }
  split; [now apply empty_answer_score |].
  split; [exact Hq |].
  unfold AnswerEvaluation.evaluateWithFallback.
  cbn [AnswerEvaluation.userAnswer AnswerEvaluation.topic
       AnswerEvaluation.characterState].
  rewrite Hq. cbn [bind].
  eexists. split; [reflexivity |].
  cbn [AnswerEvaluation.experienceGain AnswerEvaluation.understandingImprovement
       AnswerEvaluation.newMood].
  repeat split; reflexivity.
Qed.

Lemma empty_answer_is_poor_geometry :
  In (js "geometry") topics
  /\ exists r,
       AnswerEvaluation.evaluateWithFallback
         {| num := 1; gap := 2 |} {| num := 0; gap := 0 |}
         {| AnswerEvaluation.userAnswer := [];
            AnswerEvaluation.topic := js "geometry";
            AnswerEvaluation.characterState := Hook.initialCharacter;
            AnswerEvaluation.conversationHistory := [] |} = Ok r
       /\ AnswerEvaluation.experienceGain r = 3
       /\ AnswerEvaluation.understandingImprovement r = 1
       /\ AnswerEvaluation.newMood r = confused.
Proof.
  assert (Hin : In (js "geometry") topics) by (vm_compute; tauto).
  split; [exact Hin |].
  exact (proj2 (proj2 (empty_answer_is_poor (js "geometry")
                         {| num := 1; gap := 2 |} {| num := 0; gap := 0 |}
                         Hook.initialCharacter [] Hin))).
Defined.

(** *** The persisted character state *)

Section AddExperience.

Variables (now : Z) (userId : string) (expGain : Z).
Variable db : gmap string Character.CharacterRow.
Variable st : Character.CharacterRow.
Hypothesis stored : db !! userId = Some st.

Lemma addExperience_stored (topic : option jsstring) :
  Character.addExperience now userId expGain topic db
  = Ok (written now expGain st topic,
        <[userId := written now expGain st topic]> db).
Proof using stored.
  unfold Character.addExperience, Character.getCharacterState.
  rewrite stored. cbn [try_catch bind].
  unfold Character.updateCharacterState. rewrite stored. reflexivity.
Qed.

Lemma experienceUpdate_topic (t : jsstring) :
  In t topics ->
  Character.experienceUpdate st expGain (Some t)
  = (if jsstring_eqb t (js "algebra") then
       Character.assign_understandingAlgebra
         (Z.min 100 (Character.understandingAlgebra st + Z.min 5 expGain))
     else if jsstring_eqb t (js "geometry") then
       Character.assign_understandingGeometry
         (Z.min 100 (Character.understandingGeometry st + Z.min 5 expGain))
     else if jsstring_eqb t (js "functions") then
       Character.assign_understandingFunctions
         (Z.min 100 (Character.understandingFunctions st + Z.min 5 expGain))
     else
       Character.assign_understandingProbability
         (Z.min 100 (Character.understandingProbability st + Z.min 5 expGain)))
      (Character.experienceUpdate st expGain None).
Proof.
  intros H. each_topic H; reflexivity.
Qed.

Lemma written_level (topic : option jsstring) :
  Character.level (written now expGain st topic)
  = Z.min ((Character.experience st + expGain) / 100 + 1) (Character.level st + 1).
Proof.
  unfold written, Character.experienceUpdate.
  destruct topic as [[| c t] |]; try reflexivity.
  repeat case_match; reflexivity.
Qed.

Lemma written_experience (topic : option jsstring) :
  Character.experience (written now expGain st topic) = Character.experience st + expGain.
Proof.
  unfold written, Character.experienceUpdate.
  destruct topic as [[| c t] |]; try reflexivity.
  repeat case_match; reflexivity.
Qed.

End AddExperience.

(** C3. When a user has a stored row, one [addExperience] call with a
    non-negative gain succeeds and the level it stores is at most the
    previous level plus one, however large the gain. *)
Theorem addExperience_level_step (now : Z) (userId : string) (expGain : Z)
    (topic : option jsstring) (db : gmap string Character.CharacterRow)
    (st : Character.CharacterRow) :
  db !! userId = Some st ->
  0 <= expGain ->
  exists row db',
    Character.addExperience now userId expGain topic db = Ok (row, db')
    /\ db' !! userId = Some row
    /\ Character.level row <= Character.level st + 1.
Proof.
  intros Hst _.
  exists (written now expGain st topic), (<[userId := written now expGain st topic]> db).
  split; [now apply addExperience_stored |].
  split; [apply lookup_insert_eq |].
  rewrite written_level. lia.
Qed.

Lemma addExperience_level_step_huge_gain :
  let st := Character.initialRow 0 "mana" in
  let db : gmap string Character.CharacterRow := {[ "mana"%string := st ]} in
  exists row db',
    Character.addExperience 1 "mana" 100000 (Some (js "algebra")) db = Ok (row, db')
    /\ db' !! "mana"%string = Some row
    /\ Character.level row <= Character.level st + 1.
Proof.
  apply (addExperience_level_step 1 "mana" 100000 (Some (js "algebra"))
           {[ "mana"%string := Character.initialRow 0 "mana" ]}
           (Character.initialRow 0 "mana")).
  - apply lookup_singleton_eq.
  - lia.
Defined.

(** C10. For a stored row, a non-negative gain and one of the four topics,
    [addExperience] sets that topic's understanding to
    [min(100, old + min(5, gain))], experience to [old + gain], level to the
    capped recomputation and the problem count to [old + 1]; the other
    topics' understanding and the mood are as before, no other user's row
    is touched, and the understanding rises by at most 5. *)
Theorem addExperience_frame (now : Z) (userId : string) (expGain : Z)
    (t : jsstring) (db : gmap string Character.CharacterRow)
    (st : Character.CharacterRow) :
  db !! userId = Some st ->
  0 <= expGain ->
  In t topics ->
  exists row db',
    Character.addExperience now userId expGain (Some t) db = Ok (row, db')
    /\ db' !! userId = Some row
    /\ (forall other, other <> userId -> db' !! other = db !! other)
    /\ understandingColumn row t
       = Z.min 100 (understandingColumn st t + Z.min 5 expGain)
    /\ understandingColumn row t - understandingColumn st t <= 5
    /\ (forall t', In t' topics -> t' <> t ->
          understandingColumn row t' = understandingColumn st t')
    /\ Character.mood row = Character.mood st
    /\ Character.userId row = Character.userId st
    /\ Character.experience row = Character.experience st + expGain
    /\ Character.level row
       = Z.min ((Character.experience st + expGain) / 100 + 1)
               (Character.level st + 1)
    /\ Character.totalProblems row = Character.totalProblems st + 1.
Proof.
  intros Hst Hgain Ht.
  exists (written now expGain st (Some t)),
         (<[userId := written now expGain st (Some t)]> db).
  split; [now apply addExperience_stored |].
  split; [apply lookup_insert_eq |].
  split; [intros other Hne; now apply lookup_insert_ne |].
  assert (Hcol :
    understandingColumn (written now expGain st (Some t)) t
    = Z.min 100 (understandingColumn st t + Z.min 5 expGain)).
  { unfold written. rewrite (experienceUpdate_topic expGain st t Ht).
    each_topic Ht; reflexivity. }
  split; [exact Hcol |].
  split; [rewrite Hcol; lia |].
  split.
  { intros t' Ht' Hne. unfold written.
    rewrite (experienceUpdate_topic expGain st t Ht).
    each_topic Ht; each_topic Ht'; try congruence; reflexivity. }
  split.
  { unfold written. rewrite (experienceUpdate_topic expGain st t Ht).
    each_topic Ht; reflexivity. }
  split; [reflexivity |].
  split; [apply written_experience |].
  split; [apply written_level |].
  unfold written. rewrite (experienceUpdate_topic expGain st t Ht).
  each_topic Ht; reflexivity.
Qed.

Lemma addExperience_frame_geometry :
  let st := Character.initialRow 0 "mana" in
  let db : gmap string Character.CharacterRow := {[ "mana"%string := st ]} in
  exists row db',
    Character.addExperience 1 "mana" 30 (Some (js "geometry")) db = Ok (row, db')
    /\ understandingColumn row (js "geometry") = 5
    /\ understandingColumn row (js "algebra") = 0
    /\ Character.totalProblems row = 1.
Proof.
  destruct (addExperience_frame 1 "mana" 30 (js "geometry")
              {[ "mana"%string := Character.initialRow 0 "mana" ]}
              (Character.initialRow 0 "mana"))
    as (row & db' & Hrun & _ & _ & Hcol & _ & Hothers & _ & _ & _ & _ & Hcount).
  - apply lookup_singleton_eq.
  - lia.
  - vm_compute; tauto.
  - exists row, db'. split; [exact Hrun |].
    split; [rewrite Hcol; reflexivity |].
    split; [| rewrite Hcount; reflexivity].
    rewrite Hothers; [reflexivity | vm_compute; tauto | discriminate].
Defined.

(** *** Level and accumulated experience *)

Lemma server_step_inv now userId expGain topic db row row' db' :
  db !! userId = Some row ->
  Character.addExperience now userId expGain topic db = Ok (row', db') ->
  row' = written now expGain row topic.
Proof.
  intros Hrow Hrun.
  rewrite (addExperience_stored now userId expGain db row Hrow) in Hrun.
  congruence.
Qed.

Lemma level_exact_step (e g l : Z) :
  g <= 100 -> l = e / 100 + 1 ->
  Z.min ((e + g) / 100 + 1) (l + 1) = (e + g) / 100 + 1.
Proof.
  intros Hg ->.
  assert (H : (e + g) / 100 <= e / 100 + 1).
  { replace (e / 100 + 1) with ((e + 1 * 100) / 100) by (rewrite Z.div_add; lia).
    apply Z.div_le_mono; lia. }
  lia.
Qed.

Lemma server_level_exact userId row :
  server_reachable (fun g => g <= 100) userId row ->
  Character.level row = Character.experience row / 100 + 1.
Proof.
  induction 1 as [now | now g topic db row row' db' Hreach IH Hrow Hg Hrun].
  - reflexivity.
  - apply server_step_inv with (row := row) in Hrun; [| exact Hrow].
    subst row'. rewrite written_level, written_experience.
    now apply level_exact_step.
Qed.

Lemma server_level_bounded userId row :
  server_reachable (fun g => 0 <= g) userId row ->
  0 <= Character.experience row
  /\ 1 <= Character.level row <= Character.experience row / 100 + 1.
Proof.
  induction 1 as [now | now g topic db row row' db' Hreach IH Hrow Hg Hrun].
  - unfold Character.initialRow; cbn [Character.experience Character.level].
    change (0 / 100) with 0. lia.
  - apply server_step_inv with (row := row) in Hrun; [| exact Hrow].
    subst row'. rewrite written_level, written_experience.
    destruct IH as (He & Hl1 & Hl2).
    assert (0 <= (Character.experience row + g) / 100)
      by (apply Z.div_pos; lia).
    lia.
Qed.

Lemma hook_experience_range st :
  hook_reachable st -> 0 <= experience st < 100.
Proof.
  induction 1 as [| g m t prev Hreach IH Hg].
  - cbn. lia.
  - cbn [Hook.updateCharacterState experience].
    rewrite Z.rem_mod_nonneg by lia.
    apply Z.mod_pos_bound. lia.
Qed.

(** C5, as the code has it. On the server, a row reached from the created
    row by [addExperience] calls whose gains are at most 100 has
    [level = floor(experience / 100) + 1]; with arbitrary non-negative gains
    the one-level cap only keeps [1 <= level <= floor(experience / 100) + 1].
    The hook stores the remainder
    [experience = (previous experience + gain) rem 100], so every state the
    hook reaches has [0 <= experience < 100]. *)
Theorem level_follows_experience :
  (forall userId row,
     server_reachable (fun g => g <= 100) userId row ->
     Character.level row = Character.experience row / 100 + 1)
  /\ (forall userId row,
        server_reachable (fun g => 0 <= g) userId row ->
        0 <= Character.experience row
        /\ 1 <= Character.level row <= Character.experience row / 100 + 1)
  /\ (forall expGain newMood currentTopic prev,
        experience (Hook.updateCharacterState expGain newMood currentTopic prev)
        = Z.rem (experience prev + expGain) 100)
  /\ (forall st, hook_reachable st -> 0 <= experience st < 100).
Proof.
  split; [exact server_level_exact |].
  split; [exact server_level_bounded |].
  split; [| exact hook_experience_range].
  intros. reflexivity.
Qed.

(** The row after the created row received one gain of 30. *)
Lemma level_follows_experience_after_30 :
  let row := written 1 30 (Character.initialRow 0 "mana") (Some (js "algebra")) in
  server_reachable (fun g => g <= 100) "mana" row
  /\ Character.level row = Character.experience row / 100 + 1.
Proof.
  assert (Hreach : server_reachable (fun g => g <= 100) "mana"
            (written 1 30 (Character.initialRow 0 "mana") (Some (js "algebra")))).
  { apply (reach_addExperience _ "mana" 1 30 (Some (js "algebra"))
             {[ "mana"%string := Character.initialRow 0 "mana" ]}
             (Character.initialRow 0 "mana") _
             (<[ "mana"%string :=
                   written 1 30 (Character.initialRow 0 "mana") (Some (js "algebra")) ]>
                {[ "mana"%string := Character.initialRow 0 "mana" ]})).
    - apply reach_created.
    - apply lookup_singleton_eq.
    - lia.
    - apply addExperience_stored. apply lookup_singleton_eq. }
  split; [exact Hreach |].
  exact (proj1 level_follows_experience "mana" _ Hreach).
Defined.

(** C5 as worded fails on both paths: one server update with gain 250 stores
    level 2 beside experience 250, and four hook updates with gain 30 leave
    level 2 beside experience 20. *)
Lemma level_relation_broken :
  (exists row,
     server_reachable (fun g => 0 <= g) "mana" row
     /\ Character.level row <> Character.experience row / 100 + 1)
  /\ (exists st,
        hook_reachable st
        /\ level st <> experience st / 100 + 1).
Proof.
  split.
  - exists (written 1 250 (Character.initialRow 0 "mana") None). split.
    + apply (reach_addExperience _ "mana" 1 250 None
               {[ "mana"%string := Character.initialRow 0 "mana" ]}
               (Character.initialRow 0 "mana") _
               (<[ "mana"%string := written 1 250 (Character.initialRow 0 "mana") None ]>
                  {[ "mana"%string := Character.initialRow 0 "mana" ]})).
      * apply reach_created.
      * apply lookup_singleton_eq.
      * lia.
      * apply addExperience_stored. apply lookup_singleton_eq.
    + vm_compute. discriminate.
  - pose (step := Hook.updateCharacterState 30 happy (js "algebra")).
    exists (step (step (step (step Hook.initialCharacter)))). split.
    + repeat (apply hook_update; [| lia]). apply hook_initial.
    + vm_compute. discriminate.
Qed.

(** *** Range of the understanding values *)

Lemma written_column now expGain st t :
  In t topics ->
  understandingColumn (written now expGain st (Some t)) t
  = Z.min 100 (understandingColumn st t + Z.min 5 expGain).
Proof.
  intros Ht. unfold written. rewrite (experienceUpdate_topic expGain st t Ht).
  each_topic Ht; reflexivity.
Qed.

Lemma written_column_other now expGain st t t' :
  In t topics -> In t' topics -> t' <> t ->
  understandingColumn (written now expGain st (Some t)) t'
  = understandingColumn st t'.
Proof.
  intros Ht Ht' Hne. unfold written.
  rewrite (experienceUpdate_topic expGain st t Ht).
  each_topic Ht; each_topic Ht'; try congruence; reflexivity.
Qed.

Lemma hook_understanding expGain newMood t prev :
  In t topics ->
  understandingOf (Hook.updateCharacterState expGain newMood t prev) t
  = Z.min (understandingOf prev t + expGain) 100.
Proof.
  intros Ht. destruct prev as [n l e mx [a g f p] m tp ps].
  each_topic Ht; reflexivity.
Qed.

Lemma hook_understanding_other expGain newMood t t' prev :
  In t topics -> In t' topics -> t' <> t ->
  understandingOf (Hook.updateCharacterState expGain newMood t prev) t'
  = understandingOf prev t'.
Proof.
  intros Ht Ht' Hne. destruct prev as [n l e mx [a g f p] m tp ps].
  each_topic Ht; each_topic Ht'; try congruence; reflexivity.
Qed.

Lemma getCharacterState_stored now userId (db : gmap string Character.CharacterRow) st :
  db !! userId = Some st ->
  Character.getCharacterState now userId db = Ok (st, db).
Proof.
  intros Hst. unfold Character.getCharacterState. rewrite Hst. reflexivity.
Qed.

(** C6, as the code has it. A write caps the topic's understanding at 100
    whatever the gain, on the server and in the hook, and when the gain is
    non-negative and all four values were within 0..100 they all still are.
    A read does not clamp: a stored row is returned exactly as it is,
    without an error. *)
Theorem understanding_capped_on_write :
  (forall now userId expGain t (db : gmap string Character.CharacterRow) st,
     db !! userId = Some st ->
     In t topics ->
     exists row db',
       Character.addExperience now userId expGain (Some t) db = Ok (row, db')
       /\ understandingColumn row t <= 100
       /\ (0 <= expGain ->
           (forall t', In t' topics -> 0 <= understandingColumn st t' <= 100) ->
           forall t', In t' topics -> 0 <= understandingColumn row t' <= 100))
  /\ (forall expGain newMood t prev,
        In t topics ->
        let next := Hook.updateCharacterState expGain newMood t prev in
        understandingOf next t <= 100
        /\ (0 <= expGain ->
            (forall t', In t' topics -> 0 <= understandingOf prev t' <= 100) ->
            forall t', In t' topics -> 0 <= understandingOf next t' <= 100))
  /\ (forall now userId (db : gmap string Character.CharacterRow) st,
        db !! userId = Some st ->
        Character.getCharacterState now userId db = Ok (st, db)).
Proof.
  split; [| split].
  - intros now userId expGain t db st Hst Ht.
    exists (written now expGain st (Some t)),
           (<[userId := written now expGain st (Some t)]> db).
    split; [now apply addExperience_stored |].
    split; [rewrite written_column by exact Ht; lia |].
    intros Hgain Hrange t' Ht'.
    destruct (decide (t' = t)) as [-> | Hne].
    + rewrite written_column by exact Ht. specialize (Hrange t Ht). lia.
    + rewrite written_column_other by assumption. now apply Hrange.
  - intros expGain newMood t prev Ht next. subst next.
    split; [rewrite hook_understanding by exact Ht; lia |].
    intros Hgain Hrange t' Ht'.
    destruct (decide (t' = t)) as [-> | Hne].
    + rewrite hook_understanding by exact Ht. specialize (Hrange t Ht). lia.
    + rewrite hook_understanding_other by assumption. now apply Hrange.
  - exact getCharacterState_stored.
Qed.

Lemma understanding_capped_on_write_at_98 :
  let st :=
    Character.apply_update 1
      {| Character.set_level := None;
         Character.set_experience := None;
         Character.set_understandingAlgebra := Some 98;
         Character.set_understandingGeometry := None;
         Character.set_understandingFunctions := None;
         Character.set_understandingProbability := None;
         Character.set_mood := None;
         Character.set_totalProblems := None |}
      (Character.initialRow 0 "mana") in
  let db : gmap string Character.CharacterRow := {[ "mana"%string := st ]} in
  exists row db',
    Character.addExperience 2 "mana" 30 (Some (js "algebra")) db = Ok (row, db')
    /\ understandingColumn row (js "algebra") <= 100.
Proof.
  cbv zeta.
  destruct (proj1 understanding_capped_on_write 2 "mana" 30 (js "algebra")
              {[ "mana"%string :=
                   Character.apply_update 1
                     {| Character.set_level := None;
                        Character.set_experience := None;
                        Character.set_understandingAlgebra := Some 98;
                        Character.set_understandingGeometry := None;
                        Character.set_understandingFunctions := None;
                        Character.set_understandingProbability := None;
                        Character.set_mood := None;
                        Character.set_totalProblems := None |}
                     (Character.initialRow 0 "mana") ]}
              _ (lookup_singleton_eq _ _))
    as (row & db' & Hrun & Hcap & _).
  - vm_compute; tauto.
  - exists row, db'. split; [exact Hrun | exact Hcap].
Defined.

(** C6 as worded fails on the read: after a generic update stored 150 for
    algebra, [getCharacterState] returns 150, and an [addExperience] for
    another topic keeps 150 in the table. *)
Lemma understanding_not_clamped_on_read :
  let outside :=
    {| Character.set_level := None;
       Character.set_experience := None;
       Character.set_understandingAlgebra := Some 150;
       Character.set_understandingGeometry := None;
       Character.set_understandingFunctions := None;
       Character.set_understandingProbability := None;
       Character.set_mood := None;
       Character.set_totalProblems := None |} in
  let db0 : gmap string Character.CharacterRow :=
    {[ "mana"%string := Character.initialRow 0 "mana" ]} in
  exists st db row db' row2 db2,
    Character.updateCharacterState 1 "mana" outside db0 = Ok (st, db)
    /\ Character.getCharacterState 2 "mana" db = Ok (row, db')
    /\ understandingColumn row (js "algebra") = 150
    /\ ~ (0 <= understandingColumn row (js "algebra") <= 100)
    /\ Character.addExperience 3 "mana" 10 (Some (js "geometry")) db' = Ok (row2, db2)
    /\ ~ (0 <= understandingColumn row2 (js "algebra") <= 100).
Proof.
  cbv zeta.
  eexists _, _, _, _, _, _.
  split.
  { unfold Character.updateCharacterState. rewrite lookup_singleton_eq. reflexivity. }
  split.
  { apply getCharacterState_stored. apply lookup_insert_eq. }
  split; [reflexivity |].
  split; [vm_compute; intros [_ H]; apply H; reflexivity |].
  split.
  { apply addExperience_stored. apply lookup_insert_eq. }
  vm_compute. intros [_ H]. apply H. reflexivity.
Qed.

(** *** Recommendations *)

Section Recommend.

Variable m : Adaptive.LearningMetrics.

Lemma recommend_length : (List.length (Adaptive.recommend m) <= 3)%nat.
Proof.
  unfold Adaptive.recommend, slice_first. rewrite length_firstn. lia.
Qed.

Lemma recommendedTopics_recommend :
  recommendedTopics (Adaptive.recommend m)
  = firstn 3
      (Adaptive.strugglingTopics m
       ++ match Adaptive.strugglingTopics m with
          | [] => [Adaptive.weakestTopic m]
          | _ :: _ => []
          end
       ++ Adaptive.masteredTopics m).
Proof.
  unfold recommendedTopics, Adaptive.recommend, slice_first.
  rewrite <- firstn_map, !map_app, !map_map. cbn [Adaptive.recommendedTopic].
  rewrite !map_id.
  destruct (Adaptive.strugglingTopics m); reflexivity.
Qed.

End Recommend.

(** The metrics [calculateLearningMetrics] derives from a row. *)
Lemma calculateLearningMetrics_stored userId (db : gmap string Character.CharacterRow) row :
  db !! userId = Some row ->
  exists metrics,
    Adaptive.calculateLearningMetrics userId db = Ok metrics
    /\ Adaptive.topicProficiency metrics
       = {| algebra := Character.understandingAlgebra row;
            geometry := Character.understandingGeometry row;
            functions := Character.understandingFunctions row;
            probability := Character.understandingProbability row |}
    /\ Adaptive.strugglingTopics metrics
       = map fst
           (List.filter (fun '(_, score) => score <? 30)
              (understanding_object (Adaptive.topicProficiency metrics)))
    /\ Adaptive.masteredTopics metrics
       = map fst
           (List.filter (fun '(_, score) => 80 <=? score)
              (understanding_object (Adaptive.topicProficiency metrics))).
Proof.
  intros Hrow. unfold Adaptive.calculateLearningMetrics. rewrite Hrow.
  eexists. split; [reflexivity |]. repeat split.
Qed.

Lemma weakestTopic_cases (m : Adaptive.LearningMetrics) :
  let a := algebra (Adaptive.topicProficiency m) in
  let g := geometry (Adaptive.topicProficiency m) in
  let f := functions (Adaptive.topicProficiency m) in
  let p := probability (Adaptive.topicProficiency m) in
  Adaptive.weakestTopic m
  = if a <? g then
      if a <? f then (if a <? p then js "algebra" else js "probability")
      else (if f <? p then js "functions" else js "probability")
    else
      if g <? f then (if g <? p then js "geometry" else js "probability")
      else (if f <? p then js "functions" else js "probability").
Proof.
  intros a g f p.
  unfold Adaptive.weakestTopic, topics. cbn [map fold_left].
  change (Adaptive.proficiency m (js "algebra")) with a.
  change (Adaptive.proficiency m (js "geometry")) with g.
  destruct (a <? g).
  - change (Adaptive.proficiency m (js "algebra")) with a.
    change (Adaptive.proficiency m (js "functions")) with f.
    destruct (a <? f).
    + change (Adaptive.proficiency m (js "algebra")) with a.
      change (Adaptive.proficiency m (js "probability")) with p.
      reflexivity.
    + change (Adaptive.proficiency m (js "functions")) with f.
      change (Adaptive.proficiency m (js "probability")) with p.
      reflexivity.
  - change (Adaptive.proficiency m (js "geometry")) with g.
    change (Adaptive.proficiency m (js "functions")) with f.
    destruct (g <? f).
    + change (Adaptive.proficiency m (js "geometry")) with g.
      change (Adaptive.proficiency m (js "probability")) with p.
      reflexivity.
    + change (Adaptive.proficiency m (js "functions")) with f.
      change (Adaptive.proficiency m (js "probability")) with p.
      reflexivity.
Qed.

Ltac closed_NoDup :=
  apply (bool_decide_unpack (NoDup _)); vm_compute; exact I.

Lemma recommended_NoDup (m : Adaptive.LearningMetrics) :
  Adaptive.strugglingTopics m
  = map fst
      (List.filter (fun '(_, score) => score <? 30)
         (understanding_object (Adaptive.topicProficiency m))) ->
  Adaptive.masteredTopics m
  = map fst
      (List.filter (fun '(_, score) => 80 <=? score)
         (understanding_object (Adaptive.topicProficiency m))) ->
  (algebra (Adaptive.topicProficiency m) < 80
   \/ geometry (Adaptive.topicProficiency m) < 80
   \/ functions (Adaptive.topicProficiency m) < 80
   \/ probability (Adaptive.topicProficiency m) < 80) ->
  NoDup (recommendedTopics (Adaptive.recommend m)).
Proof.
  intros Hs Hm Hlow.
  rewrite recommendedTopics_recommend, weakestTopic_cases, Hs, Hm.
  destruct (Adaptive.topicProficiency m) as [a g f p].
  cbn [algebra geometry functions probability] in *.
  unfold understanding_object.
  cbn [algebra geometry functions probability List.filter].
  destruct (Z.ltb_spec a 30), (Z.ltb_spec g 30), (Z.ltb_spec f 30), (Z.ltb_spec p 30);
    destruct (Z.leb_spec 80 a), (Z.leb_spec 80 g), (Z.leb_spec 80 f), (Z.leb_spec 80 p);
    try lia;
    cbn [map fst app];
    try closed_NoDup;
    destruct (Z.ltb_spec a g), (Z.ltb_spec a f), (Z.ltb_spec a p),
             (Z.ltb_spec g f), (Z.ltb_spec g p), (Z.ltb_spec f p);
    try lia; closed_NoDup.
Qed.

(** C4, as the code has it. Every list of recommendations has at most
    three entries. For a user with a stored row, the list names no topic
    twice provided at least one of the four understanding values is below
    80; when all four are 80 or more the weakest topic can be named twice,
    once by the balanced entry and once as a mastered topic. *)
Theorem recommendations_at_most_three :
  (forall metrics, (List.length (Adaptive.recommend metrics) <= 3)%nat)
  /\ (forall userId (db : gmap string Character.CharacterRow) row,
        db !! userId = Some row ->
        exists recs,
          Adaptive.generateRecommendations userId db = Ok recs
          /\ (List.length recs <= 3)%nat
          /\ ((exists t, In t topics /\ understandingColumn row t < 80) ->
              NoDup (recommendedTopics recs))).
Proof.
  split; [exact recommend_length |].
  intros userId db row Hrow.
  destruct (calculateLearningMetrics_stored userId db row Hrow)
    as (metrics & Hrun & Hprof & Hs & Hm).
  exists (Adaptive.recommend metrics).
  split; [unfold Adaptive.generateRecommendations; rewrite Hrun; reflexivity |].
  split; [apply recommend_length |].
  intros (t & Ht & Hlow).
  apply recommended_NoDup; [exact Hs | exact Hm |].
  rewrite Hprof. cbn [algebra geometry functions probability].
  each_topic Ht; auto.
Qed.

Lemma recommendations_at_most_three_scenario :
  let row :=
    {| Character.userId := "mana";
       Character.level := 2;
       Character.experience := 130;
       Character.understandingAlgebra := 20;
       Character.understandingGeometry := 85;
       Character.understandingFunctions := 50;
       Character.understandingProbability := 50;
       Character.mood := js "happy";
       Character.totalProblems := 12;
       Character.updatedAt := 7 |} in
  let db : gmap string Character.CharacterRow := {[ "mana"%string := row ]} in
  exists recs,
    Adaptive.generateRecommendations "mana" db = Ok recs
    /\ (List.length recs <= 3)%nat
    /\ NoDup (recommendedTopics recs).
Proof.
  cbv zeta.
  destruct (proj2 recommendations_at_most_three "mana"
              {[ "mana"%string :=
                   {| Character.userId := "mana";
                      Character.level := 2;
                      Character.experience := 130;
                      Character.understandingAlgebra := 20;
                      Character.understandingGeometry := 85;
                      Character.understandingFunctions := 50;
                      Character.understandingProbability := 50;
                      Character.mood := js "happy";
                      Character.totalProblems := 12;
                      Character.updatedAt := 7 |} ]}
              _ (lookup_singleton_eq _ _))
    as (recs & Hrun & Hlen & Hdup).
  exists recs. split; [exact Hrun |]. split; [exact Hlen |].
  apply Hdup. exists (js "algebra"). split; [vm_compute; tauto |].
  vm_compute. reflexivity.
Defined.

(** C4 as worded fails when every topic is mastered and algebra is the
    weakest: with understanding 80, 90, 90, 90 the list names algebra
    twice. *)
Lemma recommendations_repeat_topic :
  let row :=
    {| Character.userId := "mana";
       Character.level := 4;
       Character.experience := 350;
       Character.understandingAlgebra := 80;
       Character.understandingGeometry := 90;
       Character.understandingFunctions := 90;
       Character.understandingProbability := 90;
       Character.mood := js "excited";
       Character.totalProblems := 70;
       Character.updatedAt := 7 |} in
  let db : gmap string Character.CharacterRow := {[ "mana"%string := row ]} in
  exists recs,
    Adaptive.generateRecommendations "mana" db = Ok recs
    /\ recommendedTopics recs = [js "algebra"; js "algebra"; js "geometry"]
    /\ ~ NoDup (recommendedTopics recs).
Proof.
  cbv zeta. eexists. split.
  { unfold Adaptive.generateRecommendations, Adaptive.calculateLearningMetrics.
    rewrite lookup_singleton_eq. reflexivity. }
  split; [vm_compute; reflexivity |].
  intros Hnd.
  assert (H : recommendedTopics
                (Adaptive.recommend
                   {| Adaptive.userId := "mana";
                      Adaptive.totalProblems := 70;
                      Adaptive.topicProficiency :=
                        {| algebra := 80; geometry := 90;
                           functions := 90; probability := 90 |};
                      Adaptive.currentLevel := 4;
                      Adaptive.strugglingTopics := [];
                      Adaptive.masteredTopics := topics |})
              = [js "algebra"; js "algebra"; js "geometry"])
    by (vm_compute; reflexivity).
  change (NoDup (recommendedTopics
                (Adaptive.recommend
                   {| Adaptive.userId := "mana";
                      Adaptive.totalProblems := 70;
                      Adaptive.topicProficiency :=
                        {| algebra := 80; geometry := 90;
                           functions := 90; probability := 90 |};
                      Adaptive.currentLevel := 4;
                      Adaptive.strugglingTopics := [];
                      Adaptive.masteredTopics := topics |}))) in Hnd.
  rewrite H in Hnd.
  apply NoDup_cons_1_1 in Hnd. apply Hnd. left.
Qed.

(** *** Topics outside the fixed set *)

Lemma get_prop_not_own {A} (obj : list (jsstring * A)) key :
  ~ In key (map fst obj) ->
  get_prop obj key = Inherited \/ get_prop obj key = Undefined.
Proof.
  intros Hn. unfold get_prop. rewrite (own_prop_None obj key Hn).
  destruct (array_includes object_prototype_keys key); auto.
Qed.

Lemma get_prop_undefined {A} (obj : list (jsstring * A)) key :
  ~ In key (map fst obj) ->
  ~ In key object_prototype_keys ->
  get_prop obj key = Undefined.
Proof.
  intros Hn Hp. unfold get_prop. rewrite (own_prop_None obj key Hn).
  destruct (array_includes object_prototype_keys key) eqn:Hinc; [| reflexivity].
  exfalso. apply Hp. unfold array_includes in Hinc.
  apply existsb_exists in Hinc. destruct Hinc as (k & Hk & Heq).
  unfold jsstring_eqb in Heq. apply bool_decide_eq_true in Heq. now subst.
Qed.

Lemma questionTemplates_keys : map fst MathQuestion.questionTemplates = topics.
Proof. reflexivity. Qed.

Lemma topicKeywords_keys : map fst AnswerEvaluation.topicKeywords = topics.
Proof. reflexivity. Qed.

Lemma generateQuestion_unknown_topic u1 u2 params :
  ~ In (MathQuestion.topic params) topics ->
  MathQuestion.generateQuestion u1 u2 params = Ok MathQuestion.fallbackQuestion.
Proof.
  intros Hout.
  unfold MathQuestion.generateQuestion, MathQuestion.generateQuestion_body.
  destruct (get_prop_not_own MathQuestion.questionTemplates (MathQuestion.topic params))
    as [-> | ->]; [now rewrite questionTemplates_keys | |]; reflexivity.
Qed.

Lemma currentTopicRule_outside wording raw :
  (forall t, raw = Some t -> ~ In t topics) ->
  Schema.currentTopicRule wording raw = Schema.key_error (wording raw).
Proof.
  intros Hout. unfold Schema.currentTopicRule.
  destruct raw as [s |]; [| reflexivity].
  destruct (array_includes _ s) eqn:Hinc; [| reflexivity].
  apply array_includes_In in Hinc. now destruct (Hout s eq_refl).
Qed.

Lemma currentTopicRule_value wording raw t :
  Schema.currentTopicRule wording raw = Schema.key_value t ->
  raw = Some t /\ In t topics.
Proof.
  unfold Schema.currentTopicRule.
  destruct raw as [s |]; [| discriminate].
  destruct (array_includes _ s) eqn:Hinc; [| discriminate].
  intros [= <-]. split; [reflexivity |]. now apply array_includes_In in Hinc.
Qed.

Lemma validate_outside wording body :
  topic_outside body ->
  exists details, Schema.validate wording body = Validation.schema_error details.
Proof.
  intros Hout. unfold Schema.validate. cbv zeta.
  rewrite (currentTopicRule_outside wording _ Hout).
  destruct (Schema.message body), (Schema.conversationHistory body),
    (Schema.characterState body); eexists; reflexivity.
Qed.

Lemma validate_value wording body value :
  Schema.validate wording body = Validation.schema_value value ->
  Schema.currentTopic body = Some (Validation.currentTopic value)
  /\ In (Validation.currentTopic value) topics.
Proof.
  unfold Schema.validate. cbv zeta.
  destruct (Schema.currentTopicRule wording (Schema.currentTopic body))
    as [d | t] eqn:Hrule.
  - destruct (Schema.message body), (Schema.conversationHistory body),
      (Schema.characterState body); discriminate.
  - apply currentTopicRule_value in Hrule.
    destruct (Schema.message body), (Schema.conversationHistory body),
      (Schema.characterState body), (Schema.requestType body); try discriminate.
    intros [= <-]. exact Hrule.
Qed.

Lemma handler_not_invalid_request endpoint svc u1 u2 now value :
  ChatRouter.handler endpoint svc u1 u2 now value
  <> ChatController.error_reply 400 (js "Invalid request data") None None None.
Proof.
  destruct endpoint; unfold ChatRouter.handler, ChatController.handleChat,
    ChatController.generateQuestion, ChatController.evaluateAnswer;
    repeat case_match; discriminate.
Qed.



(** *** Degrading to the rule-based path *)

Lemma get_prop_not_inherited {A} (obj : list (jsstring * A)) key :
  ~ In key object_prototype_keys -> get_prop obj key <> Inherited.
Proof.
  intros Hp. unfold get_prop. destruct (own_prop obj key); [discriminate |].
  destruct (array_includes object_prototype_keys key) eqn:Hinc; [| discriminate].
  exfalso. apply Hp. unfold array_includes in Hinc.
  apply existsb_exists in Hinc. destruct Hinc as (k & Hk & Heq).
  unfold jsstring_eqb in Heq. apply bool_decide_eq_true in Heq. now subst.
Qed.

Lemma topics_not_inherited (t : jsstring) :
  In t topics -> ~ In t object_prototype_keys.
Proof.
  intros Ht. each_topic Ht; vm_compute;
    intros H; repeat destruct H as [H | H]; try discriminate H; exact H.
Qed.

Lemma assessAnswerQuality_total answer t :
  ~ In t object_prototype_keys ->
  exists q, AnswerEvaluation.assessAnswerQuality answer t = Ok q.
Proof.
  intros Hp.
  unfold AnswerEvaluation.assessAnswerQuality, AnswerEvaluation.answerScore,
    AnswerEvaluation.hasTopicKeywords.
  pose proof (get_prop_not_inherited AnswerEvaluation.topicKeywords t Hp) as Hn.
  destruct (get_prop AnswerEvaluation.topicKeywords t) as [keywords | |];
    [| congruence |]; cbn [bind]; repeat case_match; eauto.
Qed.

Lemma evaluateAnswer_without_ai client u1 u2 params :
  ai_unavailable (AnswerEvaluation.new client) params ->
  AnswerEvaluation.evaluateAnswer (AnswerEvaluation.new client) u1 u2 params
  = AnswerEvaluation.evaluateWithFallback u1 u2 params.
Proof.
  unfold ai_unavailable, AnswerEvaluation.evaluateAnswer, AnswerEvaluation.tryGemini.
  destruct client as [g | e]; cbn [AnswerEvaluation.new AnswerEvaluation.geminiService
                                   AnswerEvaluation.fallbackEnabled].
  - intros Hrej. unfold Gemini.evaluateAnswer. rewrite Hrej. reflexivity.
  - reflexivity.
Qed.

Lemma pools_checked : pools_well_formed = true.
Proof. vm_compute. reflexivity. Qed.

Lemma pool_facts t templates difficulty :
  In (t, templates) MathQuestion.questionTemplates ->
  MathQuestion.at_difficulty templates difficulty <> []
  /\ forall q, In q (MathQuestion.at_difficulty templates difficulty) -> q <> [].
Proof.
  intros Hin. pose proof pools_checked as H. unfold pools_well_formed in H.
  rewrite forallb_forall in H. specialize (H _ Hin). cbn [snd] in H.
  rewrite forallb_forall in H.
  assert (Hd : In difficulty [beginner; intermediate; advanced])
    by (destruct difficulty; cbn; tauto).
  specialize (H _ Hd). apply andb_true_iff in H. destruct H as [Hne Hall].
  split.
  - apply negb_true_iff, bool_decide_eq_false in Hne. exact Hne.
  - intros q Hq. rewrite forallb_forall in Hall. specialize (Hall _ Hq).
    apply negb_true_iff, bool_decide_eq_false in Hall. exact Hall.
Qed.

Lemma adjustQuestion_shape u question history :
  MathQuestion.adjustQuestionBasedOnHistory u question history = question
  \/ exists variation,
       MathQuestion.adjustQuestionBasedOnHistory u question history
       = variation ++ js " " ++ question.
Proof.
  unfold MathQuestion.adjustQuestionBasedOnHistory.
  case_match; [right | left; reflexivity].
  unfold MathQuestion.addVariation. eauto.
Qed.

Lemma generateQuestion_own u1 u2 params templates :
  get_prop MathQuestion.questionTemplates (MathQuestion.topic params) = Own templates ->
  exists difficulty q,
    In q (MathQuestion.at_difficulty templates difficulty)
    /\ q <> []
    /\ (MathQuestion.generateQuestion u1 u2 params = Ok q
        \/ exists variation,
             MathQuestion.generateQuestion u1 u2 params
             = Ok (variation ++ js " " ++ q)).
Proof.
  intros Hget.
  unfold MathQuestion.generateQuestion, MathQuestion.generateQuestion_body.
  rewrite Hget. cbn [try_catch].
  match goal with
  | |- context [MathQuestion.at_difficulty templates ?d] => set (difficulty := d)
  end.
  assert (Hin : In (MathQuestion.topic params, templates) MathQuestion.questionTemplates).
  { apply own_prop_In. unfold get_prop in Hget.
    destruct (own_prop MathQuestion.questionTemplates (MathQuestion.topic params));
      [congruence |].
    destruct (array_includes object_prototype_keys (MathQuestion.topic params));
      discriminate. }
  destruct (pool_facts _ templates difficulty Hin) as [Hne Hall].
  exists difficulty,
    (random_element u1 (MathQuestion.at_difficulty templates difficulty)).
  split; [now apply random_element_In |].
  split; [apply Hall; now apply random_element_In |].
  destruct (adjustQuestion_shape u2
              (random_element u1 (MathQuestion.at_difficulty templates difficulty))
              (MathQuestion.conversationHistory params)) as [-> | [v ->]];
    [left | right; exists v]; reflexivity.
Qed.

Lemma generateQuestion_nonempty u1 u2 params :
  exists question,
    MathQuestion.generateQuestion u1 u2 params = Ok question /\ question <> [].
Proof.
  destruct (get_prop MathQuestion.questionTemplates (MathQuestion.topic params))
    as [templates | |] eqn:Hget.
  - destruct (generateQuestion_own u1 u2 params templates Hget)
      as (d & q & _ & Hq & [-> | [v ->]]).
    + eexists. split; [reflexivity | exact Hq].
    + eexists. split; [reflexivity |].
      intros Hnil. apply app_eq_nil in Hnil. destruct Hnil as [_ Hnil].
      discriminate Hnil.
  - unfold MathQuestion.generateQuestion, MathQuestion.generateQuestion_body.
    rewrite Hget. eexists. split; [reflexivity | vm_compute; discriminate].
  - unfold MathQuestion.generateQuestion, MathQuestion.generateQuestion_body.
    rewrite Hget. eexists. split; [reflexivity | vm_compute; discriminate].
Qed.

Lemma get_prop_own_topic {A} (obj : list (jsstring * A)) key :
  In key (map fst obj) -> exists v, get_prop obj key = Own v.
Proof.
  intros Hin. unfold get_prop.
  destruct (own_prop obj key) as [v |] eqn:Hown; [eauto |].
  exfalso. induction obj as [| [k w] obj IH]; [exact Hin |].
  cbn in Hown. unfold jsstring_eqb in Hown. case_bool_decide as Hk; [discriminate |].
  destruct Hin as [Heq | Hin]; [cbn in Heq; congruence | now apply IH].
Qed.

(** C1. When no AI evaluation is to be had, because the service was built
    without a client or because the client's call is rejected,
    [evaluateAnswer] is exactly the rule-based evaluation, and for every
    topic that is not the name of a property inherited from
    [Object.prototype] (the four topics are not) it returns the result
    computed from the rule-based quality. [generateQuestion], which consults
    no AI at all, always returns a non-empty string, and for one of the four
    topics that string is a template of the topic, possibly after a
    variation phrase. *)
Theorem ai_failure_degrades_to_rules :
  (forall client u1 u2 params,
     ai_unavailable (AnswerEvaluation.new client) params ->
     AnswerEvaluation.evaluateAnswer (AnswerEvaluation.new client) u1 u2 params
     = AnswerEvaluation.evaluateWithFallback u1 u2 params
     /\ (~ In (AnswerEvaluation.topic params) object_prototype_keys ->
         exists q,
           AnswerEvaluation.assessAnswerQuality
             (AnswerEvaluation.userAnswer params) (AnswerEvaluation.topic params)
           = Ok q
           /\ AnswerEvaluation.evaluateAnswer (AnswerEvaluation.new client) u1 u2 params
              = Ok {| AnswerEvaluation.response :=
                        AnswerEvaluation.generateResponse u1 u2 q
                          (AnswerEvaluation.topic params)
                          (AnswerEvaluation.userAnswer params);
                      AnswerEvaluation.experienceGain :=
                        AnswerEvaluation.calculateExperienceGain q
                          (js_length (AnswerEvaluation.userAnswer params));
                      AnswerEvaluation.newMood :=
                        AnswerEvaluation.determineNewMood q
                          (mood (AnswerEvaluation.characterState params));
                      AnswerEvaluation.understandingImprovement :=
                        AnswerEvaluation.calculateUnderstandingImprovement q |}))
  /\ (forall t, In t topics -> ~ In t object_prototype_keys)
  /\ (forall u1 u2 params,
        exists question,
          MathQuestion.generateQuestion u1 u2 params = Ok question
          /\ question <> [])
  /\ (forall u1 u2 params,
        In (MathQuestion.topic params) topics ->
        exists templates difficulty q,
          get_prop MathQuestion.questionTemplates (MathQuestion.topic params)
          = Own templates
          /\ In q (MathQuestion.at_difficulty templates difficulty)
          /\ (MathQuestion.generateQuestion u1 u2 params = Ok q
              \/ exists variation,
                   MathQuestion.generateQuestion u1 u2 params
                   = Ok (variation ++ js " " ++ q))).
Proof.
  split; [| split; [exact topics_not_inherited | split]].
  - intros client u1 u2 params Hai.
    pose proof (evaluateAnswer_without_ai client u1 u2 params Hai) as Heq.
    split; [exact Heq |].
    intros Hp. rewrite Heq.
    destruct (assessAnswerQuality_total (AnswerEvaluation.userAnswer params)
                (AnswerEvaluation.topic params) Hp) as [q Hq].
    exists q. split; [exact Hq |].
    unfold AnswerEvaluation.evaluateWithFallback. rewrite Hq. reflexivity.
  - exact generateQuestion_nonempty.
  - intros u1 u2 params Ht.
    destruct (get_prop_own_topic MathQuestion.questionTemplates
                (MathQuestion.topic params)) as [templates Hown];
      [now rewrite questionTemplates_keys |].
    destruct (generateQuestion_own u1 u2 params templates Hown)
      as (d & q & Hin & _ & Hres).
    exists templates, d, q. auto.
Qed.

Lemma ai_failure_degrades_to_rules_no_key :
  let params :=
    {| AnswerEvaluation.userAnswer := js "まず、面積は底辺×高さ÷2です";
       AnswerEvaluation.topic := js "geometry";
       AnswerEvaluation.characterState := Hook.initialCharacter;
       AnswerEvaluation.conversationHistory := [] |} in
  let client := Gemini.new None None in
  ai_unavailable (AnswerEvaluation.new client) params
  /\ AnswerEvaluation.evaluateAnswer (AnswerEvaluation.new client)
       {| num := 2; gap := 1 |} {| num := 1; gap := 1 |} params
     = AnswerEvaluation.evaluateWithFallback
         {| num := 2; gap := 1 |} {| num := 1; gap := 1 |} params.
Proof.
  cbv zeta.
  assert (Hai :
    ai_unavailable (AnswerEvaluation.new (Gemini.new None None))
      {| AnswerEvaluation.userAnswer := js "まず、面積は底辺×高さ÷2です";
         AnswerEvaluation.topic := js "geometry";
         AnswerEvaluation.characterState := Hook.initialCharacter;
         AnswerEvaluation.conversationHistory := [] |})
    by (vm_compute; exact I).
  split; [exact Hai |].
  exact (proj1 (proj1 ai_failure_degrades_to_rules (Gemini.new None None)
                  {| num := 2; gap := 1 |} {| num := 1; gap := 1 |} _ Hai)).
Defined.

(** *** Mood *)

Lemma determineNewMood_table (q : Quality) (prior : Mood) :
  AnswerEvaluation.determineNewMood q prior = moodTable q.
Proof. destruct q; reflexivity. Qed.

Lemma evaluateWithFallback_result u1 u2 params q :
  AnswerEvaluation.assessAnswerQuality
    (AnswerEvaluation.userAnswer params) (AnswerEvaluation.topic params) = Ok q ->
  AnswerEvaluation.evaluateWithFallback u1 u2 params
  = Ok {| AnswerEvaluation.response :=
            AnswerEvaluation.generateResponse u1 u2 q
              (AnswerEvaluation.topic params) (AnswerEvaluation.userAnswer params);
          AnswerEvaluation.experienceGain :=
            AnswerEvaluation.calculateExperienceGain q
              (js_length (AnswerEvaluation.userAnswer params));
          AnswerEvaluation.newMood :=
            AnswerEvaluation.determineNewMood q
              (mood (AnswerEvaluation.characterState params));
          AnswerEvaluation.understandingImprovement :=
            AnswerEvaluation.calculateUnderstandingImprovement q |}.
Proof.
  intros Hq. unfold AnswerEvaluation.evaluateWithFallback. rewrite Hq. reflexivity.
Qed.

(** C8, as the code has it. [determineNewMood] is the table excellent to
    excited, good to happy, average to curious, poor to confused, whatever
    the prior mood. When no AI evaluation is to be had, the evaluation
    returns a result whose mood is the table's image of the quality assessed
    for the answer, the quality its experience gain is computed from. When
    the AI client answers, the mood of the result is read off the keywords
    of the reply, not off the table, while the gain is computed from the
    quality read off the same reply. *)
Theorem newMood_on_each_path :
  (forall (q : Quality) (prior : Mood),
     AnswerEvaluation.determineNewMood q prior = moodTable q)
  /\ (forall client u1 u2 params,
        ai_unavailable (AnswerEvaluation.new client) params ->
        ~ In (AnswerEvaluation.topic params) object_prototype_keys ->
        exists q r,
          AnswerEvaluation.assessAnswerQuality
            (AnswerEvaluation.userAnswer params) (AnswerEvaluation.topic params) = Ok q
          /\ AnswerEvaluation.evaluateAnswer (AnswerEvaluation.new client) u1 u2 params
             = Ok r
          /\ AnswerEvaluation.experienceGain r
             = AnswerEvaluation.calculateExperienceGain q
                 (js_length (AnswerEvaluation.userAnswer params))
          /\ AnswerEvaluation.newMood r = moodTable q)
  /\ (forall g u1 u2 params text,
        Gemini.generateContent g
          (AnswerEvaluation.userAnswer params) (AnswerEvaluation.topic params)
          (AnswerEvaluation.characterState params)
          (AnswerEvaluation.conversationHistory params) = Gemini.Generated text ->
        exists r,
          AnswerEvaluation.evaluateAnswer (AnswerEvaluation.new (Ok g)) u1 u2 params
          = Ok r
          /\ AnswerEvaluation.experienceGain r
             = AnswerEvaluation.calculateExperienceGain
                 (Gemini.analyzeResponseQuality (trim text)
                    (AnswerEvaluation.userAnswer params))
                 (js_length (AnswerEvaluation.userAnswer params))
          /\ AnswerEvaluation.newMood r = Gemini.determineMoodFromResponse (trim text)).
Proof.
  split; [exact determineNewMood_table | split].
  - intros client u1 u2 params Hai Hproto.
    destruct (assessAnswerQuality_total (AnswerEvaluation.userAnswer params)
                (AnswerEvaluation.topic params) Hproto) as [q Hq].
    exists q. eexists. split; [exact Hq |].
    rewrite (evaluateAnswer_without_ai client u1 u2 params Hai).
    rewrite (evaluateWithFallback_result u1 u2 params q Hq).
    split; [reflexivity |]. split; [reflexivity |].
    cbn [AnswerEvaluation.newMood]. apply determineNewMood_table.
  - intros g u1 u2 params text Hgen.
    unfold AnswerEvaluation.evaluateAnswer, AnswerEvaluation.tryGemini,
      Gemini.evaluateAnswer.
    cbn [AnswerEvaluation.new AnswerEvaluation.geminiService].
    rewrite Hgen. eexists. split; [reflexivity |]. split; reflexivity.
Qed.

Lemma newMood_on_each_path_geometry :
  let params :=
    {| AnswerEvaluation.userAnswer := js "まず、面積は底辺×高さ÷2です";
       AnswerEvaluation.topic := js "geometry";
       AnswerEvaluation.characterState := Hook.initialCharacter;
       AnswerEvaluation.conversationHistory := [] |} in
  let client : js_result Gemini.GeminiService := Gemini.new None None in
  ai_unavailable (AnswerEvaluation.new client) params
  /\ ~ In (js "geometry") object_prototype_keys
  /\ exists q r,
       AnswerEvaluation.assessAnswerQuality
         (js "まず、面積は底辺×高さ÷2です") (js "geometry") = Ok q
       /\ AnswerEvaluation.evaluateAnswer (AnswerEvaluation.new client)
            {| num := 1; gap := 1 |} {| num := 0; gap := 2 |} params = Ok r
       /\ AnswerEvaluation.experienceGain r
          = AnswerEvaluation.calculateExperienceGain q
              (js_length (js "まず、面積は底辺×高さ÷2です"))
       /\ AnswerEvaluation.newMood r = moodTable q.
Proof.
  cbv zeta.
  assert (Hai : ai_unavailable (AnswerEvaluation.new (Gemini.new None None))
                  {| AnswerEvaluation.userAnswer := js "まず、面積は底辺×高さ÷2です";
                     AnswerEvaluation.topic := js "geometry";
                     AnswerEvaluation.characterState := Hook.initialCharacter;
                     AnswerEvaluation.conversationHistory := [] |})
    by exact I.
  assert (Hproto : ~ In (js "geometry") object_prototype_keys).
  { vm_compute. intros H. repeat destruct H as [H | H]; try discriminate H; exact H. }
  split; [exact Hai |]. split; [exact Hproto |].
  exact (proj1 (proj2 newMood_on_each_path) (Gemini.new None None)
           {| num := 1; gap := 1 |} {| num := 0; gap := 2 |}
           {| AnswerEvaluation.userAnswer := js "まず、面積は底辺×高さ÷2です";
              AnswerEvaluation.topic := js "geometry";
              AnswerEvaluation.characterState := Hook.initialCharacter;
              AnswerEvaluation.conversationHistory := [] |} Hai Hproto).
Defined.

(** C8 as worded fails on the AI path: for a reply that praises the answer
    with three of the positive keywords the quality is good, the gain is
    that of a good answer, and the mood of the result is excited, where the
    table gives happy. *)
Lemma ai_reply_mood_differs_from_table :
  let g :=
    {| Gemini.generateContent :=
         fun _ _ _ _ => Gemini.Generated (js "すごい！とても詳しく教えてくれたね！") |} in
  let params :=
    {| AnswerEvaluation.userAnswer := js "x + 3 = 5 だから x = 2";
       AnswerEvaluation.topic := js "algebra";
       AnswerEvaluation.characterState := Hook.initialCharacter;
       AnswerEvaluation.conversationHistory := [] |} in
  Gemini.analyzeResponseQuality (js "すごい！とても詳しく教えてくれたね！")
    (js "x + 3 = 5 だから x = 2") = good
  /\ exists r,
       AnswerEvaluation.evaluateAnswer (AnswerEvaluation.new (Ok g))
         {| num := 0; gap := 0 |} {| num := 0; gap := 0 |} params = Ok r
       /\ AnswerEvaluation.experienceGain r
          = AnswerEvaluation.calculateExperienceGain good
              (js_length (js "x + 3 = 5 だから x = 2"))
       /\ AnswerEvaluation.newMood r = excited
       /\ AnswerEvaluation.newMood r <> moodTable good.
Proof.
  cbv zeta. split; [vm_compute; reflexivity |].
  eexists. split; [vm_compute; reflexivity |].
  split; [vm_compute; reflexivity |].
  split; [vm_compute; reflexivity |].
  vm_compute. discriminate.
Qed.

(* ===================================================================== *)
(** ** Further properties of the services *)
(* ===================================================================== *)

(** *** Rule-based classification and its rewards *)

(** X1. The rule-based classifier rates an answer excellent only if it has
    more than 20 words separated by white space and contains a keyword of
    the topic; it rates an answer good or better only if one of the two
    holds. *)
Theorem excellent_needs_words_and_keywords (answer t : jsstring) (q : Quality) :
  AnswerEvaluation.assessAnswerQuality answer t = Ok q ->
  (q = excellent ->
   20 < wordCount answer /\ AnswerEvaluation.hasTopicKeywords answer t = Ok true)
  /\ (2 <= quality_rank q ->
      20 < wordCount answer \/ AnswerEvaluation.hasTopicKeywords answer t = Ok true).
Proof.
  unfold AnswerEvaluation.assessAnswerQuality, AnswerEvaluation.answerScore, wordCount.
  destruct (AnswerEvaluation.hasTopicKeywords answer t) as [kw | e];
    [| discriminate].
  cbn [bind].
  set (wc := Z.of_nat (List.length (split_ws (trim answer)))).
  destruct (Z.ltb_spec 50 wc), (Z.ltb_spec 20 wc), kw,
    (AnswerEvaluation.hasExamples answer), (AnswerEvaluation.hasStepByStep answer),
    (AnswerEvaluation.isPoliteAndClear answer);
    cbn; intros [= <-]; cbn; split; intros; try discriminate; try lia; auto; split;
      auto; lia.
Qed.

Lemma excellent_needs_words_and_keywords_short :
  AnswerEvaluation.assessAnswerQuality
    (js "まず、方程式の解を求めます。例えば 2x=4 です") (js "algebra") = Ok good
  /\ (20 < wordCount (js "まず、方程式の解を求めます。例えば 2x=4 です")
      \/ AnswerEvaluation.hasTopicKeywords
           (js "まず、方程式の解を求めます。例えば 2x=4 です") (js "algebra") = Ok true).
Proof.
  assert (H : AnswerEvaluation.assessAnswerQuality
                (js "まず、方程式の解を求めます。例えば 2x=4 です") (js "algebra") = Ok good)
    by (vm_compute; reflexivity).
  split; [exact H |].
  apply (proj2 (excellent_needs_words_and_keywords _ _ _ H)).
  vm_compute. discriminate.
Defined.

(** X2. The experience gain lies between 3 and 30 and never falls when the
    quality rises or the answer grows longer. *)
Theorem experienceGain_monotone (q1 q2 : Quality) (n1 n2 : Z) :
  quality_rank q1 <= quality_rank q2 ->
  n1 <= n2 ->
  3 <= AnswerEvaluation.calculateExperienceGain q1 n1
  /\ AnswerEvaluation.calculateExperienceGain q1 n1
     <= AnswerEvaluation.calculateExperienceGain q2 n2
  /\ AnswerEvaluation.calculateExperienceGain q2 n2 <= 30.
Proof.
  intros Hq Hn. unfold AnswerEvaluation.calculateExperienceGain.
  destruct (Z.ltb_spec 100 n1), (Z.ltb_spec 50 n1),
    (Z.ltb_spec 100 n2), (Z.ltb_spec 50 n2);
    destruct q1, q2; cbn in *; lia.
Qed.

Lemma experienceGain_monotone_average_good :
  3 <= AnswerEvaluation.calculateExperienceGain average 40
  /\ AnswerEvaluation.calculateExperienceGain average 40
     <= AnswerEvaluation.calculateExperienceGain good 120
  /\ AnswerEvaluation.calculateExperienceGain good 120 <= 30.
Proof.
  apply (experienceGain_monotone average good 40 120); [vm_compute; discriminate | lia].
Defined.

Lemma gain_bounds (q : Quality) (n : Z) :
  3 <= AnswerEvaluation.calculateExperienceGain q n <= 30.
Proof.
  unfold AnswerEvaluation.calculateExperienceGain.
  destruct (Z.ltb_spec 100 n), (Z.ltb_spec 50 n); destruct q; cbn; lia.
Qed.

Lemma improvement_bounds (q : Quality) :
  1 <= AnswerEvaluation.calculateUnderstandingImprovement q <= 8.
Proof. destruct q; cbn; lia. Qed.

Lemma evaluateAnswer_bounds_helper svc u1 u2 params r :
  AnswerEvaluation.evaluateAnswer svc u1 u2 params = Ok r ->
  3 <= AnswerEvaluation.experienceGain r <= 30
  /\ 1 <= AnswerEvaluation.understandingImprovement r <= 8.
Proof.
  unfold AnswerEvaluation.evaluateAnswer, AnswerEvaluation.tryGemini.
  destruct (AnswerEvaluation.geminiService svc) as [g |].
  - destruct (Gemini.evaluateAnswer g _ _ _ _) as [ai | e].
    + intros [= <-]. cbn. split; [apply gain_bounds | apply improvement_bounds].
    + destruct (AnswerEvaluation.fallbackEnabled svc); [| discriminate].
      unfold AnswerEvaluation.evaluateWithFallback.
      destruct (AnswerEvaluation.assessAnswerQuality _ _) as [q | e']; [| discriminate].
      intros [= <-]. cbn. split; [apply gain_bounds | apply improvement_bounds].
  - destruct (AnswerEvaluation.fallbackEnabled svc); [| discriminate].
    unfold AnswerEvaluation.evaluateWithFallback.
    destruct (AnswerEvaluation.assessAnswerQuality _ _) as [q | e']; [| discriminate].
    intros [= <-]. cbn. split; [apply gain_bounds | apply improvement_bounds].
Qed.


(** X3. Whatever service instance answers and whichever path it takes, a
    result of [evaluateAnswer] carries an experience gain between 3 and 30
    and an understanding improvement between 1 and 8. *)
Theorem evaluateAnswer_result_bounds svc u1 u2 params r :
  AnswerEvaluation.evaluateAnswer svc u1 u2 params = Ok r ->
  3 <= AnswerEvaluation.experienceGain r <= 30
  /\ 1 <= AnswerEvaluation.understandingImprovement r <= 8.
Proof. exact (evaluateAnswer_bounds_helper svc u1 u2 params r). Qed.

Lemma evaluateAnswer_result_bounds_ai_path :
  let g := {| Gemini.generateContent :=
                fun _ _ _ _ => Gemini.Generated (js " すごい！よく分かったよ、ありがとう！ ") |} in
  let svc := AnswerEvaluation.new (Ok g) in
  let params :=
    {| AnswerEvaluation.userAnswer := js "方程式は両辺から 3 を引いて解きます";
       AnswerEvaluation.topic := js "algebra";
       AnswerEvaluation.characterState := Hook.initialCharacter;
       AnswerEvaluation.conversationHistory := [] |} in
  exists r,
    AnswerEvaluation.evaluateAnswer svc {| num := 0; gap := 0 |} {| num := 0; gap := 0 |}
      params = Ok r
    /\ AnswerEvaluation.newMood r = excited
    /\ 3 <= AnswerEvaluation.experienceGain r <= 30
    /\ 1 <= AnswerEvaluation.understandingImprovement r <= 8.
Proof.
  cbv zeta. eexists. split; [vm_compute; reflexivity |].
  split; [reflexivity |].
  eapply (evaluateAnswer_result_bounds
            (AnswerEvaluation.new
               (Ok {| Gemini.generateContent :=
                        fun _ _ _ _ =>
                          Gemini.Generated (js " すごい！よく分かったよ、ありがとう！ ") |}))
            {| num := 0; gap := 0 |} {| num := 0; gap := 0 |}
            {| AnswerEvaluation.userAnswer := js "方程式は両辺から 3 を引いて解きます";
               AnswerEvaluation.topic := js "algebra";
               AnswerEvaluation.characterState := Hook.initialCharacter;
               AnswerEvaluation.conversationHistory := [] |}).
  vm_compute. reflexivity.
Defined.

Lemma pool_nonempty_element (u : random_draw) (pool : list jsstring) :
  pool <> [] ->
  forallb (fun s => negb (bool_decide (s = []))) pool = true ->
  In (random_element u pool) pool /\ random_element u pool <> [].
Proof.
  intros Hne Hall.
  pose proof (random_element_In u pool Hne) as Hin.
  split; [exact Hin |].
  rewrite forallb_forall in Hall. specialize (Hall _ Hin).
  apply negb_true_iff, bool_decide_eq_false in Hall. exact Hall.
Qed.

(** X4. The rule-based reply is never empty. For a poor answer it is one of
    the five confused replies with nothing appended; for a better answer on
    one of the four topics it is a reply of the quality's pool (positive
    for good and excellent, encouraging for average), a space, and one of
    the topic's comments. *)
Theorem generateResponse_shape (u1 u2 : random_draw) (q : Quality)
    (t answer : jsstring) :
  AnswerEvaluation.generateResponse u1 u2 q t answer <> []
  /\ (q = poor ->
      In (AnswerEvaluation.generateResponse u1 u2 q t answer)
         AnswerEvaluation.confusedResponses)
  /\ (q <> poor -> In t topics ->
      exists reply comments comment,
        In reply (match q with
                  | average => AnswerEvaluation.encouragingResponses
                  | _ => AnswerEvaluation.positiveResponses
                  end)
        /\ own_prop AnswerEvaluation.topicComments t = Some comments
        /\ In comment comments
        /\ AnswerEvaluation.generateResponse u1 u2 q t answer
           = reply ++ js " " ++ comment).
Proof.
  destruct (pool_nonempty_element u1 AnswerEvaluation.positiveResponses
              ltac:(vm_compute; discriminate) ltac:(vm_compute; reflexivity))
    as [Hpos Hpos'].
  destruct (pool_nonempty_element u1 AnswerEvaluation.encouragingResponses
              ltac:(vm_compute; discriminate) ltac:(vm_compute; reflexivity))
    as [Henc Henc'].
  destruct (pool_nonempty_element u1 AnswerEvaluation.confusedResponses
              ltac:(vm_compute; discriminate) ltac:(vm_compute; reflexivity))
    as [Hcon Hcon'].
  split; [| split].
  - unfold AnswerEvaluation.generateResponse.
    destruct (AnswerEvaluation.getTopicSpecificComment u2 t q) as [| c comment].
    + destruct q; [exact Hpos' | exact Hpos' | exact Henc' | exact Hcon'].
    + intros Hnil. apply app_eq_nil in Hnil. destruct Hnil as [Hnil _].
      destruct q;
        [exact (Hpos' Hnil) | exact (Hpos' Hnil) | exact (Henc' Hnil) | exact (Hcon' Hnil)].
  - intros ->. exact Hcon.
  - intros Hq Ht.
    assert (Hc : exists comments,
               own_prop AnswerEvaluation.topicComments t = Some comments
               /\ get_prop AnswerEvaluation.topicComments t = Own comments
               /\ In (random_element u2 comments) comments
               /\ random_element u2 comments <> []).
    { each_topic Ht; eexists; (split; [reflexivity |]); (split; [reflexivity |]);
        apply pool_nonempty_element;
        solve [vm_compute; discriminate | vm_compute; reflexivity]. }
    destruct Hc as (comments & Hown & Hget & Hin & Hne).
    unfold AnswerEvaluation.generateResponse, AnswerEvaluation.getTopicSpecificComment.
    rewrite Hget.
    destruct (random_element u2 comments) as [| c comment] eqn:Hpick;
      [congruence |].
    destruct q; try congruence.
    + exists (random_element u1 AnswerEvaluation.positiveResponses), comments, (c :: comment).
      split; [exact Hpos |]. split; [exact Hown |]. split; [exact Hin | reflexivity].
    + exists (random_element u1 AnswerEvaluation.positiveResponses), comments, (c :: comment).
      split; [exact Hpos |]. split; [exact Hown |]. split; [exact Hin | reflexivity].
    + exists (random_element u1 AnswerEvaluation.encouragingResponses), comments, (c :: comment).
      split; [exact Henc |]. split; [exact Hown |]. split; [exact Hin | reflexivity].
Qed.

Lemma generateResponse_shape_good_geometry :
  good <> poor
  /\ In (js "geometry") topics
  /\ exists reply comment,
       In reply AnswerEvaluation.positiveResponses
       /\ AnswerEvaluation.generateResponse {| num := 3; gap := 1 |} {| num := 1; gap := 1 |}
            good (js "geometry") (js "面積は底辺×高さ÷2です")
          = reply ++ js " " ++ comment.
Proof.
  assert (Hq : good <> poor) by discriminate.
  assert (Ht : In (js "geometry") topics) by (vm_compute; tauto).
  split; [exact Hq |]. split; [exact Ht |].
  destruct (proj2 (proj2 (generateResponse_shape {| num := 3; gap := 1 |}
                            {| num := 1; gap := 1 |} good (js "geometry")
                            (js "面積は底辺×高さ÷2です"))) Hq Ht)
    as (reply & comments & comment & Hr & _ & _ & Heq).
  exists reply, comment. split; [exact Hr | exact Heq].
Defined.

(** X5. Persisting a computed gain moves the topic's understanding by a
    step that ignores the quality table of the evaluation: the server adds
    3 for a poor answer of at most 50 code units and 5 for every other
    answer, up to the cap of 100. *)
Theorem persisted_understanding_step (q : Quality) (n : Z) (now : Z)
    (userId : string) (t : jsstring) (db : gmap string Character.CharacterRow)
    (st : Character.CharacterRow) :
  db !! userId = Some st ->
  In t topics ->
  exists row db',
    Character.addExperience now userId
      (AnswerEvaluation.calculateExperienceGain q n) (Some t) db = Ok (row, db')
    /\ understandingColumn row t
       = Z.min 100
           (understandingColumn st t
            + match q with
              | poor => if 50 <? n then 5 else 3
              | _ => 5
              end).
Proof.
  intros Hst Ht.
  exists (written now (AnswerEvaluation.calculateExperienceGain q n) st (Some t)),
         (<[userId := written now (AnswerEvaluation.calculateExperienceGain q n)
                        st (Some t)]> db).
  split; [now apply addExperience_stored |].
  rewrite (written_column now _ st t Ht). f_equal. f_equal.
  unfold AnswerEvaluation.calculateExperienceGain.
  destruct (Z.ltb_spec 100 n), (Z.ltb_spec 50 n); destruct q; cbn; lia.
Qed.

Lemma persisted_understanding_step_excellent :
  let st := Character.initialRow 0 "mana" in
  let db : gmap string Character.CharacterRow := {[ "mana"%string := st ]} in
  exists row db',
    Character.addExperience 1 "mana"
      (AnswerEvaluation.calculateExperienceGain excellent 150)
      (Some (js "functions")) db = Ok (row, db')
    /\ understandingColumn row (js "functions") = 5
    /\ AnswerEvaluation.calculateUnderstandingImprovement excellent = 8.
Proof.
  cbv zeta.
  destruct (persisted_understanding_step excellent 150 1 "mana" (js "functions")
              {[ "mana"%string := Character.initialRow 0 "mana" ]}
              (Character.initialRow 0 "mana"))
    as (row & db' & Hrun & Hcol).
  - apply lookup_singleton_eq.
  - vm_compute; tauto.
  - exists row, db'. split; [exact Hrun |]. split; [| reflexivity].
    rewrite Hcol. reflexivity.
Defined.

(** *** The AI client *)

Lemma count_present_nonneg keywords text : 0 <= Gemini.count_present keywords text.
Proof. unfold Gemini.count_present. lia. Qed.

(** X6. The analysis of an AI reply yields poor only when the reply holds
    none of the positive keywords and at least two of the confusion
    keywords, and excellent only when it holds a positive keyword together
    with an encouraging keyword or an answer longer than 100 code units. *)
Theorem analyzeResponseQuality_extremes (aiResponse userAnswer : jsstring) :
  let positive :=
    Gemini.count_present
      (map js ["すごい"; "とても"; "よく分かった"; "詳しく"; "ありがとう";
               "素晴らしい"; "完璧"]%string) aiResponse in
  let encouraging :=
    Gemini.count_present
      (map js ["なるほど"; "いいね"; "もう少し"; "続き"; "もっと"]%string) aiResponse in
  let confusion :=
    Gemini.count_present
      (map js ["分からない"; "難しい"; "混乱"; "うーん"; "ちょっと"]%string) aiResponse in
  (Gemini.analyzeResponseQuality aiResponse userAnswer = poor ->
   positive = 0 /\ 2 <= confusion)
  /\ (Gemini.analyzeResponseQuality aiResponse userAnswer = excellent ->
      1 <= positive /\ (1 <= encouraging \/ 100 < js_length userAnswer)).
Proof.
  cbv zeta. unfold Gemini.analyzeResponseQuality.
  set (positive :=
         Gemini.count_present
           (map js ["すごい"; "とても"; "よく分かった"; "詳しく"; "ありがとう";
                    "素晴らしい"; "完璧"]%string) aiResponse).
  set (encouraging :=
         Gemini.count_present
           (map js ["なるほど"; "いいね"; "もう少し"; "続き"; "もっと"]%string) aiResponse).
  set (confusion :=
         Gemini.count_present
           (map js ["分からない"; "難しい"; "混乱"; "うーん"; "ちょっと"]%string) aiResponse).
  pose proof (count_present_nonneg
                (map js ["すごい"; "とても"; "よく分かった"; "詳しく"; "ありがとう";
                         "素晴らしい"; "完璧"]%string) aiResponse) as Hp.
  fold positive in Hp.
  destruct (Z.leb_spec 2 positive), (Z.leb_spec 1 positive),
    (Z.leb_spec 1 encouraging), (Z.leb_spec 2 confusion),
    (Z.ltb_spec 100 (js_length userAnswer));
    cbn; split; intros; try discriminate; try lia; split; lia.
Qed.

Lemma analyzeResponseQuality_extremes_confused :
  Gemini.analyzeResponseQuality (js "うーん、ちょっと難しいね") (js "x") = poor
  /\ 2 <= Gemini.count_present
            (map js ["分からない"; "難しい"; "混乱"; "うーん"; "ちょっと"]%string)
            (js "うーん、ちょっと難しいね").
Proof.
  assert (H : Gemini.analyzeResponseQuality (js "うーん、ちょっと難しいね") (js "x") = poor)
    by (vm_compute; reflexivity).
  split; [exact H |].
  exact (proj2 (proj1 (analyzeResponseQuality_extremes
                         (js "うーん、ちょっと難しいね") (js "x")) H)).
Defined.

(** X7. The AI client can be built only from a key that is present, not
    empty and not the placeholder, with a model that initialises; in every
    other configuration the evaluation service holds no client and
    [evaluateAnswer] is the rule-based evaluation for every request. *)
Theorem client_needs_real_key (env_key : option jsstring)
    (sdk : option Gemini.GeminiService) :
  (forall g,
     Gemini.new env_key sdk = Ok g <->
     exists key,
       env_key = Some key /\ key <> [] /\ key <> js "your_gemini_api_key_here"
       /\ sdk = Some g)
  /\ ((forall g, Gemini.new env_key sdk <> Ok g) ->
      forall u1 u2 params,
        AnswerEvaluation.evaluateAnswer
          (AnswerEvaluation.new (Gemini.new env_key sdk)) u1 u2 params
        = AnswerEvaluation.evaluateWithFallback u1 u2 params).
Proof.
  split.
  - intros g. unfold Gemini.new, jsstring_eqb.
    destruct env_key as [key |].
    + destruct (decide (key = [])) as [-> | Hne].
      * rewrite bool_decide_eq_true_2 by reflexivity.
        split; [discriminate |]. intros (k & [= <-] & Hk & _). congruence.
      * rewrite (bool_decide_eq_false_2 _ Hne).
        destruct (decide (key = js "your_gemini_api_key_here")) as [-> | Hph].
        -- rewrite bool_decide_eq_true_2 by reflexivity.
           split; [discriminate |]. intros (k & [= <-] & _ & Hk & _). congruence.
        -- rewrite (bool_decide_eq_false_2 _ Hph).
           destruct sdk as [g' |].
           ++ split.
              ** intros [= ->]. exists key. auto.
              ** intros (k & _ & _ & _ & [= ->]). reflexivity.
           ++ split; [discriminate |]. intros (k & _ & _ & _ & Hs). discriminate.
    + rewrite bool_decide_eq_true_2 by reflexivity.
      split; [discriminate |]. intros (k & Hk & _). discriminate.
  - intros Hno u1 u2 params.
    destruct (Gemini.new env_key sdk) as [g | e] eqn:Hnew.
    + exfalso. exact (Hno g eq_refl).
    + reflexivity.
Qed.

Lemma client_needs_real_key_placeholder :
  let client :=
    Gemini.new (Some (js "your_gemini_api_key_here"))
      (Some {| Gemini.generateContent :=
                 fun _ _ _ _ => Gemini.Generated (js "OK") |}) in
  let params :=
    {| AnswerEvaluation.userAnswer := js "まず、面積は底辺×高さ÷2です";
       AnswerEvaluation.topic := js "geometry";
       AnswerEvaluation.characterState := Hook.initialCharacter;
       AnswerEvaluation.conversationHistory := [] |} in
  (forall g, client <> Ok g)
  /\ AnswerEvaluation.evaluateAnswer (AnswerEvaluation.new client)
       {| num := 1; gap := 1 |} {| num := 0; gap := 2 |} params
     = AnswerEvaluation.evaluateWithFallback
         {| num := 1; gap := 1 |} {| num := 0; gap := 2 |} params.
Proof.
  cbv zeta.
  assert (Hno : forall g,
            Gemini.new (Some (js "your_gemini_api_key_here"))
              (Some {| Gemini.generateContent :=
                         fun _ _ _ _ => Gemini.Generated (js "OK") |}) <> Ok g)
    by (intros g; vm_compute; discriminate).
  split; [exact Hno |].
  exact (proj2 (client_needs_real_key (Some (js "your_gemini_api_key_here"))
                  (Some {| Gemini.generateContent :=
                             fun _ _ _ _ => Gemini.Generated (js "OK") |}))
           Hno {| num := 1; gap := 1 |} {| num := 0; gap := 2 |}
           {| AnswerEvaluation.userAnswer := js "まず、面積は底辺×高さ÷2です";
              AnswerEvaluation.topic := js "geometry";
              AnswerEvaluation.characterState := Hook.initialCharacter;
              AnswerEvaluation.conversationHistory := [] |}).
Defined.

(** *** Question generation *)

Lemma addVariation_phrase u question :
  exists variation,
    In variation variationPhrases
    /\ MathQuestion.addVariation u question = variation ++ js " " ++ question.
Proof.
  exists (random_element u variationPhrases). split; [| reflexivity].
  apply random_element_In. discriminate.
Qed.

Lemma adjustQuestion_variation u question history :
  MathQuestion.adjustQuestionBasedOnHistory u question history = question
  \/ exists variation,
       In variation variationPhrases
       /\ MathQuestion.adjustQuestionBasedOnHistory u question history
          = variation ++ js " " ++ question.
Proof.
  unfold MathQuestion.adjustQuestionBasedOnHistory.
  destruct (some _ _); [right | left; reflexivity].
  apply addVariation_phrase.
Qed.

(** X8. For one of the four topics the generated question comes from the
    pool of the difficulty that the topic's own understanding selects
    (below 30 beginner, below 70 intermediate, otherwise advanced, the
    thresholds of [getDifficultyForTopic]): it is the drawn template,
    alone or after one of the four variation phrases and a space. *)
Theorem generateQuestion_difficulty (u1 u2 : random_draw)
    (params : MathQuestion.QuestionGenerationParams) :
  In (MathQuestion.topic params) topics ->
  exists templates v,
    own_prop MathQuestion.questionTemplates (MathQuestion.topic params) = Some templates
    /\ own_prop (understanding_object (MathQuestion.understanding params))
         (MathQuestion.topic params) = Some v
    /\ let pool :=
         MathQuestion.at_difficulty templates (Adaptive.getDifficultyForTopic v) in
       In (random_element u1 pool) pool
       /\ (MathQuestion.generateQuestion u1 u2 params = Ok (random_element u1 pool)
           \/ exists variation,
                In variation variationPhrases
                /\ MathQuestion.generateQuestion u1 u2 params
                   = Ok (variation ++ js " " ++ random_element u1 pool)).
Proof.
  intros Ht.
  assert (H : exists templates v,
            own_prop MathQuestion.questionTemplates (MathQuestion.topic params)
            = Some templates
            /\ get_prop MathQuestion.questionTemplates (MathQuestion.topic params)
               = Own templates
            /\ own_prop (understanding_object (MathQuestion.understanding params))
                 (MathQuestion.topic params) = Some v
            /\ get_prop (understanding_object (MathQuestion.understanding params))
                 (MathQuestion.topic params) = Own v).
  { destruct (MathQuestion.understanding params) as [a g f p].
    each_topic Ht; eexists _, _; repeat split; reflexivity. }
  destruct H as (templates & v & Hown & Hget & Hu & Hgu).
  exists templates, v. split; [exact Hown |]. split; [exact Hu |].
  cbv zeta.
  assert (Hin : In (MathQuestion.topic params, templates) MathQuestion.questionTemplates)
    by now apply own_prop_In.
  destruct (pool_facts _ templates (Adaptive.getDifficultyForTopic v) Hin) as [Hne _].
  split; [now apply random_element_In |].
  unfold MathQuestion.generateQuestion, MathQuestion.generateQuestion_body.
  rewrite Hget, Hgu. cbn [try_catch].
  change (if v <? 30 then beginner else if v <? 70 then intermediate else advanced)
    with (Adaptive.getDifficultyForTopic v).
  destruct (adjustQuestion_variation u2
              (random_element u1
                 (MathQuestion.at_difficulty templates (Adaptive.getDifficultyForTopic v)))
              (MathQuestion.conversationHistory params))
    as [-> | (variation & Hvar & ->)];
    [left | right; exists variation; split; [exact Hvar |]]; reflexivity.
Qed.

Lemma generateQuestion_difficulty_intermediate :
  let params :=
    {| MathQuestion.topic := js "probability";
       MathQuestion.characterLevel := 2;
       MathQuestion.understanding :=
         {| algebra := 80; geometry := 10; functions := 0; probability := 45 |};
       MathQuestion.conversationHistory := [] |} in
  In (js "probability") topics
  /\ exists templates v,
       own_prop MathQuestion.questionTemplates (js "probability") = Some templates
       /\ own_prop (understanding_object (MathQuestion.understanding params))
            (js "probability") = Some v
       /\ let pool :=
            MathQuestion.at_difficulty templates (Adaptive.getDifficultyForTopic v) in
          In (random_element {| num := 1; gap := 2 |} pool) pool
          /\ (MathQuestion.generateQuestion {| num := 1; gap := 2 |} {| num := 0; gap := 0 |}
                params = Ok (random_element {| num := 1; gap := 2 |} pool)
              \/ exists variation,
                   In variation variationPhrases
                   /\ MathQuestion.generateQuestion {| num := 1; gap := 2 |}
                        {| num := 0; gap := 0 |} params
                      = Ok (variation ++ js " "
                            ++ random_element {| num := 1; gap := 2 |} pool)).
Proof.
  cbv zeta.
  assert (Ht : In (js "probability") topics) by (vm_compute; tauto).
  split; [exact Ht |].
  exact (generateQuestion_difficulty {| num := 1; gap := 2 |} {| num := 0; gap := 0 |}
           {| MathQuestion.topic := js "probability";
              MathQuestion.characterLevel := 2;
              MathQuestion.understanding :=
                {| algebra := 80; geometry := 10; functions := 0; probability := 45 |};
              MathQuestion.conversationHistory := [] |} Ht).
Defined.

Lemma countedKeywords_bound (q1 q2 : jsstring) :
  (List.length
     (List.filter
        (fun word =>
           array_includes (match_runs MathQuestion.isKeywordUnit q2) word
           && (1 <? js_length word)%Z)
        (match_runs MathQuestion.isKeywordUnit q1))
   <= List.length (countedKeywords q1))%nat.
Proof.
  unfold countedKeywords.
  induction (match_runs MathQuestion.isKeywordUnit q1) as [| w ws IH]; cbn; [lia |].
  destruct (array_includes _ w); destruct (1 <? js_length w); cbn; lia.
Qed.

Lemma adjust_unchanged_when_never_similar u question history :
  (forall q, MathQuestion.isSimilarQuestion question q = false) ->
  MathQuestion.adjustQuestionBasedOnHistory u question history = question.
Proof.
  intros Hnever. unfold MathQuestion.adjustQuestionBasedOnHistory.
  replace (some _ _) with false; [reflexivity |].
  symmetry. unfold some.
  induction (map content _) as [| q qs IH]; cbn; [reflexivity |].
  now rewrite Hnever.
Qed.

(** X9. The similarity test holds only for a new question with at least
    three keywords longer than one code unit, so a question with fewer is
    returned unchanged whatever the history and the draw; of the 48
    questions of the template table only 4 have three such keywords. *)
Theorem variation_needs_three_keywords :
  (forall q1 q2,
     MathQuestion.isSimilarQuestion q1 q2 = true ->
     (3 <= List.length (countedKeywords q1))%nat)
  /\ (forall u question history,
        (List.length (countedKeywords question) <= 2)%nat ->
        MathQuestion.adjustQuestionBasedOnHistory u question history = question)
  /\ List.length allTemplates = 48%nat
  /\ List.length
       (List.filter (fun q => (3 <=? List.length (countedKeywords q))%nat) allTemplates)
     = 4%nat.
Proof.
  assert (Hsim : forall q1 q2,
             MathQuestion.isSimilarQuestion q1 q2 = true ->
             (3 <= List.length (countedKeywords q1))%nat).
  { intros q1 q2. unfold MathQuestion.isSimilarQuestion. intros H.
    apply Z.ltb_lt in H. pose proof (countedKeywords_bound q1 q2). lia. }
  split; [exact Hsim |]. split.
  - intros u question history Hfew.
    apply adjust_unchanged_when_never_similar. intros q.
    destruct (MathQuestion.isSimilarQuestion question q) eqn:H; [| reflexivity].
    apply Hsim in H. lia.
  - split; vm_compute; reflexivity.
Qed.

Lemma variation_needs_three_keywords_sample :
  let question := js "グラフの読み取り方を教えて！" in
  let repeated :=
    {| role := js "マナ"; content := question; timestamp := js "2024-01-01T00:00:00.000Z" |} in
  (List.length (countedKeywords question) <= 2)%nat
  /\ MathQuestion.adjustQuestionBasedOnHistory {| num := 1; gap := 0 |} question
       [repeated; repeated; repeated] = question.
Proof.
  cbv zeta.
  assert (H : (List.length (countedKeywords (js "グラフの読み取り方を教えて！")) <= 2)%nat)
    by (vm_compute; lia).
  split; [exact H |].
  exact (proj1 (proj2 variation_needs_three_keywords) _ _ _ H).
Defined.

Lemma skipn_last_app {A} (n : nat) (older recent : list A) :
  (n <= List.length recent)%nat ->
  slice_last n (older ++ recent) = slice_last n recent.
Proof.
  intros Hn. unfold slice_last. rewrite length_app.
  replace (List.length older + List.length recent - n)%nat
    with (List.length older + (List.length recent - n))%nat by lia.
  rewrite skipn_app, skipn_all2 by lia.
  replace (List.length older + (List.length recent - n) - List.length older)%nat
    with (List.length recent - n)%nat by lia.
  reflexivity.
Qed.

(** X10. The repetition check looks only at the last three messages whose
    role is マナ: messages of other roles never matter, and once a
    history holds three such messages, whatever came before them does not
    change the question returned. *)
Theorem history_window (u : random_draw) (question : jsstring)
    (older recent : list ConversationMessage) :
  MathQuestion.adjustQuestionBasedOnHistory u question recent
  = MathQuestion.adjustQuestionBasedOnHistory u question (List.filter fromMana recent)
  /\ ((3 <= List.length (List.filter fromMana recent))%nat ->
      MathQuestion.adjustQuestionBasedOnHistory u question (older ++ recent)
      = MathQuestion.adjustQuestionBasedOnHistory u question recent).
Proof.
  split.
  - unfold MathQuestion.adjustQuestionBasedOnHistory.
    fold fromMana. 
    assert (Hidem : List.filter fromMana (List.filter fromMana recent)
                    = List.filter fromMana recent).
    { induction recent as [| m ms IH]; cbn; [reflexivity |].
      destruct (fromMana m) eqn:Hm; cbn; [rewrite Hm, IH |]; auto. }
    change (fun msg : ConversationMessage => jsstring_eqb (role msg) (js "マナ"))
      with fromMana.
    now rewrite Hidem.
  - intros Hlen. unfold MathQuestion.adjustQuestionBasedOnHistory.
    change (fun msg : ConversationMessage => jsstring_eqb (role msg) (js "マナ"))
      with fromMana.
    rewrite List.filter_app, skipn_last_app by exact Hlen. reflexivity.
Qed.

Lemma history_window_three_recent :
  let mana c := {| role := js "マナ"; content := js c;
                   timestamp := js "2024-01-01T00:00:00.000Z" |} in
  let user c := {| role := js "ユーザー"; content := js c;
                   timestamp := js "2024-01-01T00:00:00.000Z" |} in
  let question := js "三角形の合同条件ってどんなものがあるの？" in
  let recent := [mana "円の面積は？"; user "半径×半径×円周率です"; mana "角度って何？";
                 mana "グラフの読み取り方を教えて！"] in
  (3 <= List.length (List.filter fromMana recent))%nat
  /\ MathQuestion.adjustQuestionBasedOnHistory {| num := 0; gap := 0 |} question
       ([mana "三角形の合同条件ってどんなものがあるの？"] ++ recent)
     = MathQuestion.adjustQuestionBasedOnHistory {| num := 0; gap := 0 |} question recent.
Proof.
  cbv zeta.
  match goal with
  | |- (3 <= List.length (List.filter fromMana ?r))%nat /\ _ =>
      assert (H : (3 <= List.length (List.filter fromMana r))%nat) by (vm_compute; lia)
  end.
  split; [exact H |].
  exact (proj2 (history_window _ _ _ _) H).
Defined.

(** *** The character table *)

(** X11. The first read of a user without a row inserts the initial row
    (level 1, experience 0, understanding 0, mood curious) and returns it;
    later reads return that same row and leave the table as it is, and no
    other user's row is touched. *)
Theorem getCharacterState_creates_once (now later : Z) (userId : string)
    (db : gmap string Character.CharacterRow) :
  db !! userId = None ->
  exists db',
    Character.getCharacterState now userId db
    = Ok (Character.initialRow now userId, db')
    /\ db' !! userId = Some (Character.initialRow now userId)
    /\ (forall other, other <> userId -> db' !! other = db !! other)
    /\ Character.getCharacterState later userId db'
       = Ok (Character.initialRow now userId, db').
Proof.
  intros Hnone.
  exists (<[userId := Character.initialRow now userId]> db).
  assert (Hnew : (<[userId := Character.initialRow now userId]> db) !! userId
                 = Some (Character.initialRow now userId))
    by apply lookup_insert_eq.
  split.
  { unfold Character.getCharacterState, Character.createCharacterState.
    rewrite Hnone. reflexivity. }
  split; [exact Hnew |].
  split; [intros other Hne; now apply lookup_insert_ne |].
  now apply getCharacterState_stored.
Qed.

Lemma getCharacterState_creates_once_empty :
  exists db',
    Character.getCharacterState 5 "mana" (∅ : gmap string Character.CharacterRow)
    = Ok (Character.initialRow 5 "mana", db')
    /\ Character.getCharacterState 9 "mana" db'
       = Ok (Character.initialRow 5 "mana", db').
Proof.
  destruct (getCharacterState_creates_once 5 9 "mana" ∅ (lookup_empty _))
    as (db' & Hfirst & _ & _ & Hsecond).
  exists db'. split; [exact Hfirst | exact Hsecond].
Defined.

Lemma addExperience_created now userId expGain topic
    (db : gmap string Character.CharacterRow) :
  db !! userId = None ->
  Character.addExperience now userId expGain topic db
  = Ok (written now expGain (Character.initialRow now userId) topic,
        <[userId := written now expGain (Character.initialRow now userId) topic]>
          (<[userId := Character.initialRow now userId]> db)).
Proof.
  intros Hnone.
  unfold Character.addExperience, Character.getCharacterState,
    Character.createCharacterState.
  rewrite Hnone. cbn [try_catch bind].
  unfold Character.updateCharacterState. rewrite lookup_insert_eq. reflexivity.
Qed.

Lemma written_totalProblems now expGain st topic :
  Character.totalProblems (written now expGain st topic)
  = Character.totalProblems st + 1.
Proof.
  unfold written, Character.experienceUpdate.
  destruct topic as [[| c t] |]; try reflexivity.
  repeat case_match; reflexivity.
Qed.

(** X12. On a table that answers its queries, [addExperience] never fails:
    for a user with a row it updates the row, for a user without one it
    first creates the initial row, so the first call stores the gain as
    experience and counts one problem. In both cases the stored row is the
    returned one and no other user's row changes. *)
Theorem addExperience_total (now : Z) (userId : string) (expGain : Z)
    (topic : option jsstring) (db : gmap string Character.CharacterRow) :
  exists row db',
    Character.addExperience now userId expGain topic db = Ok (row, db')
    /\ db' !! userId = Some row
    /\ (forall other, other <> userId -> db' !! other = db !! other)
    /\ (db !! userId = None ->
        Character.experience row = expGain
        /\ Character.totalProblems row = 1
        /\ Character.level row = Z.min (expGain / 100 + 1) 2).
Proof.
  destruct (db !! userId) as [st |] eqn:Hst.
  - exists (written now expGain st topic), (<[userId := written now expGain st topic]> db).
    split; [now apply addExperience_stored |].
    split; [apply lookup_insert_eq |].
    split; [intros other Hne; now apply lookup_insert_ne | discriminate].
  - eexists _, _. split; [apply addExperience_created; exact Hst |].
    split; [apply lookup_insert_eq |].
    split.
    { intros other Hne. rewrite !lookup_insert_ne by congruence. reflexivity. }
    intros _. rewrite written_experience, written_totalProblems, written_level.
    cbn. repeat split; reflexivity.
Qed.

Lemma run_step userId call rest (db : gmap string Character.CharacterRow) st :
  db !! userId = Some st ->
  addExperience_all userId (call :: rest) db
  = addExperience_all userId rest
      (<[userId := written (call_time call) (call_gain call) st (call_topic call)]> db).
Proof.
  intros Hst. cbn [addExperience_all].
  rewrite (addExperience_stored _ userId _ db st Hst). reflexivity.
Qed.

(** X13. A run of [addExperience] calls on a user's row accumulates: the
    stored experience grows by the sum of the gains and the problem count
    by the number of calls, other users' rows stay as they are, and the
    level rises by at most one per call. *)
Theorem addExperience_accumulates (userId : string) (calls : list ExperienceCall)
    (db : gmap string Character.CharacterRow) (st : Character.CharacterRow) :
  db !! userId = Some st ->
  exists row db',
    addExperience_all userId calls db = Ok db'
    /\ db' !! userId = Some row
    /\ (forall other, other <> userId -> db' !! other = db !! other)
    /\ Character.experience row = Character.experience st + total_gain calls
    /\ Character.totalProblems row
       = Character.totalProblems st + Z.of_nat (List.length calls)
    /\ Character.level row <= Character.level st + Z.of_nat (List.length calls).
Proof.
  revert db st. induction calls as [| call rest IH]; intros db st Hst.
  - exists st, db. cbn. repeat split; auto; lia.
  - rewrite (run_step userId call rest db st Hst).
    destruct (IH (<[userId := written (call_time call) (call_gain call) st
                                (call_topic call)]> db)
                 (written (call_time call) (call_gain call) st (call_topic call))
                 (lookup_insert_eq _ _ _))
      as (row & db' & Hrun & Hrow & Hothers & Hexp & Hcount & Hlevel).
    exists row, db'. split; [exact Hrun |]. split; [exact Hrow |].
    split.
    { intros other Hne. rewrite Hothers by exact Hne. now apply lookup_insert_ne. }
    rewrite written_experience in Hexp. rewrite written_totalProblems in Hcount.
    rewrite written_level in Hlevel.
    cbn [total_gain fold_right List.length].
    fold (total_gain rest).
    repeat split; lia.
Qed.

Lemma addExperience_accumulates_three_answers :
  let calls :=
    [ {| call_time := 1; call_gain := 30; call_topic := Some (js "algebra") |};
      {| call_time := 2; call_gain := 8; call_topic := Some (js "geometry") |};
      {| call_time := 3; call_gain := 17; call_topic := None |} ] in
  let db : gmap string Character.CharacterRow :=
    {[ "mana"%string := Character.initialRow 0 "mana" ]} in
  exists row db',
    addExperience_all "mana" calls db = Ok db'
    /\ db' !! "mana"%string = Some row
    /\ Character.experience row = 55
    /\ Character.totalProblems row = 3.
Proof.
  cbv zeta.
  destruct (addExperience_accumulates "mana"
              [ {| call_time := 1; call_gain := 30; call_topic := Some (js "algebra") |};
                {| call_time := 2; call_gain := 8; call_topic := Some (js "geometry") |};
                {| call_time := 3; call_gain := 17; call_topic := None |} ]
              {[ "mana"%string := Character.initialRow 0 "mana" ]}
              (Character.initialRow 0 "mana") (lookup_singleton_eq _ _))
    as (row & db' & Hrun & Hrow & _ & Hexp & Hcount & _).
  exists row, db'. split; [exact Hrun |]. split; [exact Hrow |].
  split; [rewrite Hexp | rewrite Hcount]; reflexivity.
Defined.

(** X14. Along the rows reached from the created row by non-negative
    gains, one more [addExperience] with a non-negative gain never lowers
    the level or the experience. *)
Theorem level_never_falls (userId : string) (row : Character.CharacterRow)
    (now expGain : Z) (topic : option jsstring) :
  server_reachable (fun g => 0 <= g) userId row ->
  0 <= expGain ->
  Character.level row <= Character.level (written now expGain row topic)
  /\ Character.experience row <= Character.experience (written now expGain row topic).
Proof.
  intros Hreach Hgain.
  destruct (server_level_bounded userId row Hreach) as (Hexp & Hl1 & Hl2).
  rewrite written_level, written_experience.
  assert (Character.experience row / 100 <= (Character.experience row + expGain) / 100)
    by (apply Z.div_le_mono; lia).
  lia.
Qed.

Lemma level_never_falls_from_created :
  server_reachable (fun g => 0 <= g) "mana" (Character.initialRow 0 "mana")
  /\ Character.level (Character.initialRow 0 "mana")
     <= Character.level (written 1 120 (Character.initialRow 0 "mana") None).
Proof.
  assert (H : server_reachable (fun g => 0 <= g) "mana" (Character.initialRow 0 "mana"))
    by apply reach_created.
  split; [exact H |].
  exact (proj1 (level_never_falls "mana" _ 1 120 None H ltac:(lia))).
Defined.

Lemma written_without_topic now expGain st topic t' :
  (forall t, topic = Some t -> ~ In t topics) ->
  understandingColumn (written now expGain st topic) t' = understandingColumn st t'.
Proof.
  intros Hout. unfold written, Character.experienceUpdate.
  destruct topic as [[| c t] |]; try reflexivity.
  assert (Hnot : ~ In (c :: t) topics) by (apply Hout; reflexivity).
  assert (Hne : forall name, In name topics -> jsstring_eqb (c :: t) name = false).
  { intros name Hin. unfold jsstring_eqb. apply bool_decide_eq_false_2.
    intros Heq. rewrite Heq in Hnot. contradiction. }
  rewrite (Hne (js "algebra")), (Hne (js "geometry")), (Hne (js "functions")),
    (Hne (js "probability")) by (vm_compute; tauto).
  reflexivity.
Qed.

(** X15. An [addExperience] call without a topic, with the empty topic or
    with a topic outside the four names still adds the experience and
    counts the problem, and leaves all four understanding values as they
    were. *)
Theorem addExperience_without_topic (now : Z) (userId : string) (expGain : Z)
    (topic : option jsstring) (db : gmap string Character.CharacterRow)
    (st : Character.CharacterRow) :
  db !! userId = Some st ->
  (forall t, topic = Some t -> ~ In t topics) ->
  exists row db',
    Character.addExperience now userId expGain topic db = Ok (row, db')
    /\ Character.experience row = Character.experience st + expGain
    /\ Character.totalProblems row = Character.totalProblems st + 1
    /\ Character.understandingAlgebra row = Character.understandingAlgebra st
    /\ Character.understandingGeometry row = Character.understandingGeometry st
    /\ Character.understandingFunctions row = Character.understandingFunctions st
    /\ Character.understandingProbability row = Character.understandingProbability st.
Proof.
  intros Hst Hout.
  exists (written now expGain st topic), (<[userId := written now expGain st topic]> db).
  split; [now apply addExperience_stored |].
  split; [apply written_experience |].
  split; [apply written_totalProblems |].
  pose proof (written_without_topic now expGain st topic (js "algebra") Hout) as Ha.
  pose proof (written_without_topic now expGain st topic (js "geometry") Hout) as Hg.
  pose proof (written_without_topic now expGain st topic (js "functions") Hout) as Hf.
  pose proof (written_without_topic now expGain st topic (js "probability") Hout) as Hp.
  repeat split; assumption.
Qed.

Lemma addExperience_without_topic_calculus :
  let db : gmap string Character.CharacterRow :=
    {[ "mana"%string := Character.initialRow 0 "mana" ]} in
  exists row db',
    Character.addExperience 1 "mana" 25 (Some (js "calculus")) db = Ok (row, db')
    /\ Character.experience row = 25
    /\ Character.understandingAlgebra row = 0.
Proof.
  cbv zeta.
  destruct (addExperience_without_topic 1 "mana" 25 (Some (js "calculus"))
              {[ "mana"%string := Character.initialRow 0 "mana" ]}
              (Character.initialRow 0 "mana") (lookup_singleton_eq _ _))
    as (row & db' & Hrun & Hexp & _ & Ha & _).
  - intros t [= <-]. vm_compute.
    intros H; repeat destruct H as [H | H]; try discriminate H; exact H.
  - exists row, db'. split; [exact Hrun |]. split; [rewrite Hexp | rewrite Ha]; reflexivity.
Defined.

(** X16. [updateMood] accepts exactly the four mood names. For a user with
    a row an accepted mood replaces the stored mood and nothing else but
    the update stamp; any other mood string fails with the error
    'Failed to update mood', and so does every mood for a user without a
    row, because this method does not create one. *)
Theorem updateMood_behaviour (now : Z) (userId : string) (mood : jsstring)
    (db : gmap string Character.CharacterRow) :
  (In mood CharacterService.validMoods ->
   forall st, db !! userId = Some st ->
     exists row,
       CharacterService.updateMood now userId mood db
       = Ok (row, <[userId := row]> db)
       /\ Character.mood row = mood
       /\ Character.updatedAt row = now
       /\ Character.userId row = Character.userId st
       /\ Character.level row = Character.level st
       /\ Character.experience row = Character.experience st
       /\ Character.totalProblems row = Character.totalProblems st
       /\ forall t, understandingColumn row t = understandingColumn st t)
  /\ (~ In mood CharacterService.validMoods \/ db !! userId = None ->
      CharacterService.updateMood now userId mood db
      = Throw (Error (js "Failed to update mood"))).
Proof.
  assert (Hinc : In mood CharacterService.validMoods <->
                 array_includes CharacterService.validMoods mood = true).
  { unfold array_includes. rewrite existsb_exists. split.
    - intros Hin. exists mood. split; [exact Hin |].
      unfold jsstring_eqb. now apply bool_decide_eq_true_2.
    - intros (m & Hin & Heq). unfold jsstring_eqb in Heq.
      apply bool_decide_eq_true in Heq. now subst. }
  split.
  - intros Hin st Hst. apply Hinc in Hin.
    unfold CharacterService.updateMood. rewrite Hin.
    unfold Character.updateCharacterState. rewrite Hst. cbn [try_catch].
    eexists. split; [reflexivity |]. repeat split.
  - intros Hbad. unfold CharacterService.updateMood.
    destruct (array_includes CharacterService.validMoods mood) eqn:Hok.
    + destruct Hbad as [Hbad | Hnone]; [exact (False_ind _ (Hbad (proj2 Hinc eq_refl))) |].
      unfold Character.updateCharacterState. rewrite Hnone. reflexivity.
    + reflexivity.
Qed.

Lemma updateMood_behaviour_happy :
  let db : gmap string Character.CharacterRow :=
    {[ "mana"%string := Character.initialRow 0 "mana" ]} in
  exists row,
    CharacterService.updateMood 4 "mana" (js "happy") db
    = Ok (row, <[ "mana"%string := row ]> db)
    /\ Character.mood row = js "happy"
    /\ Character.experience row = 0.
Proof.
  cbv zeta.
  destruct (proj1 (updateMood_behaviour 4 "mana" (js "happy")
                     {[ "mana"%string := Character.initialRow 0 "mana" ]})
              ltac:(vm_compute; tauto) (Character.initialRow 0 "mana")
              (lookup_singleton_eq _ _))
    as (row & Hrun & Hmood & _ & _ & _ & Hexp & _).
  exists row. split; [exact Hrun |]. split; [exact Hmood |].
  rewrite Hexp. reflexivity.
Defined.

(** *** The data routes *)

Lemma written_keeps_range now expGain st topic :
  0 <= expGain ->
  (forall t, In t topics -> 0 <= understandingColumn st t <= 100) ->
  forall t, In t topics ->
    0 <= understandingColumn (written now expGain st topic) t <= 100.
Proof.
  intros Hgain Hrange t Ht.
  destruct topic as [t0 |].
  - destruct (decide (In t0 topics)) as [Hin | Hout].
    + destruct (decide (t = t0)) as [-> | Hne].
      * rewrite written_column by exact Hin. specialize (Hrange t0 Hin). lia.
      * rewrite written_column_other by assumption. now apply Hrange.
    + rewrite written_without_topic; [now apply Hrange |].
      intros t1 [= <-]. exact Hout.
  - rewrite written_without_topic; [now apply Hrange | discriminate].
Qed.

Lemma addExperience_succeeds now userId expGain topic
    (db : gmap string Character.CharacterRow) :
  exists row db',
    Character.addExperience now userId expGain topic db = Ok (row, db')
    /\ db' !! userId = Some row.
Proof.
  destruct (db !! userId) as [st |] eqn:Hst.
  - eexists _, _. split; [apply (addExperience_stored now userId expGain db st Hst) |].
    apply lookup_insert_eq.
  - eexists _, _. split; [apply addExperience_created; exact Hst |].
    apply lookup_insert_eq.
Qed.

(** X17. The experience route answers 400 and leaves the table untouched
    when the experience is not a number or is negative; on a table that
    answers its queries every other request is answered with the updated
    row, never with a 500. Whatever
    the request, a user's four understanding values that were within
    0..100 before the route ran are within 0..100 after it. *)
Theorem experience_route (now : Z) (userId : string)
    (body : DataController.ExperienceBody)
    (db : gmap string Character.CharacterRow) :
  (match DataController.experience body with
   | Some e =>
       if e <? 0 then
         DataController.addExperience now userId body db
         = (DataController.failure 400 (js "Invalid experience value"), db)
       else
         exists row db',
           DataController.addExperience now userId body db
           = (DataController.success row, db')
           /\ db' !! userId = Some row
   | None =>
       DataController.addExperience now userId body db
       = (DataController.failure 400 (js "Invalid experience value"), db)
   end)
  /\ (forall st,
        db !! userId = Some st ->
        (forall t, In t topics -> 0 <= understandingColumn st t <= 100) ->
        exists row,
          snd (DataController.addExperience now userId body db) !! userId = Some row
          /\ forall t, In t topics -> 0 <= understandingColumn row t <= 100).
Proof.
  split.
  - unfold DataController.addExperience.
    destruct (DataController.experience body) as [e |]; [| reflexivity].
    destruct (e <? 0); [reflexivity |].
    destruct (addExperience_succeeds now userId e (DataController.topic body) db)
      as (row & db' & Hrun & Hrow).
    exists row, db'. rewrite Hrun. split; [reflexivity | exact Hrow].
  - intros st Hst Hrange. unfold DataController.addExperience.
    destruct (DataController.experience body) as [e |]; [| exists st; auto].
    destruct (Z.ltb_spec e 0); [exists st; auto |].
    rewrite (addExperience_stored now userId e db st Hst). cbn [snd].
    exists (written now e st (DataController.topic body)).
    split; [apply lookup_insert_eq |].
    now apply written_keeps_range.
Qed.

Lemma experience_route_in_range :
  let body := {| DataController.experience := Some 30;
                 DataController.topic := Some (js "algebra") |} in
  let db : gmap string Character.CharacterRow :=
    {[ "mana"%string := Character.initialRow 0 "mana" ]} in
  exists row,
    snd (DataController.addExperience 1 "mana" body db) !! "mana"%string = Some row
    /\ forall t, In t topics -> 0 <= understandingColumn row t <= 100.
Proof.
  cbv zeta.
  apply (proj2 (experience_route 1 "mana"
                  {| DataController.experience := Some 30;
                     DataController.topic := Some (js "algebra") |}
                  {[ "mana"%string := Character.initialRow 0 "mana" ]})
           (Character.initialRow 0 "mana") (lookup_singleton_eq _ _)).
  intros t Ht. each_topic Ht; vm_compute; split; discriminate.
Defined.

(** X18. The mood route answers 400 when the mood is missing or empty and
    answers with the updated row when the mood is one of the four names and
    the user has a row; a mood outside the four names is answered with
    status 500, not 400, and in every failing case the table is left as it
    was. *)
Theorem mood_route (now : Z) (userId : string) (mood : option jsstring)
    (db : gmap string Character.CharacterRow) :
  match mood with
  | None | Some [] =>
      DataController.updateMood now userId mood db
      = (DataController.failure 400 (js "Mood is required"), db)
  | Some m =>
      if array_includes CharacterService.validMoods m then
        match db !! userId with
        | Some st =>
            exists row,
              DataController.updateMood now userId mood db
              = (DataController.success row, <[userId := row]> db)
              /\ Character.mood row = m
        | None =>
            DataController.updateMood now userId mood db
            = (DataController.failure 500 (js "Failed to update mood"), db)
        end
      else
        DataController.updateMood now userId mood db
        = (DataController.failure 500 (js "Failed to update mood"), db)
  end.
Proof.
  destruct mood as [[| c m] |]; try reflexivity.
  unfold DataController.updateMood, CharacterService.updateMood.
  destruct (array_includes CharacterService.validMoods (c :: m)); [| reflexivity].
  unfold Character.updateCharacterState.
  destruct (db !! userId) as [st |]; [| reflexivity].
  cbn [try_catch]. eexists. split; reflexivity.
Qed.

(** *** The client's copy and the request validation *)

Lemma syncCharacter_fields row st :
  Client.syncCharacter row = Some st ->
  level st = Character.level row
  /\ experience st = Character.experience row
  /\ maxExp st = Character.level row * 100
  /\ totalProblems st = Character.totalProblems row
  /\ understanding st
     = {| algebra := Character.understandingAlgebra row;
          geometry := Character.understandingGeometry row;
          functions := Character.understandingFunctions row;
          probability := Character.understandingProbability row |}.
Proof.
  unfold Client.syncCharacter.
  destruct (Client.moodOfString (Character.mood row)); [| discriminate].
  intros [= <-]. repeat split.
Qed.

Lemma consistent_row_below_next_level (e l : Z) :
  0 <= e -> l = e / 100 + 1 -> 1 <= l /\ 0 <= e < l * 100.
Proof.
  intros He ->.
  pose proof (Z.div_mod e 100 ltac:(lia)) as Hdm.
  pose proof (Z.mod_pos_bound e 100 ltac:(lia)) as Hmod.
  assert (0 <= e / 100) by (apply Z.div_pos; lia).
  lia.
Qed.

(** X19. When the client's state is the copy of a server row whose level
    agrees with its experience ([level = floor(experience / 100) + 1]), the
    business rules of the chat validation reject every request once that
    level is 3 or more: the copy carries [maxExp = level * 100], which makes
    the expected level 1. With level 1 or 2 a question request without a
    message and with at most 100 history entries passes. *)
Theorem synced_state_and_level_rule (row : Character.CharacterRow)
    (st : CharacterState) (data : Validation.ChatRequestBody) :
  Client.syncCharacter row = Some st ->
  Validation.characterState data = st ->
  0 <= Character.experience row ->
  Character.level row = Character.experience row / 100 + 1 ->
  (3 <= Character.level row ->
   Validation.validateBusinessRules data <> None
   /\ Validation.validateChatRequest (Validation.schema_value data)
      = Validation.reject 400 (js "Business rule violation"))
  /\ (Character.level row <= 2 ->
      Validation.requestType data = Validation.question ->
      Validation.message data = None ->
      (List.length (Validation.conversationHistory data) <= 100)%nat ->
      Validation.validateBusinessRules data = None
      /\ Validation.validateChatRequest (Validation.schema_value data)
         = Validation.next data).
Proof.
  intros Hsync Hdata Hexp Hlevel.
  destruct (syncCharacter_fields row st Hsync) as (Hl & He & Hm & _ & _).
  destruct (consistent_row_below_next_level _ _ Hexp Hlevel) as [Hl1 Hlt].
  assert (Hexpected :
    experience (Validation.characterState data) / maxExp (Validation.characterState data)
    = 0).
  { rewrite Hdata, He, Hm. apply Z.div_small. lia. }
  split.
  - intros H3.
    assert (Hrules : Validation.validateBusinessRules data <> None).
    { unfold Validation.validateBusinessRules. rewrite Hexpected, Hdata, Hl.
      destruct (match Validation.requestType data with
                | Validation.question => false
                | Validation.answer => Validation.messageBlank (Validation.message data)
                end); [discriminate |].
      destruct (match Validation.message data with
                | Some (c :: m) => 2000 <? js_length (c :: m)
                | _ => false
                end); [discriminate |].
      destruct (100 <? Z.of_nat (List.length (Validation.conversationHistory data)));
        [discriminate |].
      destruct (Z.ltb_spec 1 (Z.abs (Character.level row - (0 + 1))));
        [discriminate | lia]. }
    split; [exact Hrules |].
    unfold Validation.validateChatRequest.
    destruct (Validation.validateBusinessRules data); [reflexivity | congruence].
  - intros H2 Hq Hmsg Hhist.
    assert (Hrules : Validation.validateBusinessRules data = None).
    { unfold Validation.validateBusinessRules.
      rewrite Hexpected, Hdata, Hl, Hq, Hmsg.
      destruct (Z.ltb_spec 100 (Z.of_nat (List.length (Validation.conversationHistory data))));
        [lia |].
      destruct (Z.ltb_spec 1 (Z.abs (Character.level row - (0 + 1)))); [lia | reflexivity]. }
    split; [exact Hrules |].
    unfold Validation.validateChatRequest. now rewrite Hrules.
Qed.

Lemma synced_state_and_level_rule_level_3 :
  let row :=
    {| Character.userId := "mana";
       Character.level := 3;
       Character.experience := 250;
       Character.understandingAlgebra := 40;
       Character.understandingGeometry := 35;
       Character.understandingFunctions := 20;
       Character.understandingProbability := 10;
       Character.mood := js "happy";
       Character.totalProblems := 21;
       Character.updatedAt := 7 |} in
  exists st,
    Client.syncCharacter row = Some st
    /\ Validation.validateChatRequest
         (Validation.schema_value
            {| Validation.message := None;
               Validation.conversationHistory := [];
               Validation.characterState := st;
               Validation.currentTopic := js "algebra";
               Validation.requestType := Validation.question |})
       = Validation.reject 400 (js "Business rule violation").
Proof.
  cbv zeta.
  match goal with
  | |- exists st, Client.syncCharacter ?r = _ /\ _ => set (row := r)
  end.
  assert (Hsync : exists st, Client.syncCharacter row = Some st)
    by (eexists; reflexivity).
  destruct Hsync as [st Hsync].
  exists st. split; [exact Hsync |].
  destruct (synced_state_and_level_rule row st
              {| Validation.message := None;
                 Validation.conversationHistory := [];
                 Validation.characterState := st;
                 Validation.currentTopic := js "algebra";
                 Validation.requestType := Validation.question |}
              Hsync eq_refl ltac:(vm_compute; discriminate) eq_refl) as [H3 _].
  exact (proj2 (H3 ltac:(vm_compute; discriminate))).
Defined.

Lemma hook_upto_facts st :
  hook_reachable_upto 100 st ->
  maxExp st = 100 /\ 0 <= experience st < 100 /\ 1 <= level st <= 2.
Proof.
  induction 1 as [| g m t prev Hreach IH Hg].
  - cbn. lia.
  - destruct IH as (Hmax & Hexp & Hlevel).
    cbn [Hook.updateCharacterState maxExp experience level].
    split; [exact Hmax |].
    split.
    + rewrite Z.rem_mod_nonneg by lia. apply Z.mod_pos_bound. lia.
    + assert (0 <= (experience prev + g) / 100) by (apply Z.div_pos; lia).
      assert ((experience prev + g) / 100 < 2)
        by (apply Z.div_lt_upper_bound; lia).
      lia.
Qed.

(** X20. A client state that was never replaced by a server row, reached
    from the initial character by updates with gains between 0 and 100,
    keeps [maxExp = 100], an experience below 100 and level 1 or 2, so it
    always satisfies the level rule of the chat validation: a question
    request without a message and with at most 100 history entries
    passes. *)
Theorem local_state_passes_level_rule (st : CharacterState)
    (data : Validation.ChatRequestBody) :
  hook_reachable_upto 100 st ->
  Validation.characterState data = st ->
  Validation.requestType data = Validation.question ->
  Validation.message data = None ->
  (List.length (Validation.conversationHistory data) <= 100)%nat ->
  maxExp st = 100 /\ 0 <= experience st < 100 /\ 1 <= level st <= 2
  /\ Validation.validateBusinessRules data = None.
Proof.
  intros Hreach Hdata Hq Hmsg Hhist.
  destruct (hook_upto_facts st Hreach) as (Hmax & Hexp & Hlevel).
  split; [exact Hmax |]. split; [exact Hexp |]. split; [exact Hlevel |].
  unfold Validation.validateBusinessRules. rewrite Hdata, Hq, Hmsg, Hmax.
  rewrite (Z.div_small (experience st) 100) by lia.
  destruct (Z.ltb_spec 100 (Z.of_nat (List.length (Validation.conversationHistory data))));
    [lia |].
  destruct (Z.ltb_spec 1 (Z.abs (level st - (0 + 1)))); [lia | reflexivity].
Qed.

Lemma local_state_passes_level_rule_after_four :
  let step := Hook.updateCharacterState 30 happy (js "algebra") in
  let st := step (step (step (step Hook.initialCharacter))) in
  hook_reachable_upto 100 st
  /\ level st = 2
  /\ Validation.validateBusinessRules
       {| Validation.message := None;
          Validation.conversationHistory := [];
          Validation.characterState := st;
          Validation.currentTopic := js "algebra";
          Validation.requestType := Validation.question |} = None.
Proof.
  cbv zeta.
  match goal with
  | |- hook_reachable_upto 100 ?s /\ _ =>
      assert (H : hook_reachable_upto 100 s)
        by (repeat (apply hook_upto_update; [| lia]); apply hook_upto_initial)
  end.
  split; [exact H |]. split; [reflexivity |].
  match goal with
  | |- Validation.validateBusinessRules ?d = None =>
      exact (proj2 (proj2 (proj2 (local_state_passes_level_rule _ d H eq_refl eq_refl eq_refl
                                    ltac:(cbn; lia)))))
  end.
Defined.

Lemma sync_understanding row st t :
  Client.syncCharacter row = Some st ->
  understandingOf st t = understandingColumn row t.
Proof.
  intros Hsync. destruct (syncCharacter_fields row st Hsync) as (_ & _ & _ & _ & Hu).
  unfold understandingOf, understandingColumn. rewrite Hu. reflexivity.
Qed.

(** X21. Starting from a client state that copies a server row, the
    client's own update and the server's [addExperience] for the same
    non-negative gain and topic disagree about the understanding as soon
    as the gain exceeds 5: the server adds at most 5 where the client adds
    the whole gain. The server's value never exceeds the client's, both
    agree for gains up to 5, and below the cap the client is ahead by
    exactly the gain minus 5. *)
Theorem client_runs_ahead_of_server (row : Character.CharacterRow)
    (st : CharacterState) (now expGain : Z) (newMood : Mood) (t : jsstring) :
  Client.syncCharacter row = Some st ->
  In t topics ->
  0 <= expGain ->
  let server := understandingColumn (written now expGain row (Some t)) t in
  let client := understandingOf (Hook.updateCharacterState expGain newMood t st) t in
  server <= client
  /\ (expGain <= 5 -> server = client)
  /\ (5 < expGain -> understandingColumn row t + expGain <= 100 ->
      client - server = expGain - 5).
Proof.
  intros Hsync Ht Hgain. cbv zeta.
  rewrite written_column by exact Ht.
  rewrite hook_understanding by exact Ht.
  rewrite (sync_understanding row st t Hsync).
  repeat split; lia.
Qed.

Lemma client_runs_ahead_of_server_gain_30 :
  let row := Character.initialRow 0 "mana" in
  exists st,
    Client.syncCharacter row = Some st
    /\ understandingColumn (written 1 30 row (Some (js "algebra"))) (js "algebra") = 5
    /\ understandingOf (Hook.updateCharacterState 30 excited (js "algebra") st)
         (js "algebra") = 30.
Proof.
  cbv zeta.
  assert (Hsync : exists st, Client.syncCharacter (Character.initialRow 0 "mana") = Some st)
    by (eexists; reflexivity).
  destruct Hsync as [st Hsync].
  exists st. split; [exact Hsync |].
  pose proof (client_runs_ahead_of_server (Character.initialRow 0 "mana") st 1 30 excited
                (js "algebra") Hsync ltac:(vm_compute; tauto) ltac:(lia)) as H.
  cbv zeta in H. destruct H as (_ & _ & Hahead).
  assert (Hserver :
    understandingColumn (written 1 30 (Character.initialRow 0 "mana") (Some (js "algebra")))
      (js "algebra") = 5) by reflexivity.
  split; [exact Hserver |].
  rewrite Hserver in Hahead.
  specialize (Hahead ltac:(lia) ltac:(vm_compute; discriminate)). lia.
Defined.

(** X22. Starting from a client state that copies a server row whose level
    agrees with its experience, and for a gain between 0 and 100, the
    client's update and the server's [addExperience] arrive at the same
    level and the same problem count, while the client keeps only the
    remainder of the server's experience modulo 100. *)
Theorem client_and_server_levels_agree (row : Character.CharacterRow)
    (st : CharacterState) (now expGain : Z) (newMood : Mood)
    (t : jsstring) (topic : option jsstring) :
  Client.syncCharacter row = Some st ->
  0 <= Character.experience row ->
  Character.level row = Character.experience row / 100 + 1 ->
  0 <= expGain <= 100 ->
  let server := written now expGain row topic in
  let client := Hook.updateCharacterState expGain newMood t st in
  level client = Character.level server
  /\ totalProblems client = Character.totalProblems server
  /\ experience client = Character.experience server mod 100.
Proof.
  intros Hsync Hexp Hlevel Hgain. cbv zeta.
  destruct (syncCharacter_fields row st Hsync) as (Hl & He & _ & Htp & _).
  rewrite written_level, written_totalProblems, written_experience.
  cbn [Hook.updateCharacterState level totalProblems experience].
  rewrite He, Htp.
  rewrite (level_exact_step _ _ _ (proj2 Hgain) Hlevel).
  rewrite Z.rem_mod_nonneg by lia.
  repeat split.
Qed.

Lemma client_and_server_levels_agree_crossing :
  let row :=
    {| Character.userId := "mana";
       Character.level := 1;
       Character.experience := 90;
       Character.understandingAlgebra := 15;
       Character.understandingGeometry := 0;
       Character.understandingFunctions := 0;
       Character.understandingProbability := 0;
       Character.mood := js "curious";
       Character.totalProblems := 4;
       Character.updatedAt := 3 |} in
  exists st,
    Client.syncCharacter row = Some st
    /\ level (Hook.updateCharacterState 30 happy (js "algebra") st)
       = Character.level (written 4 30 row (Some (js "algebra"))).
Proof.
  cbv zeta.
  match goal with
  | |- exists st, Client.syncCharacter ?r = _ /\ _ => set (row := r)
  end.
  assert (Hsync : exists st, Client.syncCharacter row = Some st)
    by (eexists; reflexivity).
  destruct Hsync as [st Hsync].
  exists st. split; [exact Hsync |].
  refine (proj1 (client_and_server_levels_agree row st 4 30 happy (js "algebra")
                   (Some (js "algebra")) Hsync _ _ _));
    [vm_compute; discriminate | reflexivity | lia].
Defined.

(** *** The chat routes *)

Lemma average_threshold (k : positive) (s : Z) :
  Qle_bool (Zpos k # 1) (inject_Z s / 4) = (4 * Zpos k <=? s).
Proof.
  unfold Qle_bool, Qdiv, Qmult, Qinv, inject_Z. cbn.
  destruct (Z.leb_spec (Z.pos k * Z.pos (1 * 4)) (s * 1 * 1)),
    (Z.leb_spec (4 * Z.pos k) s); try reflexivity; lia.
Qed.

(** X23. A question request never gets an error from the controller: the
    reply always carries a non-empty question, the request's topic, and a
    difficulty label taken from the sum of all four understanding values
    (beginner below 120, intermediate below 280, otherwise advanced), not
    from the understanding of the topic asked about. *)
Theorem question_request_always_answered
    (svc : AnswerEvaluation.AnswerEvaluationService) (u1 u2 : random_draw)
    (now : jsstring) (body : Validation.ChatRequestBody) :
  Validation.requestType body = Validation.question ->
  let u := understanding (Validation.characterState body) in
  let total := algebra u + geometry u + functions u + probability u in
  exists question,
    ChatController.handleChat svc u1 u2 now body
    = ChatController.question_reply question now (Validation.currentTopic body)
        (if total <? 120 then beginner
         else if total <? 280 then intermediate else advanced)
    /\ question <> [].
Proof.
  intros Hq. cbv zeta.
  unfold ChatController.handleChat. rewrite Hq.
  unfold ChatController.generateQuestion.
  destruct (generateQuestion_nonempty u1 u2
              {| MathQuestion.topic := Validation.currentTopic body;
                 MathQuestion.characterLevel := level (Validation.characterState body);
                 MathQuestion.understanding :=
                   understanding (Validation.characterState body);
                 MathQuestion.conversationHistory :=
                   Validation.conversationHistory body |})
    as (question & -> & Hne).
  exists question. split; [| exact Hne].
  f_equal. unfold ChatController.calculateDifficulty.
  change (30%Q) with (30 # 1). change (70%Q) with (70 # 1).
  rewrite !average_threshold.
  set (u := understanding (Validation.characterState body)).
  destruct (Z.leb_spec (4 * 30) (0 + algebra u + geometry u + functions u + probability u)),
    (Z.leb_spec (4 * 70) (0 + algebra u + geometry u + functions u + probability u)),
    (Z.ltb_spec (algebra u + geometry u + functions u + probability u) 120),
    (Z.ltb_spec (algebra u + geometry u + functions u + probability u) 280);
    try reflexivity; lia.
Qed.

Lemma question_request_always_answered_unknown_topic :
  exists question,
    ChatController.handleChat (AnswerEvaluation.new (Gemini.new None None))
      {| num := 0; gap := 0 |} {| num := 0; gap := 0 |} (js "2024-05-01T10:00:00.000Z")
      {| Validation.message := None;
         Validation.conversationHistory := [];
         Validation.characterState := Hook.initialCharacter;
         Validation.currentTopic := js "calculus";
         Validation.requestType := Validation.question |}
    = ChatController.question_reply question (js "2024-05-01T10:00:00.000Z")
        (js "calculus") beginner
    /\ question <> [].
Proof.
  exact (question_request_always_answered (AnswerEvaluation.new (Gemini.new None None))
           {| num := 0; gap := 0 |} {| num := 0; gap := 0 |} (js "2024-05-01T10:00:00.000Z")
           {| Validation.message := None;
              Validation.conversationHistory := [];
              Validation.characterState := Hook.initialCharacter;
              Validation.currentTopic := js "calculus";
              Validation.requestType := Validation.question |} eq_refl).
Defined.

(** X24. An answer request whose message is missing, empty or only white
    space never reaches the evaluation: the validation rejects it with
    status 400, and the controller alone would answer 400 as well. For any
    other message the controller answers with the evaluation, whose gain is
    between 3 and 30, or, if the evaluation throws, with status 500, gain 0
    and mood confused. *)
Theorem answer_request_outcomes
    (svc : AnswerEvaluation.AnswerEvaluationService) (u1 u2 : random_draw)
    (now : jsstring) (body : Validation.ChatRequestBody) :
  Validation.requestType body = Validation.answer ->
  (Validation.messageBlank (Validation.message body) = true ->
   ChatController.chatRoute svc u1 u2 now (Validation.schema_value body)
   = ChatController.error_reply 400 (js "Business rule violation") None None None
   /\ ChatController.handleChat svc u1 u2 now body
      = ChatController.error_reply 400 (js "Message is required") None None None)
  /\ (Validation.messageBlank (Validation.message body) = false ->
      (exists response expGain mood improvement,
         ChatController.handleChat svc u1 u2 now body
         = ChatController.evaluation_reply response expGain mood now
             (Validation.currentTopic body) improvement
         /\ 3 <= expGain <= 30 /\ 1 <= improvement <= 8)
      \/ (exists apology,
            ChatController.handleChat svc u1 u2 now body
            = ChatController.error_reply 500 (js "Failed to evaluate answer")
                (Some apology) (Some 0) (Some confused))).
Proof.
  intros Ha. split.
  - intros Hblank. split.
    + unfold ChatController.chatRoute, Validation.validateChatRequest,
        Validation.validateBusinessRules.
      rewrite Ha, Hblank. reflexivity.
    + unfold ChatController.handleChat, ChatController.evaluateAnswer.
      rewrite Ha, Hblank. reflexivity.
  - intros Hfull.
    unfold ChatController.handleChat, ChatController.evaluateAnswer.
    rewrite Ha, Hfull.
    destruct (AnswerEvaluation.evaluateAnswer svc u1 u2 _) as [r | e] eqn:Hrun.
    + left. destruct (evaluateAnswer_bounds_helper _ _ _ _ _ Hrun) as [Hg Hi].
      eexists _, _, _, _. split; [reflexivity |]. split; assumption.
    + right. eexists. reflexivity.
Qed.

Lemma answer_request_outcomes_blank :
  ChatController.chatRoute (AnswerEvaluation.new (Gemini.new None None))
    {| num := 0; gap := 0 |} {| num := 0; gap := 0 |} (js "2024-05-01T10:00:00.000Z")
    (Validation.schema_value
       {| Validation.message := Some (js "   ");
          Validation.conversationHistory := [];
          Validation.characterState := Hook.initialCharacter;
          Validation.currentTopic := js "geometry";
          Validation.requestType := Validation.answer |})
  = ChatController.error_reply 400 (js "Business rule violation") None None None.
Proof.
  exact (proj1 (proj1 (answer_request_outcomes
                         (AnswerEvaluation.new (Gemini.new None None))
                         {| num := 0; gap := 0 |} {| num := 0; gap := 0 |}
                         (js "2024-05-01T10:00:00.000Z")
                         {| Validation.message := Some (js "   ");
                            Validation.conversationHistory := [];
                            Validation.characterState := Hook.initialCharacter;
                            Validation.currentTopic := js "geometry";
                            Validation.requestType := Validation.answer |} eq_refl)
                  eq_refl)).
Defined.

(** *** Learning path, weakest topic and suggested level *)

Lemma learningPath_checked (m : Adaptive.LearningMetrics) :
  Adaptive.strugglingTopics m
  = map fst
      (List.filter (fun '(_, score) => score <? 30)
         (understanding_object (Adaptive.topicProficiency m))) ->
  Adaptive.masteredTopics m
  = map fst
      (List.filter (fun '(_, score) => 80 <=? score)
         (understanding_object (Adaptive.topicProficiency m))) ->
  path_check (LearningPath.learningPath m) = true.
Proof.
  intros Hs Hm. unfold LearningPath.learningPath. rewrite Hs, Hm.
  destruct (Adaptive.topicProficiency m) as [a g f p].
  unfold understanding_object.
  cbn [algebra geometry functions probability List.filter].
  destruct (Z.ltb_spec a 30), (Z.ltb_spec g 30), (Z.ltb_spec f 30), (Z.ltb_spec p 30);
    destruct (Z.leb_spec 80 a), (Z.leb_spec 80 g), (Z.leb_spec 80 f), (Z.leb_spec 80 p);
    try lia; vm_compute; reflexivity.
Qed.

(** X25. For a user with a stored row the learning path always has exactly
    four steps, numbered 1 to 4, and names each of the four topics exactly
    once: struggling topics first, then the topics in between, then the
    mastered ones, so the difficulty never goes down along the path. No
    step lists its own topic among its prerequisites. *)
Theorem learning_path_covers_topics (userId : string)
    (db : gmap string Character.CharacterRow) (row : Character.CharacterRow) :
  db !! userId = Some row ->
  exists p,
    LearningPath.generateLearningPath userId db = Ok p
    /\ LearningPath.totalSteps p = 4
    /\ LearningPath.currentStep p = 1
    /\ map LearningPath.step (LearningPath.path p) = [1; 2; 3; 4]
    /\ NoDup (map LearningPath.topic (LearningPath.path p))
    /\ (forall t, In t topics -> In t (map LearningPath.topic (LearningPath.path p)))
    /\ (forall s, In s (LearningPath.path p) ->
          ~ In (LearningPath.topic s) (LearningPath.prerequisites s))
    /\ difficulty_ascending (LearningPath.path p) = true.
Proof.
  intros Hrow.
  destruct (calculateLearningMetrics_stored userId db row Hrow)
    as (metrics & Hrun & _ & Hs & Hm).
  exists (LearningPath.learningPath metrics).
  split; [unfold LearningPath.generateLearningPath; rewrite Hrun; reflexivity |].
  pose proof (learningPath_checked metrics Hs Hm) as Hcheck.
  unfold path_check in Hcheck.
  repeat (apply andb_true_iff in Hcheck; destruct Hcheck as [Hcheck ?]).
  split; [now apply Z.eqb_eq |].
  split; [now apply Z.eqb_eq |].
  split; [eapply bool_decide_eq_true; eassumption |].
  split; [eapply bool_decide_eq_true; eassumption |].
  split.
  { intros t Ht. apply array_includes_In.
    match goal with
    | H : forallb (array_includes _) topics = true |- _ =>
        rewrite forallb_forall in H; now apply H
    end. }
  split; [| assumption].
  intros s Hin Hself.
  match goal with
  | H : forallb _ (LearningPath.path _) = true |- _ =>
      rewrite forallb_forall in H; specialize (H s Hin);
      apply andb_true_iff in H; destruct H as [H _];
      apply negb_true_iff in H
  end.
  apply array_includes_In in Hself. congruence.
Qed.

Lemma learning_path_covers_topics_scenario :
  let row :=
    {| Character.userId := "mana";
       Character.level := 2;
       Character.experience := 130;
       Character.understandingAlgebra := 20;
       Character.understandingGeometry := 85;
       Character.understandingFunctions := 50;
       Character.understandingProbability := 50;
       Character.mood := js "happy";
       Character.totalProblems := 12;
       Character.updatedAt := 7 |} in
  let db : gmap string Character.CharacterRow := {[ "mana"%string := row ]} in
  exists p,
    LearningPath.generateLearningPath "mana" db = Ok p
    /\ LearningPath.totalSteps p = 4
    /\ NoDup (map LearningPath.topic (LearningPath.path p)).
Proof.
  cbv zeta.
  match goal with
  | |- exists p, LearningPath.generateLearningPath _ {[ _ := ?r ]} = _ /\ _ =>
      destruct (learning_path_covers_topics "mana" {[ "mana"%string := r ]} r
                  (lookup_singleton_eq _ _))
        as (p & Hrun & Htotal & _ & _ & Hnd & _)
  end.
  exists p. split; [exact Hrun |]. split; [exact Htotal | exact Hnd].
Defined.

Lemma proficiency_values (m : Adaptive.LearningMetrics) :
  Adaptive.proficiency m (js "algebra") = algebra (Adaptive.topicProficiency m)
  /\ Adaptive.proficiency m (js "geometry") = geometry (Adaptive.topicProficiency m)
  /\ Adaptive.proficiency m (js "functions") = functions (Adaptive.topicProficiency m)
  /\ Adaptive.proficiency m (js "probability")
     = probability (Adaptive.topicProficiency m).
Proof. repeat split. Qed.

(** X26. The topic picked as weakest is one of the four and no topic has a
    lower proficiency; among topics tied for the lowest value the one
    listed last wins, so with four equal values the pick is probability. *)
Theorem weakestTopic_is_lowest (m : Adaptive.LearningMetrics) :
  In (Adaptive.weakestTopic m) topics
  /\ (forall t, In t topics ->
        Adaptive.proficiency m (Adaptive.weakestTopic m) <= Adaptive.proficiency m t)
  /\ (forall t, In t topics ->
        Adaptive.proficiency m t = Adaptive.proficiency m (Adaptive.weakestTopic m) ->
        forall i j,
          nth_error topics i = Some t ->
          nth_error topics j = Some (Adaptive.weakestTopic m) ->
          (i <= j)%nat).
Proof.
  destruct (proficiency_values m) as (Ha & Hg & Hf & Hp).
  rewrite weakestTopic_cases. cbv zeta.
  set (a := algebra (Adaptive.topicProficiency m)) in *.
  set (g := geometry (Adaptive.topicProficiency m)) in *.
  set (f := functions (Adaptive.topicProficiency m)) in *.
  set (p := probability (Adaptive.topicProficiency m)) in *.
  assert (Hidx : forall t i, nth_error topics i = Some t ->
            (i = 0%nat /\ t = js "algebra") \/ (i = 1%nat /\ t = js "geometry")
            \/ (i = 2%nat /\ t = js "functions") \/ (i = 3%nat /\ t = js "probability")).
  { intros t i. unfold topics. cbn [map].
    destruct i as [| [| [| [| i]]]]; cbn [nth_error];
      try (intros [= Heq]; subst t; auto 10).
    destruct i; discriminate. }
  assert (Hdistinct :
    js "algebra" <> js "geometry" /\ js "algebra" <> js "functions"
    /\ js "algebra" <> js "probability" /\ js "geometry" <> js "functions"
    /\ js "geometry" <> js "probability" /\ js "functions" <> js "probability")
    by (repeat split; vm_compute; discriminate).
  destruct Hdistinct as (D1 & D2 & D3 & D4 & D5 & D6).
  destruct (Z.ltb_spec a g), (Z.ltb_spec a f), (Z.ltb_spec a p),
    (Z.ltb_spec g f), (Z.ltb_spec g p), (Z.ltb_spec f p);
    try lia;
    (split; [vm_compute; tauto |]);
    (split;
     [ intros t Ht; each_topic Ht; rewrite ?Ha, ?Hg, ?Hf, ?Hp; lia
     | intros t Ht Heq i j Hi Hj;
       apply Hidx in Hi; apply Hidx in Hj;
       destruct Hj as [[-> Hj] | [[-> Hj] | [[-> Hj] | [-> Hj]]]];
       try congruence;
       destruct Hi as [[-> Hi] | [[-> Hi] | [[-> Hi] | [-> Hi]]]];
       try lia; subst t; rewrite ?Ha, ?Hg, ?Hf, ?Hp in Heq; lia ]).
Qed.
Lemma recommend_sound (m : Adaptive.LearningMetrics) :
  Adaptive.strugglingTopics m
  = map fst
      (List.filter (fun '(_, score) => score <? 30)
         (understanding_object (Adaptive.topicProficiency m))) ->
  Adaptive.masteredTopics m
  = map fst
      (List.filter (fun '(_, score) => 80 <=? score)
         (understanding_object (Adaptive.topicProficiency m))) ->
  Adaptive.recommend m <> []
  /\ forall r, In r (Adaptive.recommend m) -> recommendation_sound m r.
Proof.
  intros Hs Hm.
  assert (Hw := weakestTopic_cases m). cbv zeta in Hw.
  destruct (proficiency_values m) as (Ha & Hg & Hf & Hp).
  unfold recommendation_sound, Adaptive.recommend. cbv zeta.
  rewrite Hw, Hs, Hm. clear Hw.
  set (a := algebra (Adaptive.topicProficiency m)) in *.
  set (g := geometry (Adaptive.topicProficiency m)) in *.
  set (f := functions (Adaptive.topicProficiency m)) in *.
  set (p := probability (Adaptive.topicProficiency m)) in *.
  assert (Hobj : understanding_object (Adaptive.topicProficiency m)
                 = [ (js "algebra", a); (js "geometry", g);
                     (js "functions", f); (js "probability", p) ]) by reflexivity.
  rewrite Hobj. clear Hobj.
  cbn [List.filter].
  destruct (Z.ltb_spec a 30), (Z.ltb_spec g 30), (Z.ltb_spec f 30), (Z.ltb_spec p 30);
    destruct (Z.leb_spec 80 a), (Z.leb_spec 80 g), (Z.leb_spec 80 f), (Z.leb_spec 80 p);
    try lia;
    cbn [map fst app slice_first firstn];
    (split; [discriminate |]);
    intros r Hin; cbn [In] in Hin.
  all: repeat (destruct Hin as [<- | Hin]); try contradiction.
  all: cbn [Adaptive.recommendedTopic Adaptive.focusAreas Adaptive.questionType
            Adaptive.difficultyLevel].
  all: try (split; [vm_compute; tauto | split; [reflexivity |]];
            rewrite ?Ha, ?Hg, ?Hf, ?Hp; split; [reflexivity | lia]).
  all: repeat match goal with
              | |- context [if ?c then _ else _] => destruct c
              end.
  all: split; [vm_compute; tauto | split; [reflexivity |]].
  all: split; [reflexivity | split; [reflexivity |]].
  all: rewrite ?Ha, ?Hg, ?Hf, ?Hp; split; [lia | reflexivity].
Qed.

(** X27. For a user with a stored row the list of recommendations is never
    empty, and every entry is justified by the row: a concept entry is a
    beginner entry for a topic whose understanding is below 30, a
    problem-solving entry is an advanced entry for a topic at 80 or more,
    and an application entry appears only when no topic is below 30, names
    the weakest topic and has the difficulty of that topic's
    understanding. *)
Theorem recommendations_justified (userId : string)
    (db : gmap string Character.CharacterRow) (row : Character.CharacterRow) :
  db !! userId = Some row ->
  exists metrics recs,
    Adaptive.calculateLearningMetrics userId db = Ok metrics
    /\ Adaptive.generateRecommendations userId db = Ok recs
    /\ (forall t, Adaptive.proficiency metrics t = understandingColumn row t)
    /\ recs <> []
    /\ forall r, In r recs -> recommendation_sound metrics r.
Proof.
  intros Hrow.
  destruct (calculateLearningMetrics_stored userId db row Hrow)
    as (metrics & Hrun & Hprof & Hs & Hm).
  exists metrics, (Adaptive.recommend metrics).
  split; [exact Hrun |].
  split; [unfold Adaptive.generateRecommendations; rewrite Hrun; reflexivity |].
  split.
  { intros t. unfold Adaptive.proficiency, understandingColumn. rewrite Hprof.
    reflexivity. }
  exact (recommend_sound metrics Hs Hm).
Qed.

Lemma recommendations_justified_scenario :
  let row :=
    {| Character.userId := "mana";
       Character.level := 2;
       Character.experience := 130;
       Character.understandingAlgebra := 20;
       Character.understandingGeometry := 85;
       Character.understandingFunctions := 50;
       Character.understandingProbability := 50;
       Character.mood := js "happy";
       Character.totalProblems := 12;
       Character.updatedAt := 7 |} in
  let db : gmap string Character.CharacterRow := {[ "mana"%string := row ]} in
  exists metrics recs,
    Adaptive.generateRecommendations "mana" db = Ok recs
    /\ recs <> []
    /\ forall r, In r recs -> recommendation_sound metrics r.
Proof.
  cbv zeta.
  match goal with
  | |- exists metrics recs, Adaptive.generateRecommendations _ {[ _ := ?r ]} = _ /\ _ =>
      destruct (recommendations_justified "mana" {[ "mana"%string := r ]} r
                  (lookup_singleton_eq _ _))
        as (metrics & recs & _ & Hrun & _ & Hne & Hsound)
  end.
  exists metrics, recs. split; [exact Hrun |]. split; [exact Hne | exact Hsound].
Defined.

Lemma weakestTopic_is_lowest_scenario :
  let m :=
    {| Adaptive.userId := "mana";
       Adaptive.totalProblems := 12;
       Adaptive.topicProficiency :=
         {| algebra := 60; geometry := 45; functions := 45; probability := 70 |};
       Adaptive.currentLevel := 2;
       Adaptive.strugglingTopics := [];
       Adaptive.masteredTopics := [] |} in
  In (js "geometry") topics
  /\ Adaptive.proficiency m (Adaptive.weakestTopic m)
     <= Adaptive.proficiency m (js "geometry").
Proof.
  cbv zeta.
  assert (Ht : In (js "geometry") topics) by (vm_compute; tauto).
  split; [exact Ht |].
  exact (proj1 (proj2 (weakestTopic_is_lowest _)) (js "geometry") Ht).
Defined.

Lemma addExperience_total_new_user :
  (∅ : gmap string Character.CharacterRow) !! "mana"%string = None
  /\ exists row db',
       Character.addExperience 3 "mana" 25 (Some (js "algebra")) ∅ = Ok (row, db')
       /\ Character.experience row = 25
       /\ Character.totalProblems row = 1.
Proof.
  assert (Hnone : (∅ : gmap string Character.CharacterRow) !! "mana"%string = None)
    by apply lookup_empty.
  split; [exact Hnone |].
  destruct (addExperience_total 3 "mana" 25 (Some (js "algebra")) ∅)
    as (row & db' & Hrun & _ & _ & Hnew).
  destruct (Hnew Hnone) as (Hexp & Hcount & _).
  exists row, db'. split; [exact Hrun |]. split; [exact Hexp | exact Hcount].
Defined.

Lemma suggested_thresholds (total level : Z) :
  LearningPath.calculateSuggestedDifficulty (inject_Z total / 4) level
  = if 320 <=? total then level + 1
    else if 240 <=? total then level
    else Z.max 1 (level - 1).
Proof.
  unfold LearningPath.calculateSuggestedDifficulty.
  change (80%Q) with (80 # 1). change (60%Q) with (60 # 1).
  rewrite !average_threshold. reflexivity.
Qed.

(** X28. The suggested level computed from a row is the level plus one when
    the four understanding values sum to 320 or more (an average of at
    least 80), the level itself from 240 on, and otherwise one less but
    never below 1; for a level of at least 1 it therefore differs from the
    level by at most one and is itself at least 1. *)
Theorem suggestedLevel_thresholds (row : Character.CharacterRow) :
  let total :=
    Character.understandingAlgebra row + Character.understandingGeometry row
    + Character.understandingFunctions row + Character.understandingProbability row in
  LearningPath.suggestedLevel row
  = (if 320 <=? total then Character.level row + 1
     else if 240 <=? total then Character.level row
     else Z.max 1 (Character.level row - 1))
  /\ (1 <= Character.level row ->
      1 <= LearningPath.suggestedLevel row
      /\ Character.level row - 1 <= LearningPath.suggestedLevel row
         <= Character.level row + 1).
Proof.
  cbv zeta. unfold LearningPath.suggestedLevel.
  rewrite suggested_thresholds.
  rewrite !Z.add_0_l.
  split; [reflexivity |].
  intros Hl.
  destruct (320 <=? _); [lia |].
  destruct (240 <=? _); lia.
Qed.

Lemma suggestedLevel_thresholds_mastered :
  let row :=
    {| Character.userId := "mana";
       Character.level := 4;
       Character.experience := 350;
       Character.understandingAlgebra := 80;
       Character.understandingGeometry := 90;
       Character.understandingFunctions := 90;
       Character.understandingProbability := 90;
       Character.mood := js "excited";
       Character.totalProblems := 70;
       Character.updatedAt := 7 |} in
  1 <= Character.level row
  /\ LearningPath.suggestedLevel row = 5
  /\ 1 <= LearningPath.suggestedLevel row.
Proof.
  cbv zeta.
  match goal with
  | |- 1 <= Character.level ?r /\ _ =>
      destruct (suggestedLevel_thresholds r) as [Heq Hbound]
  end.
  cbv zeta in Heq, Hbound.
  assert (Hl : 1 <= 4) by lia.
  split; [exact Hl |].
  split; [rewrite Heq; reflexivity | exact (proj1 (Hbound Hl))].
Defined.
